(* ===== verification/_CoqProject ===== *)
-Q . S2P
Prelude.v
Float32.v
Round.v
Regs.v
Wire.v
Shadow.v
Sync.v
Sequencer.v
Tune.v
Driver.v
Chip.v
Radio.v
Timing.v
