(* ===== verification/Prelude.v ===== *)
(** * A verification development of the ESP32 SI4703 FM-receiver driver

    ** The program

    The program is [src/src/SI4703.cpp], [src/src/SI4703.h] and
    [src/src/SI4703_regs.h]: a C++ class [SI4703] driving a Silicon Labs
    Si4703 FM receiver over I2C (the Arduino [Wire] object).  The object
    keeps a shadow of the chip's sixteen 16-bit registers ([_regs]).
    [readRegisters] refills the whole shadow from the chip, whose read
    stream starts at register 0x0A and wraps at 0x10.  [writeRegisters]
    sends the control window 0x02 .. 0x07.  On top of these two the
    sequences [powerUp], [reset] and [setFrequency] stage bit fields,
    write, and wait with [delay].  The public surface is the constructor,
    [begin], [reset], [setFrequency], [getFrequency], [setVolume],
    [getRSSI] and [process].

    ** Files, modules and what they model

    - Prelude.v (this file): C conversions to [uint8_t]/[uint16_t]
      ([u8], [u16]), bit notations in [si4703_scope], the driver monad
      [M St A := St -> option (A * St)] ([None] is undefined behaviour),
      the hint databases [si4703], [si4703_run] and generic lemmas.
    - Float32.v, [Module F32]: C [float] as IEEE binary32 (Stdlib
      [SpecFloat], 24-bit precision, round to nearest even), the float
      literals, comparisons, [-], [/] and the [float -> uint16_t]
      conversion, which returns [None] (undefined) when the value does
      not fit.
    - Round.v, [Module Round]: what [SpecFloat]'s rounding does at
      binary32 on the operands of [setFrequency]: exact rounding of
      integers below [2^24], exact subtraction at equal exponents, the
      24-digit quotient as [M1 * 2^24 / M2], a rounding error of at most
      two units, and the truncation bound.  These are lemmas on the
      Standard Library's definitions, not on code of the repository.
    - Regs.v, [Module Regs]: every constant of SI4703_regs.h; the enums
      [SI4703_Register], [SI4703_State], [SI4703_SeekDirection].
    - Wire.v, [Module Wire]: the [Wire] calls and [delay], from the
      Arduino contract (not code of the repository).  The device is
      abstract, behind the class [I2CDevice] (answer to a read request,
      status of a write).  Every transaction and wait is appended to a
      trace of [bus_event]s, so ordering claims are claims on the trace.
    - Shadow.v, [Module Shadow]: the data members as the record
      [SI4703]; the system state [Sys D] = object + bus; the primitive
      accesses ([_regs[r]] bounds-checked against the array's 16 words,
      undefined behaviour outside them; field updates; one monadic
      action per [Wire] call); the invariant [regs_wf] (sixteen
      [uint16_t] words).
    - Sync.v, [Module Sync]: [readRegisters] and [writeRegisters] with
      their [uint8_t] loops, and run lemmas giving each method's result
      as a pure post-state ([read_post], [write_post]).
    - Sequencer.v, [Module Sequencer]: [powerUp] and [reset].
    - Tune.v, [Module Tune]: [setFrequency] (float clamp, channel
      conversion, two writes around [delay(60)]) and [getFrequency].
    - Driver.v, [Module Driver]: the constructor, [begin], [setVolume],
      [getRSSI], [process]; all methods as one [command] type, the step
      relation [step] (a command with a well-typed argument, or a change
      of the device), the [reachable] states, the driver's own moves
      [cmd_step] and [eventually P] (some run of [cmd_step] reaches
      [P]).
    - Chip.v, [Module Chip]: devices for the class [I2CDevice], modelled
      from the chip's documented behaviour (spec.md 4.1): a 16-register
      SI4703 at 0x10, an absent device, and a device that refuses writes.
      It also holds the abstract effect of [setVolume] and [setFrequency]
      on the chip's register file ([radio_volume], [radio_tune]).
    - Radio.v, [Module Radio]: an abstract specification of the receiver
      as its user sees it (spec.md 4.2 - 4.5): the record [radio]
      (session, DEVICEID, POWERCFG, CHAN and TUNE fields, volume, RSSI,
      cached frequency), what each command does to it ([radio_step]) and
      returns ([radio_result]), the abstraction [abs] of a system on the
      simulated chip, and the simulation of every command by it.
    - Timing.v, [Module Timing]: the waits of a trace ([waits]), the
      exact wait of each command branch ([wait_of]) and its bound
      ([max_wait]).

    Every method is written statement by statement in [M (Sys D)], with
    the guards and early returns of the source.  Each definition's
    comment names the lines it translates.

    ** What the theorems show (claim ids of the manifest)

    - Synchronizer: the read scatter rule, word k at (0x0A + k) mod 0x10
      (C1); the read loop leaves by its [break] after sixteen iterations
      (C9); a read is always defined (no index of [_regs] out of
      bounds) and keeps the store well formed (C25); a write is one
      transaction of 12 bytes, registers 0x02 .. 0x07 high byte first in
      ascending order (C27), and depends only on those registers (C26).
    - Round trips with the simulated chip: a read makes the shadow equal
      to the chip (C7); a write makes the chip's 0x02 .. 0x07 equal to the
      shadow (C8); write-then-read gives back what was written (C6).
    - Sequences, as traces: power-up (C3), reset (C21), tune (C2), volume
      (C5), RSSI (C22), begin (C20), and the no-op behaviour of an
      uninitialized driver (C23).
    - Refinement: on the chip, [setVolume] and [setFrequency] change its
      register file exactly as [radio_volume] and [radio_tune] say (C12,
      C11); for [setFrequency] this holds for every request that is not
      NaN, with a channel of [[0, 205]].
    - Simulation of an abstract specification: every command with a
      well-typed argument, from a state with the invariant of C4 on a
      chip of [uint16_t] words, changes the abstract radio exactly as
      [radio_step] says, returns [radio_result] and keeps the condition
      (C28), so it applies again to the next command.  The channel of
      the specification is the exact [floor((f - 87.5) / 0.1)] of C10.
    - Invariant: every reachable state has a well-formed store, address
      0x10 and a cached frequency of 0.0f or in [87.5, 108.0] (C4), by
      rule induction on [step].
    - Liveness: from any state at the chip's address, on a chip that
      answers with a non-zero DEVICEID, every non-NaN request can be
      carried out: the run [begin] then [setFrequency(f)] reaches a state
      with the channel of [f] in CHANNEL and TUNE clear (C13, stated with
      the [eventually] combinator over [cmd_step], so the device never
      helps).
    - Timing (spec.md section 5): every command only appends to the bus
      trace, and the waits it appends are exactly those of its branch:
      [begin] 10 or 120 ms, [reset] 120 ms, [setFrequency] 60 ms, others
      none (C14, Timing.v).
    - Safety of the array accesses: [_regs[r]] outside [0, 0x10) is
      undefined behaviour in the model ([get_reg], [set_reg] fail), and
      [readRegisters] is defined from every state whatever the device
      sends, keeping the store well formed (C25): its wrap test keeps
      every index in range.  The enumeration [SI4703_Register] is in
      bijection with the addresses other than 0x08 and 0x09 (lemma
      [Regs.reg_addr_bijection]).
    - Float tuning: for every float that is not NaN, the binary32
      channel computation equals the spec's [floor((f - 87.5) / 0.1)]
      computed exactly on the clamped value (C10, an equivalence with
      the reference [spec_channel], proved from the rounding lemmas of
      Round.v for all 2^32 floats at once); so the channel is in
      [[0, 205]] and NaN is the only request whose conversion is
      undefined (C16), and [setFrequency] is undefined behaviour exactly
      on NaN (C18).  Every EU grid frequency gets channel k or k - 1
      (C15); 82 of the 206 get k - 1 (lemma
      [Tune.setFrequency_grid_off_by_one], a finding), because their
      float literals lie below the decimal frequency; the band ends are
      clamped (C24).
    - Failure scenarios: an absent device passes [begin] (C17); a device
      that refuses writes still gets its frequency cached (lemma
      [Chip.setFrequency_deaf_caches], a finding; C2 states it for every
      device); after [begin] the chip is muted and [getFrequency]
      returns 0.0f (C19).

    ** Bounds and fuel

    The two C loops iterate a [uint8_t]; their [Fixpoint]s take fuel
    [loop_fuel = 256], more than a [uint8_t] has values.  C9 and the run
    lemmas prove that fuel never ends them: the read loop stops by its
    [break] after 16 rounds, the write loop by its guard after 6.  The
    grid theorems (C15 and the grid finding's lemma) evaluate the binary32 computation on all 206
    grid points by [vm_compute]; C10 and C16 are proved by reasoning on
    the rounding, with no enumeration.  Integers are [Z]
    with the conversions written out ([u8], [u16]) where the C code converts.

    ** Not modelled

    - Bus electrics, clock stretching, timeouts and the [Wire] return
      values the driver ignores.  [delay] is a trace event: elapsed time
      and the chip's settle times are not modelled.
    - The chip's analogue side: tuning, the STC flag, RSSI measurement and
      RDS.  The simulated chip is a register file.
    - Seek and RDS processing do not exist in this revision: [process] is
      an empty stub, and the two enums are data only.
    - Float arithmetic other than what the driver uses: only the
      subtraction and division of [setFrequency] are analysed (Round.v);
      the comparisons and the decimal literals are evaluated.
    - Concurrent callers: the methods run on the caller's thread and the
      class has no locking; the model runs one command at a time, as
      spec.md section 5 prescribes.

    Every statement of the three source files is translated by some
    definition of the development; what is listed above lies outside the
    repository (the Arduino core, the chip) or is absent from it. *)

From Stdlib Require Import ZArith Lia.
From stdpp Require Import base list.

Declare Scope si4703_scope.
Delimit Scope si4703_scope with si.
Open Scope Z_scope.

(** ** C integer conversions

    Converting an integer value to an unsigned C type of width [w] keeps
    it modulo [2^w] (C11 6.3.1.3:2).  [u8] is the conversion to
    [uint8_t], [u16] the conversion to [uint16_t]. *)

Definition u8 (z : Z) : Z := z mod 2 ^ 8.
Definition u16 (z : Z) : Z := z mod 2 ^ 16.

(** Range predicates, as booleans so that they evaluate. *)
Definition is_u8 (z : Z) : bool := (0 <=? z) && (z <? 2 ^ 8).
Definition is_u16 (z : Z) : bool := (0 <=? z) && (z <? 2 ^ 16).

(** Bit-operation notations in the style of the C source. *)
Infix "&'" := Z.land (at level 40, left associativity) : si4703_scope.
Infix "|'" := Z.lor (at level 50, left associativity) : si4703_scope.
Infix "<<'" := Z.shiftl (at level 35) : si4703_scope.
Infix ">>'" := Z.shiftr (at level 35) : si4703_scope.
Notation "~' a" := (Z.lnot a) (at level 35, right associativity) : si4703_scope.

Open Scope si4703_scope.

(** ** The driver monad

    Every method of the driver reads and writes the object's fields and
    the bus: it runs in a state monad over the whole system state [St].
    [None] is undefined behaviour of the C++ program (an out-of-range
    float-to-integer conversion): no defined result exists, so the
    development proves where it cannot happen. *)

Definition M (St A : Type) : Type := St -> option (A * St).

#[export] Instance M_ret {St} : MRet (M St) := fun A a s => Some (a, s).
#[export] Instance M_bind {St} : MBind (M St) :=
  fun A B f m s =>
    match m s with
    | Some (a, s') => f a s'
    | None => None
    end.

Definition m_modify {St} (f : St -> St) : M St unit := fun s => Some (tt, f s).
Definition m_gets {St A} (f : St -> A) : M St A := fun s => Some (f s, s).
(** Lift a partial C operation: [None] is undefined behaviour. *)
Definition m_lift {St A} (o : option A) : M St A :=
  fun s => match o with Some a => Some (a, s) | None => None end.

Create HintDb si4703 discriminated.
Create Rewrite HintDb si4703_run.

(** Linear arithmetic with [Z.div] and [Z.modulo] by constants: the
    Euclidean equations of each quotient, then [lia]. *)
Ltac div_lia := Z.div_mod_to_equations; lia.

Section MonadLaws.
Context {St : Type}.

Lemma run_ret {A} (a : A) (s : St) : (mret a : M St A) s = Some (a, s).
Proof. reflexivity. Qed.

Lemma run_bind {A B} (m : M St A) (f : A -> M St B) s :
  (m ≫= f) s = match m s with Some (a, s') => f a s' | None => None end.
Proof. reflexivity. Qed.

Lemma run_bind_Some {A B} (m : M St A) (f : A -> M St B) s a s' :
  m s = Some (a, s') -> (m ≫= f) s = f a s'.
Proof. intros H. rewrite run_bind, H. reflexivity. Qed.

Lemma run_bind_None {A B} (m : M St A) (f : A -> M St B) s :
  m s = None -> (m ≫= f) s = None.
Proof. intros H. rewrite run_bind, H. reflexivity. Qed.
End MonadLaws.

#[export] Hint Rewrite @run_ret @run_bind : si4703_run.

(** ** Lemmas on the C conversions *)

Lemma u8_range z : 0 <= u8 z < 2 ^ 8.
Proof. apply Z.mod_pos_bound. lia. Qed.

Lemma u16_range z : 0 <= u16 z < 2 ^ 16.
Proof. apply Z.mod_pos_bound. lia. Qed.

Lemma u8_id z : 0 <= z < 2 ^ 8 -> u8 z = z.
Proof. apply Z.mod_small. Qed.

Lemma u16_id z : 0 <= z < 2 ^ 16 -> u16 z = z.
Proof. apply Z.mod_small. Qed.

Lemma is_u16_spec z : is_u16 z = true <-> 0 <= z < 2 ^ 16.
Proof. unfold is_u16. rewrite andb_true_iff, Z.leb_le, Z.ltb_lt. lia. Qed.

Lemma is_u8_spec z : is_u8 z = true <-> 0 <= z < 2 ^ 8.
Proof. unfold is_u8. rewrite andb_true_iff, Z.leb_le, Z.ltb_lt. lia. Qed.

Lemma is_u16_u16 z : is_u16 (u16 z) = true.
Proof. apply is_u16_spec, u16_range. Qed.

#[export] Hint Resolve u8_range u16_range is_u16_u16 : si4703.

(** [u16] of a bitwise operation acts bitwise: bit [i] of the result is
    bit [i] of the operand below 16, and clear above. *)
Lemma u16_testbit z i :
  Z.testbit (u16 z) i = (0 <=? i) && (i <? 16) && Z.testbit z i.
Proof.
  unfold u16. destruct (Z.ltb_spec i 0).
  - rewrite !Z.testbit_neg_r by lia. now rewrite andb_false_r.
  - replace (2 ^ 16) with (2 ^ 16) by reflexivity.
    rewrite <- Z.land_ones by lia. rewrite Z.land_spec, Z.testbit_ones by lia.
    destruct (Z.leb_spec 0 i), (Z.ltb_spec i 16); simpl; try lia;
      now rewrite andb_comm.
Qed.

(** Bitwise or, and, and masking keep [uint16_t] values in range. *)
Lemma lor_u16 a b : 0 <= a < 2 ^ 16 -> 0 <= b < 2 ^ 16 -> 0 <= a |' b < 2 ^ 16.
Proof.
  intros Ha Hb.
  assert (Hm : a |' b = (a |' b) mod 2 ^ 16).
  { rewrite <- Z.land_ones, Z.land_lor_distr_l, !Z.land_ones by lia.
    rewrite !Z.mod_small by lia. reflexivity. }
  rewrite Hm. apply Z.mod_pos_bound. lia.
Qed.

Lemma land_u16 a b : 0 <= a < 2 ^ 16 -> 0 <= a &' b < 2 ^ 16.
Proof.
  intros Ha.
  assert (Hm : a &' b = (a &' b) mod 2 ^ 16).
  { rewrite <- Z.land_ones, <- Z.land_assoc, (Z.land_comm b), Z.land_assoc by lia.
    rewrite Z.land_ones, Z.mod_small by lia. reflexivity. }
  rewrite Hm. apply Z.mod_pos_bound. lia.
Qed.

#[export] Hint Resolve lor_u16 land_u16 : si4703.

(** Replacing the low field [w &= ~mask; w |= v] with [mask = 2^n - 1]:
    the field then reads [v] and the bits above it are those of [w]. *)
Lemma field_set_low w v n :
  0 <= n -> 0 <= v < 2 ^ n -> ((w &' ~' Z.ones n) |' v) &' Z.ones n = v.
Proof.
  intros Hn Hv. apply Z.bits_inj'. intros i Hi.
  rewrite Z.land_spec, Z.lor_spec, Z.land_spec, Z.lnot_spec by lia.
  destruct (Z.ltb_spec i n).
  - rewrite Z.ones_spec_low by lia. simpl. now rewrite andb_false_r, andb_true_r.
  - rewrite Z.ones_spec_high by lia. rewrite andb_false_r.
    rewrite <- (Z.mod_small v (2 ^ n)) by lia. now rewrite Z.mod_pow2_bits_high by lia.
Qed.

Lemma field_set_high w v n :
  0 <= n -> 0 <= v < 2 ^ n -> ((w &' ~' Z.ones n) |' v) &' ~' Z.ones n = w &' ~' Z.ones n.
Proof.
  intros Hn Hv. apply Z.bits_inj'. intros i Hi.
  rewrite !Z.land_spec, Z.lor_spec, Z.land_spec, !Z.lnot_spec by lia.
  destruct (Z.ltb_spec i n).
  - rewrite Z.ones_spec_low by lia. simpl. now rewrite !andb_false_r.
  - rewrite Z.ones_spec_high by lia. simpl. rewrite !andb_true_r.
    rewrite <- (Z.mod_small v (2 ^ n)) by lia. rewrite Z.mod_pow2_bits_high by lia.
    now rewrite orb_false_r.
Qed.

(** Low bits of a [u16] value: masking with [2^k - 1] keeps the value mod
    [2^k]. *)
Lemma land_ones_mod z k : 0 <= k -> Z.land z (Z.ones k) = z mod 2 ^ k.
Proof. intros Hk. now rewrite Z.land_ones. Qed.

(** The high and low byte of a 16-bit word put back together give the
    word: the byte split the bus transfers is lossless. *)
Lemma word_bytes_recombine w :
  0 <= w < 2 ^ 16 ->
  Z.lor (Z.shiftl (Z.shiftr w 8) 8) (Z.land w 255) = w.
Proof.
  intros Hw. apply Z.bits_inj'. intros i Hi.
  rewrite Z.lor_spec, Z.land_spec. change 255 with (Z.ones 8).
  destruct (Z.ltb_spec i 8).
  - rewrite Z.shiftl_spec_low, Z.ones_spec_low by lia. now rewrite andb_true_r.
  - rewrite Z.shiftl_spec, Z.shiftr_spec, Z.ones_spec_high by lia.
    replace (i - 8 + 8) with i by lia. now rewrite andb_false_r, orb_false_r.
Qed.

(** Generic list lemma: inserting at an index then reading another index
    of the total lookup. *)
Lemma lookup_total_insert_Z (l : list Z) (i j : nat) (v : Z) :
  (i < length l)%nat ->
  <[i := v]> l !!! j = if decide (i = j) then v else l !!! j.
Proof.
  intros Hi. case_decide; subst.
  - now apply list_lookup_total_insert_eq.
  - now apply list_lookup_total_insert_ne.
Qed.

(** Two lists of length [n] with the same total lookups below [n] are
    equal. *)
Lemma list_eq_lookup_total (l1 l2 : list Z) n :
  length l1 = n -> length l2 = n -> (forall i, (i < n)%nat -> l1 !!! i = l2 !!! i) -> l1 = l2.
Proof.
  intros H1 H2 Heq. apply list_eq. intros i. destruct (decide (i < n)%nat) as [Hi|Hi].
  - rewrite !list_lookup_lookup_total_lt by lia. now rewrite Heq.
  - rewrite !lookup_ge_None_2 by lia. reflexivity.
Qed.

Lemma length_flat_map_pair {A} (h l : nat -> A) n :
  length (flat_map (fun i => [h i; l i]) (seq 0 n)) = (2 * n)%nat.
Proof. induction n; [done|]. rewrite seq_S, flat_map_app, length_app, IHn. simpl. lia. Qed.

(** The [k]-th pair of a list flattened from pairs sits at [2k] and
    [2k + 1]. *)
Lemma lookup_flat_map_pair {A} (h l : nat -> A) n k :
  (k < n)%nat ->
  flat_map (fun i => [h i; l i]) (seq 0 n) !! (2 * k)%nat = Some (h k) /\
  flat_map (fun i => [h i; l i]) (seq 0 n) !! S (2 * k) = Some (l k).
Proof.
  induction n as [|n IH]; intros Hk; [lia|].
  rewrite seq_S, flat_map_app. cbn [flat_map app].
  destruct (decide (k < n)%nat) as [Hlt|Hge].
  - rewrite !lookup_app_l by (rewrite length_flat_map_pair; lia). auto.
  - assert (k = n) as -> by lia.
    rewrite !lookup_app_r by (rewrite length_flat_map_pair; lia).
    rewrite length_flat_map_pair, Nat.sub_diag, Nat.sub_succ_l, Nat.sub_diag by lia. auto.
Qed.
