(* ===== verification/Float32.v ===== *)
(** * Float32: the C [float] type of the driver

    The driver computes the tuning channel in single precision
    ([SI4703::setFrequency], src/src/SI4703.cpp lines 100-128, with the
    [float] constants of src/src/SI4703_regs.h lines 117-119).  The ESP32
    evaluates [float] expressions in IEEE-754 binary32 with
    round-to-nearest-even (FLT_EVAL_METHOD = 0), which is exactly the
    Standard Library's [SpecFloat] at [prec = 24], [emax = 128].

    This file holds the binary32 operations the driver uses, decimal
    literals, the C conversion [float -> uint16_t] (undefined when the
    integral part does not fit), and the order lemmas the clamping code
    relies on. *)

From Stdlib Require Import ZArith Lia Floats.SpecFloat.
From stdpp Require Import base.
From S2P Require Import Prelude.

Open Scope Z_scope.

Module F32.

Definition prec : Z := 24.
Definition emax : Z := 128.

(** A binary32 datum: zero, infinity, NaN or [m * 2^e]. *)
Abbreviation float32 := spec_float.

(** The integer [z] rounded to binary32 (exact for [|z| < 2^24]). *)
Definition of_Z (z : Z) : float32 := binary_normalize prec emax z 0 false.

(** Binary32 arithmetic, rounded to nearest even. *)
Definition sub (x y : float32) : float32 := SFsub prec emax x y.
Definition div (x y : float32) : float32 := SFdiv prec emax x y.

(** A decimal literal [p * 10^-k], as the C compiler reads it: the
    binary32 nearest to the decimal, which is the correctly rounded
    quotient of the two exact integers [p] and [10^k]. *)
Definition of_decimal (p : Z) (k : nat) : float32 :=
  div (of_Z p) (of_Z (10 ^ Z.of_nat k)).

(** The C relational operators on floats: false whenever an operand
    is NaN. *)
Definition lt (x y : float32) : bool := SFltb x y.
Definition gt (x y : float32) : bool := SFltb y x.

Definition is_nan (x : float32) : bool :=
  match x with S754_nan => true | _ => false end.

(** Truncation toward zero of a finite value [(-1)^s * m * 2^e]. *)
Definition trunc_finite (s : bool) (m : positive) (e : Z) : Z :=
  let a := if 0 <=? e then Z.shiftl (Zpos m) e else Z.shiftr (Zpos m) (- e) in
  if s then - a else a.

(** The conversion [(uint16_t) x] of a float (C11 6.3.1.4:1): the value
    is truncated toward zero; when the integral part is not
    representable in [uint16_t] (and for infinities and NaN) the
    behaviour is undefined, which is [None]. *)
Definition to_u16 (x : float32) : option Z :=
  match x with
  | S754_zero _ => Some 0
  | S754_finite s m e =>
      let t := trunc_finite s m e in
      if is_u16 t then Some t else None
  | S754_infinity _ | S754_nan => None
  end.

(** ** Lemmas *)

Lemma to_u16_range x c : to_u16 x = Some c -> 0 <= c < 2 ^ 16.
Proof.
  destruct x as [s|s| |s m e]; simpl; try discriminate.
  - intros [= <-]. lia.
  - destruct (is_u16 (trunc_finite s m e)) eqn:E; [|discriminate].
    intros [= <-]. now apply is_u16_spec.
Qed.

(** Comparison of two positive finite floats: exponents first, then
    mantissas. *)
Lemma compare_pos_finite m1 e1 m2 e2 :
  SFcompare (S754_finite false m1 e1) (S754_finite false m2 e2)
  = Some (match Z.compare e1 e2 with Eq => Pos.compare m1 m2 | c => c end).
Proof. simpl. now destruct (Z.compare e1 e2). Qed.

(** The C [<] and [<=] on positive finite floats, as integer tests. *)
Lemma ltb_pos_finite m1 e1 m2 e2 :
  SFltb (S754_finite false m1 e1) (S754_finite false m2 e2) =
  (e1 <? e2) || ((e1 =? e2) && (Zpos m1 <? Zpos m2)).
Proof.
  unfold SFltb. rewrite compare_pos_finite.
  destruct (Z.compare_spec e1 e2) as [->|H|H].
  - rewrite Z.ltb_irrefl, Z.eqb_refl. simpl.
    destruct (Pos.compare_spec m1 m2); symmetry; apply Z.ltb_lt || apply Z.ltb_ge; lia.
  - apply Z.ltb_lt in H. now rewrite H.
  - rewrite (proj2 (Z.ltb_ge e1 e2)), (proj2 (Z.eqb_neq e1 e2)) by lia. reflexivity.
Qed.

Lemma leb_pos_finite m1 e1 m2 e2 :
  SFleb (S754_finite false m1 e1) (S754_finite false m2 e2) =
  (e1 <? e2) || ((e1 =? e2) && (Zpos m1 <=? Zpos m2)).
Proof.
  unfold SFleb. rewrite compare_pos_finite.
  destruct (Z.compare_spec e1 e2) as [->|H|H].
  - rewrite Z.ltb_irrefl, Z.eqb_refl. simpl.
    destruct (Pos.compare_spec m1 m2); symmetry; apply Z.leb_le || apply Z.leb_gt; lia.
  - apply Z.ltb_lt in H. now rewrite H.
  - rewrite (proj2 (Z.ltb_ge e1 e2)), (proj2 (Z.eqb_neq e1 e2)) by lia. reflexivity.
Qed.

(** Every float that is not below a positive finite [a], not above a
    positive finite [b] of the same exponent [e], and not NaN, is a
    positive finite float of exponent [e] with its mantissa between
    theirs.  (No canonicity hypothesis is needed: [SFcompare] compares
    exponents first.) *)
Lemma window_same_exp x ma mb e :
  lt x (S754_finite false ma e) = false ->
  is_nan x = false ->
  lt (S754_finite false mb e) x = false ->
  exists m, x = S754_finite false m e /\ (Zpos ma <= Zpos m <= Zpos mb).
Proof.
  unfold lt, SFltb. intros Hlo Hnan Hhi.
  destruct x as [s|s| |s m e']; try discriminate.
  - destruct s; simpl in *; discriminate.
  - destruct s; [simpl in Hlo; discriminate|].
    rewrite compare_pos_finite in Hlo, Hhi.
    rewrite (Z.compare_antisym e' e) in Hhi.
    destruct (Z.compare_spec e' e) as [->|Hc|Hc]; simpl in Hhi; try discriminate.
    exists m. split; [reflexivity|].
    destruct (Pos.compare_spec m ma); try discriminate;
      destruct (Pos.compare_spec mb m); try discriminate; lia.
Qed.

(** A float that compares [Eq] to a positive finite float is that
    float. *)
Lemma compare_eq_finite x m e :
  SFcompare x (S754_finite false m e) = Some Eq -> x = S754_finite false m e.
Proof.
  intros H. destruct x as [s|s| |s m' e']; try discriminate; try (destruct s; discriminate).
  destruct s; [discriminate|]. rewrite compare_pos_finite in H.
  destruct (Z.compare_spec e' e) as [->| |]; try discriminate.
  injection H as H. apply Pos.compare_eq in H. now subst.
Qed.

End F32.
