(* ===== verification/Round.v ===== *)
(** * Round: what binary32 rounding does on the driver's operands

    Facts about the Standard Library's [SpecFloat] operations at
    [prec = 24], [emax = 128] (the C [float] of Float32.v), stated for the
    operands [setFrequency] feeds them: a positive integer below [2^24] is
    rounded exactly; the difference of two floats with the same exponent
    is the exact rounding of the difference of their mantissas; the
    quotient of two 24-bit mantissas is the rounding of
    [M1 * 2^24 / M2] with the location of its remainder; and that
    rounding is correct: the result is within half a unit of its last
    place of the exact quotient ([round_aux_near]).  Tune.v uses them to
    show that the channel of every non-NaN request is the exact
    [floor((f - 87.5) / 0.1)]. *)

From Stdlib Require Import ZArith Lia Floats.SpecFloat.
From S2P Require Import Prelude Float32.

Open Scope Z_scope.

Module Round.

(** ** Digits and shifts *)

Lemma digits2_pos_size p : digits2_pos p = Pos.size p.
Proof. induction p; simpl; congruence. Qed.

Lemma pow_pred s : 1 <= s -> 2 ^ s = 2 * 2 ^ (s - 1).
Proof. intros Hs. rewrite <- Z.pow_succ_r by lia. f_equal. lia. Qed.

Lemma size_bounds p :
  2 ^ (Zpos (Pos.size p) - 1) <= Zpos p < 2 ^ Zpos (Pos.size p).
Proof.
  induction p as [p IH|p IH|]; [| |split; reflexivity]; cbn [Pos.size];
    rewrite Pos2Z.inj_succ, ?(Pos2Z.inj_xI p), ?(Pos2Z.inj_xO p);
    replace (Z.succ (Zpos (Pos.size p)) - 1) with (Zpos (Pos.size p)) by lia;
    rewrite Z.pow_succ_r by lia;
    pose proof (pow_pred (Zpos (Pos.size p)) ltac:(lia)); lia.
Qed.

(** The number of binary digits of [p] is [d] when [2^(d-1) <= p < 2^d]. *)
Lemma size_eq p d : 1 <= d -> 2 ^ (d - 1) <= Zpos p < 2 ^ d -> Zpos (Pos.size p) = d.
Proof.
  intros Hd [Hlo Hhi]. pose proof (size_bounds p) as [Slo Shi].
  destruct (Z.lt_trichotomy (Zpos (Pos.size p)) d) as [Hlt|[Heq|Hgt]]; [|exact Heq|].
  - assert (2 ^ Zpos (Pos.size p) <= 2 ^ (d - 1)) by (apply Z.pow_le_mono_r; lia). lia.
  - assert (2 ^ d <= 2 ^ (Zpos (Pos.size p) - 1)) by (apply Z.pow_le_mono_r; lia). lia.
Qed.

Lemma Zdigits2_pos p : Zdigits2 (Zpos p) = Zpos (Pos.size p).
Proof. cbn. now rewrite digits2_pos_size. Qed.

Lemma pos_iter_xO p n : Zpos (Pos.iter xO p n) = Zpos p * 2 ^ Zpos n.
Proof.
  induction n as [|n IH] using Pos.peano_ind.
  - cbn. lia.
  - rewrite Pos.iter_succ, (Pos2Z.inj_xO (Pos.iter xO p n)), IH, Pos2Z.inj_succ, Z.pow_succ_r by lia. lia.
Qed.

(** [fexp] in the normal range. *)
Lemma fexp24 e : -125 <= e -> fexp 24 128 e = e - 24.
Proof. intros He. unfold fexp, emin. lia. Qed.

Lemma shr_nonpos mrs e n : n <= 0 -> shr mrs e n = (mrs, e).
Proof. intros Hn. destruct n; [reflexivity | lia | reflexivity]. Qed.

Lemma shr_1_m mrs : 0 <= shr_m mrs -> shr_m (shr_1 mrs) = shr_m mrs / 2.
Proof.
  destruct mrs as [m r s]. cbn [shr_m]. intros Hm.
  destruct m as [|p|p]; [reflexivity| |lia].
  destruct p as [p|p|]; cbn [shr_1 shr_m].
  - rewrite Pos2Z.inj_xI, Z.add_comm, Z.mul_comm, Z.div_add by lia. reflexivity.
  - rewrite Pos2Z.inj_xO, Z.mul_comm, Z.div_mul by lia. reflexivity.
  - reflexivity.
Qed.

Lemma shr_m_record m l : shr_m (shr_record_of_loc m l) = m.
Proof. destruct l as [|[]]; reflexivity. Qed.

Lemma loc_of_record m l : loc_of_shr_record (shr_record_of_loc m l) = l.
Proof. destruct l as [|[]]; reflexivity. Qed.

Lemma rne_bounds mx lx : mx <= round_nearest_even mx lx <= mx + 1.
Proof. destruct lx as [|[]]; cbn; try lia. destruct (Z.even mx); lia. Qed.

(** ** The two shifts of [binary_round_aux]

    [shr_fexp m e l] keeps a mantissa [m] below [2^24] as it is, and
    shifts a 25-digit one right by one place. *)
Lemma shr_fexp_facts m e l :
  0 < m < 2 ^ 25 -> -125 <= e ->
  exists mrs e', shr_fexp 24 128 m e l = (mrs, e') /\
    ((m < 2 ^ 24 /\ mrs = shr_record_of_loc m l /\ e' = e) \/
     (2 ^ 24 <= m /\ mrs = shr_1 (shr_record_of_loc m l) /\ e' = e + 1)).
Proof.
  intros [Hm0 Hm1] He. destruct m as [|p|p]; try lia. unfold shr_fexp.
  rewrite Zdigits2_pos. pose proof (size_bounds p) as [Slo Shi].
  assert (HD : 1 <= Zpos (Pos.size p)) by lia.
  revert Slo Shi HD. generalize (Zpos (Pos.size p)) as D. intros D Slo Shi HD.
  rewrite fexp24 by lia.
  destruct (Z_lt_le_dec (Zpos p) (2 ^ 24)) as [Hlt|Hge].
  - assert (D <= 24).
    { destruct (Z_le_gt_dec D 24); [assumption|].
      assert (2 ^ 24 <= 2 ^ (D - 1)) by (apply Z.pow_le_mono_r; lia). lia. }
    rewrite shr_nonpos by lia. do 2 eexists; split; [reflexivity|]. left; auto.
  - assert (D = 25).
    { assert (~ D <= 24) by (intros ?; assert (2 ^ D <= 2 ^ 24) by (apply Z.pow_le_mono_r; lia); lia).
      assert (~ 26 <= D) by (intros ?; assert (2 ^ 25 <= 2 ^ (D - 1)) by (apply Z.pow_le_mono_r; lia); lia).
      lia. }
    subst D. replace (25 + e - 24 - e) with 1 by lia.
    cbn [shr iter_pos]. do 2 eexists; split; [reflexivity|].
    right. auto.
Qed.

(** A 24-digit mantissa at a normal exponent is left as it is. *)
Lemma round_aux_exact m e :
  2 ^ 23 <= Zpos m < 2 ^ 24 -> -125 <= e <= 104 ->
  binary_round_aux 24 128 false (Zpos m) e loc_Exact = S754_finite false m e.
Proof.
  intros Hm He. unfold binary_round_aux.
  destruct (shr_fexp_facts (Zpos m) e loc_Exact ltac:(lia) ltac:(lia))
    as (mrs & e' & -> & [(_ & -> & ->)|(? & _)]); [|lia].
  rewrite shr_m_record, loc_of_record. cbn [round_nearest_even].
  destruct (shr_fexp_facts (Zpos m) e loc_Exact ltac:(lia) ltac:(lia))
    as (mrs & e' & -> & [(_ & -> & ->)|(? & _)]); [|lia].
  rewrite shr_m_record. replace (e <=? 128 - 24) with true by (symmetry; apply Z.leb_le; lia).
  reflexivity.
Qed.

(** [shl_align] pads a mantissa of [d <= 24] digits to 24 digits. *)
Lemma shl_align_pad k d e :
  d <= 24 ->
  exists mz, shl_align k e (d + e - 24) = (mz, d + e - 24) /\
             Zpos mz = Zpos k * 2 ^ (24 - d).
Proof.
  intros Hd. unfold shl_align. replace (d + e - 24 - e) with (d - 24) by lia.
  destruct (d - 24) as [|x|x] eqn:Ex; [|lia|].
  - exists k. split; [f_equal; lia|]. replace (24 - d) with 0 by lia. lia.
  - exists (Pos.iter xO k x). split; [reflexivity|].
    rewrite pos_iter_xO. do 2 f_equal. lia.
Qed.

(** A positive integer below [2^24] is rounded exactly, to a 24-digit
    mantissa at an exponent [E <= e]. *)
Lemma binary_round_exact k e :
  Zpos k < 2 ^ 24 -> -100 <= e <= 80 ->
  exists M E, binary_round 24 128 false k e = S754_finite false M E /\
    Zpos M = Zpos k * 2 ^ (e - E) /\ E <= e /\ 2 ^ 23 <= Zpos M < 2 ^ 24.
Proof.
  intros Hk He. unfold binary_round. rewrite digits2_pos_size.
  pose proof (size_bounds k) as [Slo Shi].
  assert (HD : 1 <= Zpos (Pos.size k)) by lia.
  revert Slo Shi HD. generalize (Zpos (Pos.size k)) as D. intros D Slo Shi HD.
  assert (D <= 24).
  { destruct (Z_le_gt_dec D 24); [assumption|].
    assert (2 ^ 24 <= 2 ^ (D - 1)) by (apply Z.pow_le_mono_r; lia). lia. }
  rewrite fexp24 by lia.
  destruct (shl_align_pad k D e ltac:(lia)) as (mz & -> & Hmz).
  assert (Hlo : 2 ^ (D - 1) * 2 ^ (24 - D) = 2 ^ 23)
    by (rewrite <- Z.pow_add_r by lia; f_equal; lia).
  assert (Hhi : 2 ^ D * 2 ^ (24 - D) = 2 ^ 24)
    by (rewrite <- Z.pow_add_r by lia; f_equal; lia).
  assert (0 < 2 ^ (24 - D)) by (apply Z.pow_pos_nonneg; lia).
  assert (2 ^ 23 <= Zpos mz < 2 ^ 24) by nia.
  rewrite round_aux_exact by lia.
  exists mz, (D + e - 24). repeat split; try lia.
  rewrite Hmz. do 2 f_equal. lia.
Qed.

(** ** Locations and correct rounding

    [loc_ok N D q l]: [q] is the integer part of [N / D] and [l] says
    where the remainder lies with respect to [D / 2], the way
    [SpecFloat] encodes the discarded part of a mantissa. *)
Definition loc_ok (N D q : Z) (l : location) : Prop :=
  0 <= N - q * D < D /\
  match l with
  | loc_Exact => N - q * D = 0
  | loc_Inexact Lt => 0 < N - q * D /\ 2 * (N - q * D) < D
  | loc_Inexact Eq => 2 * (N - q * D) = D
  | loc_Inexact Gt => D < 2 * (N - q * D)
  end.

(** [new_location] classifies the remainder of a division. *)
Lemma new_location_ok N d :
  0 < d -> loc_ok N d (N / d) (new_location d (N mod d)).
Proof.
  intros Hd. pose proof (Z.mod_pos_bound N d Hd) as Hr.
  assert (Hq : N - N / d * d = N mod d) by (rewrite (Z.div_mod N d) at 1 by lia; lia).
  unfold loc_ok, new_location, new_location_even, new_location_odd. rewrite Hq.
  destruct (Z.even d) eqn:Ed; destruct (Z.eqb_spec (N mod d) 0); try (split; lia).
  - destruct (Z.compare_spec (2 * (N mod d)) d); lia.
  - assert (2 * (N mod d) <> d) by (intros Hc; rewrite <- Hc, Z.even_mul in Ed; discriminate).
    destruct (Z.compare_spec (2 * (N mod d) + 1) d); lia.
Qed.

(** Rounding to nearest even is within half a unit of [N / D]. *)
Lemma rne_near N D q l :
  loc_ok N D q l -> 2 * Z.abs (round_nearest_even q l * D - N) <= D.
Proof.
  unfold loc_ok. destruct l as [|[]]; cbn; [lia | | lia | lia].
  destruct (Z.even q); lia.
Qed.

Definition loc_combine (odd : bool) (l : location) : location :=
  match odd, l with
  | false, loc_Exact => loc_Exact
  | false, _ => loc_Inexact Lt
  | true, loc_Exact => loc_Inexact Eq
  | true, _ => loc_Inexact Gt
  end.

Lemma shr_1_record q l :
  0 <= q -> loc_of_shr_record (shr_1 (shr_record_of_loc q l)) = loc_combine (Z.odd q) l.
Proof.
  intros Hq. destruct q as [|p|p]; [| |lia]; [destruct l as [|[]]; reflexivity|].
  destruct p; destruct l as [|[]]; reflexivity.
Qed.

(** Shifting a mantissa right by one place halves the unit: the
    location of the halved mantissa is the location for [N / (2 D)]. *)
Lemma shr_1_loc_ok N D q l :
  0 <= q -> 0 < D -> loc_ok N D q l ->
  loc_ok N (2 * D) (q / 2) (loc_of_shr_record (shr_1 (shr_record_of_loc q l))).
Proof.
  intros Hq HD Hl. rewrite shr_1_record by exact Hq.
  pose proof (Z.div2_odd q) as Hodd. rewrite Z.div2_div in Hodd.
  assert (Hm : q * D = q / 2 * (2 * D) + Z.b2z (Z.odd q) * D) by (rewrite Hodd at 1; ring).
  unfold loc_ok in *. rewrite Hm in Hl.
  destruct (Z.odd q), l as [|[]]; cbn [Z.b2z loc_combine] in *; lia.
Qed.

(** Correct rounding: when [lx] locates [N / D] after [mx], the
    rounded value [m * 2^(e - ex)], a multiple of the unit [u] of the
    result (1, or 2 when [mx] has 25 digits), is within [u / 2] of
    [N / D]. *)
Lemma round_aux_near N D mx ex lx :
  0 < D -> 0 < mx < 2 ^ 25 -> -125 <= ex <= 100 -> loc_ok N D mx lx ->
  exists m e u, binary_round_aux 24 128 false mx ex lx = S754_finite false m e /\
    ex <= e /\ (u = 1 \/ u = 2) /\ (exists w, Zpos m * 2 ^ (e - ex) = u * w) /\
    2 * Z.abs (Zpos m * 2 ^ (e - ex) * D - N) <= u * D.
Proof.
  intros HD Hm He Hl. unfold binary_round_aux.
  assert (P25 : 2 ^ 25 = 2 * 2 ^ 24) by reflexivity.
  assert (P24 : 2 ^ 24 = 2 * 2 ^ 23) by reflexivity.
  destruct (shr_fexp_facts mx ex lx Hm ltac:(lia)) as (mrs & e' & -> & H1).
  assert (Hs : exists u, (u = 1 \/ u = 2) /\ 2 ^ (e' - ex) = u /\ ex <= e' <= ex + 1 /\
                 loc_ok N (u * D) (shr_m mrs) (loc_of_shr_record mrs) /\
                 0 < shr_m mrs < 2 ^ 24).
  { destruct H1 as [(? & -> & ->) | (? & -> & ->)].
    - exists 1. rewrite shr_m_record, loc_of_record, Z.sub_diag, Z.mul_1_l.
      repeat split; solve [lia | reflexivity | apply Hl].
    - exists 2. rewrite shr_1_m, shr_m_record by (rewrite shr_m_record; lia).
      replace (ex + 1 - ex) with 1 by lia.
      split; [lia|]. split; [reflexivity|]. split; [lia|].
      split; [apply shr_1_loc_ok; [lia | lia | exact Hl] | div_lia]. }
  destruct Hs as (u & Hu & Hpu & He1 & Hl' & Hq).
  set (r := round_nearest_even (shr_m mrs) (loc_of_shr_record mrs)).
  pose proof (rne_bounds (shr_m mrs) (loc_of_shr_record mrs)) as Hr. fold r in Hr.
  pose proof (rne_near _ _ _ _ Hl') as Hn. fold r in Hn.
  destruct (shr_fexp_facts r e' loc_Exact ltac:(lia) ltac:(lia)) as (mrs2 & e2 & -> & H2).
  assert (Hv : 0 < shr_m mrs2 /\ ex <= e2 <= ex + 2 /\ shr_m mrs2 * 2 ^ (e2 - ex) = u * r).
  { destruct H2 as [(? & -> & ->) | (? & -> & ->)].
    - rewrite shr_m_record, Hpu. lia.
    - rewrite shr_1_m, shr_m_record by (rewrite shr_m_record; lia).
      assert (Hr24 : r = 2 ^ 24) by lia. rewrite Hr24.
      replace (e' + 1 - ex) with (e' - ex + 1) by lia.
      rewrite Z.pow_add_r, Hpu by lia.
      split; [reflexivity|]. split; [lia|]. change (2 ^ 24 / 2) with (2 ^ 23). rewrite P24, Z.pow_1_r. ring. }
  destruct (shr_m mrs2) as [|m2|] eqn:Em; [lia| |lia].
  replace (e2 <=? 128 - 24) with true by (symmetry; apply Z.leb_le; lia).
  exists m2, e2, u. split; [reflexivity|]. split; [lia|]. split; [exact Hu|].
  destruct Hv as (_ & _ & ->). split; [exists r; reflexivity|].
  replace (u * r * D) with (r * (u * D)) by ring. exact Hn.
Qed.

(** ** The driver's two operations *)

(** The difference of two positive floats with the same exponent is the
    rounding of the difference of their mantissas. *)
Lemma sub_same_exp m1 m2 e :
  Zpos m2 < Zpos m1 ->
  SFsub 24 128 (S754_finite false m1 e) (S754_finite false m2 e) =
  binary_round 24 128 false (m1 - m2) e.
Proof.
  intros Hlt. unfold SFsub. rewrite Z.min_id. unfold shl_align. rewrite Z.sub_diag.
  cbn [fst cond_Zopp].
  replace (Zpos m1 - Zpos m2) with (Zpos (m1 - m2)) by (rewrite Pos2Z.inj_sub; lia).
  reflexivity.
Qed.

Lemma sub_same_exp_zero m e :
  SFsub 24 128 (S754_finite false m e) (S754_finite false m e) = S754_zero false.
Proof.
  unfold SFsub. rewrite Z.min_id. unfold shl_align. rewrite Z.sub_diag.
  cbn [fst cond_Zopp]. rewrite ?Z.sub_diag. reflexivity.
Qed.

(** The quotient of two 24-digit mantissas is the rounding of
    [M1 * 2^24 / M2] at exponent [E1 - E2 - 24], the remainder giving
    the location of the exact quotient. *)
Lemma div_24 M1 E1 M2 E2 :
  2 ^ 23 <= Zpos M1 < 2 ^ 24 -> 2 ^ 23 <= Zpos M2 < 2 ^ 24 -> -125 <= E1 - E2 - 24 ->
  SFdiv 24 128 (S754_finite false M1 E1) (S754_finite false M2 E2) =
  binary_round_aux 24 128 false (Zpos M1 * 2 ^ 24 / Zpos M2) (E1 - E2 - 24)
    (new_location (Zpos M2) (Zpos M1 * 2 ^ 24 mod Zpos M2)).
Proof.
  intros H1 H2 He. unfold SFdiv, SFdiv_core_binary. cbn [xorb].
  rewrite !Zdigits2_pos, (size_eq M1 24), (size_eq M2 24) by (cbn; lia).
  replace (24 + E1 - (24 + E2)) with (E1 - E2) by lia.
  rewrite fexp24 by lia.
  replace (Z.min (E1 - E2 - 24) (E1 - E2)) with (E1 - E2 - 24) by lia.
  replace (E1 - E2 - (E1 - E2 - 24)) with 24 by lia.
  rewrite Z.shiftl_mul_pow2 by lia.
  unfold Z.div, Z.modulo. destruct (Z.div_eucl _ _). reflexivity.
Qed.

(** ** Truncation *)

(** Truncating [m * 2^e] is the floor of its value in units of
    [2^-T]. *)
Lemma trunc_finite_div m e T :
  0 <= T -> 0 <= e + T -> F32.trunc_finite false m e = Zpos m * 2 ^ (e + T) / 2 ^ T.
Proof.
  intros HT HeT. unfold F32.trunc_finite. cbn zeta.
  destruct (Z.leb_spec 0 e) as [He|He].
  - rewrite Z.shiftl_mul_pow2, Z.pow_add_r, Z.mul_assoc, Z.div_mul by (try apply Z.pow_nonzero; lia).
    reflexivity.
  - rewrite Z.shiftr_div_pow2 by lia.
    replace (2 ^ T) with (2 ^ (e + T) * 2 ^ (- e)) by (rewrite <- Z.pow_add_r by lia; f_equal; lia).
    rewrite (Z.mul_comm (Zpos m)), Z.div_mul_cancel_l by (apply Z.pow_nonzero; lia).
    reflexivity.
Qed.

End Round.
