(* ===== verification/Regs.v ===== *)
(** * Regs: the register map of src/src/SI4703_regs.h

    Register addresses, bit masks, band limits and the two enumerations
    the header declares for a future seek/RDS engine.  The bit constants
    are written as the header writes them ([1 << 15] as [1 <<' 15]). *)

From Stdlib Require Import ZArith Lia Floats.SpecFloat.
From stdpp Require Import base list finite.
From S2P Require Import Prelude Float32.

Open Scope Z_scope.
Open Scope si4703_scope.

Module Regs.

(** I2C address (7-bit, as Arduino [Wire] takes it). *)
Definition SI4703_I2C_ADDR : Z := 0x10.

(** ** Register addresses: [enum SI4703_Register : uint8_t] *)
Inductive SI4703_Register :=
| REG_DEVICEID | REG_CHIPID | REG_POWERCFG | REG_CHANNEL
| REG_SYSCONFIG1 | REG_SYSCONFIG2 | REG_SYSCONFIG3 | REG_TEST1
| REG_STATUSRSSI | REG_READCHAN | REG_RDSA | REG_RDSB | REG_RDSC | REG_RDSD.

(** The enumerator values. *)
Definition reg_addr (r : SI4703_Register) : Z :=
  match r with
  | REG_DEVICEID => 0x00 | REG_CHIPID => 0x01 | REG_POWERCFG => 0x02
  | REG_CHANNEL => 0x03 | REG_SYSCONFIG1 => 0x04 | REG_SYSCONFIG2 => 0x05
  | REG_SYSCONFIG3 => 0x06 | REG_TEST1 => 0x07 | REG_STATUSRSSI => 0x0A
  | REG_READCHAN => 0x0B | REG_RDSA => 0x0C | REG_RDSB => 0x0D
  | REG_RDSC => 0x0E | REG_RDSD => 0x0F
  end.

Coercion reg_addr : SI4703_Register >-> Z.

(** ** POWERCFG (0x02) *)
Definition POWERCFG_SMUTE : Z := 1 <<' 15.
Definition POWERCFG_DMUTE : Z := 1 <<' 14.
Definition POWERCFG_SKMODE : Z := 1 <<' 10.
Definition POWERCFG_SEEKUP : Z := 1 <<' 9.
Definition POWERCFG_SEEK : Z := 1 <<' 8.
Definition POWERCFG_DISABLE : Z := 1 <<' 6.
Definition POWERCFG_ENABLE : Z := 1 <<' 0.

(** ** CHANNEL (0x03) *)
Definition CHANNEL_TUNE : Z := 1 <<' 15.
Definition CHANNEL_CHAN_MASK : Z := 0x03FF.

(** ** SYSCONFIG1 (0x04) *)
Definition SYSCONFIG1_RDS : Z := 1 <<' 12.
Definition SYSCONFIG1_DE : Z := 1 <<' 11.
Definition SYSCONFIG1_STCIEN : Z := 1 <<' 14.

(** ** SYSCONFIG2 (0x05) *)
Definition SYSCONFIG2_VOLUME_MASK : Z := 0x000F.
Definition SYSCONFIG2_SPACE_200KHZ : Z := 0 <<' 4.
Definition SYSCONFIG2_SPACE_100KHZ : Z := 1 <<' 4.
Definition SYSCONFIG2_SPACE_50KHZ : Z := 2 <<' 4.

(** ** SYSCONFIG3 (0x06) *)
Definition SYSCONFIG3_SKSNR_MASK : Z := 0x00F0.
Definition SYSCONFIG3_SKCNT_MASK : Z := 0x000F.

(** ** STATUSRSSI (0x0A) *)
Definition STATUSRSSI_RDSR : Z := 1 <<' 15.
Definition STATUSRSSI_STC : Z := 1 <<' 14.
Definition STATUSRSSI_SFBL : Z := 1 <<' 13.
Definition STATUSRSSI_AFCRL : Z := 1 <<' 12.
Definition STATUSRSSI_RDSS : Z := 1 <<' 11.
Definition STATUSRSSI_STEREO : Z := 1 <<' 8.
Definition STATUSRSSI_RSSI_MASK : Z := 0x00FF.

(** ** READCHAN (0x0B) and RDS blocks *)
Definition READCHAN_CHAN_MASK : Z := 0x03FF.
Definition RDS_GROUP_TYPE_MASK : Z := 0xF000.
Definition RDS_GROUP_VERSION_B : Z := 1 <<' 11.
Definition RDS_PROGRAM_TYPE_MASK : Z := 0x03E0.
Definition RDS_TEXT_AB_FLAG : Z := 1 <<' 4.

(** ** Band limits (EU default): [float] literals *)
Definition SI4703_FREQ_MIN_MHZ : F32.float32 := F32.of_decimal 875 1.
Definition SI4703_FREQ_MAX_MHZ : F32.float32 := F32.of_decimal 1080 1.
Definition SI4703_CHANNEL_SPACING_MHZ : F32.float32 := F32.of_decimal 1 1.

(** ** Internal constants *)
Definition SI4703_REGISTER_COUNT : Z := 16.
Definition SI4703_CONTROL_REG_START : Z := 0x02.
Definition SI4703_CONTROL_REG_END : Z := 0x07.

(** ** Driver states and seek direction (declared, not yet used by the
    driver: [enum class SI4703_State], [enum class SI4703_SeekDirection]) *)
Inductive SI4703_State :=
| IDLE | POWERING_UP | TUNING | SEEKING | RDS_READING | ERROR.

Inductive SI4703_SeekDirection := DOWN | UP.

Definition seek_direction_value (d : SI4703_SeekDirection) : Z :=
  match d with DOWN => 0 | UP => 1 end.

#[export] Instance SI4703_Register_eq_dec : EqDecision SI4703_Register.
Proof. solve_decision. Defined.
#[export] Instance SI4703_State_eq_dec : EqDecision SI4703_State.
Proof. solve_decision. Defined.
#[export] Instance SI4703_SeekDirection_eq_dec : EqDecision SI4703_SeekDirection.
Proof. solve_decision. Defined.

#[export] Program Instance SI4703_Register_finite : Finite SI4703_Register :=
  {| enum := [REG_DEVICEID; REG_CHIPID; REG_POWERCFG; REG_CHANNEL;
              REG_SYSCONFIG1; REG_SYSCONFIG2; REG_SYSCONFIG3; REG_TEST1;
              REG_STATUSRSSI; REG_READCHAN; REG_RDSA; REG_RDSB; REG_RDSC;
              REG_RDSD] |}.
Next Obligation. apply (bool_decide_unpack _). vm_compute. exact I. Qed.
Next Obligation. intros []; apply (bool_decide_unpack _); vm_compute; exact I. Qed.

#[export] Program Instance SI4703_State_finite : Finite SI4703_State :=
  {| enum := [IDLE; POWERING_UP; TUNING; SEEKING; RDS_READING; ERROR] |}.
Next Obligation. apply (bool_decide_unpack _). vm_compute. exact I. Qed.
Next Obligation. intros []; apply (bool_decide_unpack _); vm_compute; exact I. Qed.

(** ** The register enumeration as a type of addresses *)

(** [enum SI4703_Register] names each address of the 16-word
    register file at most once, and names all of them but 0x08 and 0x09
    (registers the read loop stores and the header leaves unnamed):
    [reg_addr] is injective, and its image is exactly
    [[0, SI4703_REGISTER_COUNT)] without 0x08 and 0x09. *)
Theorem reg_addr_bijection :
  (forall r1 r2, reg_addr r1 = reg_addr r2 -> r1 = r2) /\
  (forall a, (exists r, reg_addr r = a) <-> 0 <= a < SI4703_REGISTER_COUNT /\ a <> 8 /\ a <> 9).
Proof.
  split; [intros [] []; cbn; congruence|].
  intros a. unfold SI4703_REGISTER_COUNT. split; [intros [r <-]; destruct r; cbn; lia|].
  intros (Ha & H8 & H9).
  assert (Hc : a = 0 \/ a = 1 \/ a = 2 \/ a = 3 \/ a = 4 \/ a = 5 \/ a = 6 \/ a = 7 \/
               a = 10 \/ a = 11 \/ a = 12 \/ a = 13 \/ a = 14 \/ a = 15) by lia.
  repeat destruct Hc as [->|Hc]; subst; apply (bool_decide_unpack _); vm_compute; exact I.
Qed.

End Regs.
