(* ===== verification/Wire.v ===== *)
(** * Wire: the I2C transport and the wait primitive the driver calls

    The driver talks to the chip through the Arduino core's [TwoWire]
    object [Wire] and waits with [delay].  Neither is code of this
    repository: they are modelled from their documented contract, at the
    interface the driver uses:
    - [Wire.requestFrom(addr, n)] asks the device for [n] bytes and keeps
      what arrives (at most [n]) in a receive buffer;
    - [Wire.read()] pops the next received byte, or returns [-1] when the
      buffer is empty;
    - [Wire.beginTransmission(addr)], [Wire.write(b)] (the argument
      converted to [uint8_t]) and [Wire.endTransmission()] build and send
      one write transaction; the result is the status code, [0] for
      success;
    - [Wire.begin(sda, scl)], [Wire.setClock(hz)] and [delay(ms)] have no
      effect the driver observes; they are recorded.

    Every bus transaction and wait is appended to a trace of [bus_event]s,
    so that ordering properties of the sequences are statements about
    the trace.  The device on the bus is abstract: the class [I2CDevice]
    is the interface the driver's theorems are proved against, and
    Chip.v gives its implementations (a simulated SI4703, an absent
    device, a device that refuses writes). *)

From Stdlib Require Import ZArith Lia.
From stdpp Require Import base list.
From S2P Require Import Prelude.

Open Scope Z_scope.

Module Wire.

Inductive bus_event :=
| EvBegin (sda scl : Z)
| EvSetClock (hz : Z)
| EvRequest (addr count : Z) (got : list Z)
| EvTransmit (addr : Z) (bytes : list Z) (status : Z)
| EvDelay (ms : Z).

(** The device side of the bus: what it answers to a read request of
    [n] bytes at an address, and what status it gives (and how it
    changes) on a write transaction. *)
Class I2CDevice (D : Type) := {
  dev_request : D -> Z -> Z -> list Z * D;
  dev_transmit : D -> Z -> list Z -> Z * D
}.

Record Bus (D : Type) := mkBus {
  bus_dev : D;
  bus_rx : list Z;
  bus_tx : list Z;
  bus_txaddr : Z;
  bus_trace : list bus_event
}.
Arguments mkBus {D}.
Arguments bus_dev {D}. Arguments bus_rx {D}. Arguments bus_tx {D}.
Arguments bus_txaddr {D}. Arguments bus_trace {D}.

Section Ops.
Context {D : Type} `{!I2CDevice D}.

Definition log (e : bus_event) (b : Bus D) : Bus D :=
  mkBus (bus_dev b) (bus_rx b) (bus_tx b) (bus_txaddr b) (bus_trace b ++ [e]).

(** [Wire.begin(sda, scl)] *)
Definition begin (sda scl : Z) (b : Bus D) : Bus D := log (EvBegin sda scl) b.

(** [Wire.setClock(hz)] *)
Definition setClock (hz : Z) (b : Bus D) : Bus D := log (EvSetClock hz) b.

(** [delay(ms)] *)
Definition delay (ms : Z) (b : Bus D) : Bus D := log (EvDelay ms) b.

(** [Wire.requestFrom(addr, n)]: returns the number of bytes received. *)
Definition requestFrom (addr n : Z) (b : Bus D) : Z * Bus D :=
  let '(ans, d') := dev_request (bus_dev b) addr n in
  let got := take (Z.to_nat n) ans in
  (Z.of_nat (length got),
   mkBus d' got (bus_tx b) (bus_txaddr b)
         (bus_trace b ++ [EvRequest addr n got])).

(** [Wire.read()]: the next byte, or [-1] when none is left. *)
Definition read (b : Bus D) : Z * Bus D :=
  match bus_rx b with
  | [] => (-1, b)
  | x :: rest => (x, mkBus (bus_dev b) rest (bus_tx b) (bus_txaddr b) (bus_trace b))
  end.

(** [Wire.beginTransmission(addr)] *)
Definition beginTransmission (addr : Z) (b : Bus D) : Bus D :=
  mkBus (bus_dev b) (bus_rx b) [] addr (bus_trace b).

(** [Wire.write(v)] through the [int] overload: [(uint8_t) v] is
    queued. *)
Definition write (v : Z) (b : Bus D) : Bus D :=
  mkBus (bus_dev b) (bus_rx b) (bus_tx b ++ [u8 v]) (bus_txaddr b) (bus_trace b).

(** [Wire.endTransmission()]: the status code of the transaction. *)
Definition endTransmission (b : Bus D) : Z * Bus D :=
  let '(st, d') := dev_transmit (bus_dev b) (bus_txaddr b) (bus_tx b) in
  (st, mkBus d' (bus_rx b) [] (bus_txaddr b)
             (bus_trace b ++ [EvTransmit (bus_txaddr b) (bus_tx b) st])).

(** What [Wire.read()] returns at position [i] of a received block:
    the byte, or [-1] past its end. *)
Definition byte_at (rx : list Z) (i : nat) : Z := default (-1) (rx !! i).

(** Replace the receive buffer. *)
Definition set_rx (rx : list Z) (b : Bus D) : Bus D :=
  mkBus (bus_dev b) rx (bus_tx b) (bus_txaddr b) (bus_trace b).

(** Reading from a buffer that holds the suffix of [rx] from [i]
    yields the [i]-th byte (or [-1]) and leaves the suffix from
    [i + 1]. *)
Lemma read_drop rx i (b : Bus D) :
  bus_rx b = drop i rx ->
  read b = (byte_at rx i, set_rx (drop (S i) rx) b).
Proof.
  intros Hb. destruct b as [d r t a tr]; simpl in Hb; subst r.
  unfold read, byte_at, set_rx; simpl.
  pose proof (lookup_drop rx i 0) as Hl. rewrite Nat.add_0_r in Hl.
  pose proof (drop_drop rx 1 i) as Hd. rewrite Nat.add_1_r in Hd.
  destruct (drop i rx) as [|x r]; rewrite <- Hl, <- Hd; reflexivity.
Qed.

End Ops.

(** A scripted device for concrete runs: it answers every read request
    with the same byte list and acknowledges every write with status
    [ack]. *)
Record Scripted := mkScripted { script_answer : list Z; script_ack : Z }.

#[global] Instance Scripted_device : I2CDevice Scripted := {
  dev_request c _ _ := (script_answer c, c);
  dev_transmit c _ _ := (script_ack c, c)
}.

End Wire.
