(* ===== verification/Shadow.v ===== *)
(** * Shadow: the driver object and its register shadow store

    The fields of [class SI4703] (src/src/SI4703.h lines 36-48) as a
    record, the whole system state the methods run on (the object and the
    bus), the primitive accesses of the methods ([_regs[r]] read and
    written, fields read and written, the [Wire] calls and [delay]), and
    the well-formedness invariant of the shadow store: sixteen words, each
    a [uint16_t]. *)

From Stdlib Require Import ZArith Lia.
From stdpp Require Import base list.
From Stdlib Require Import Floats.SpecFloat.
From S2P Require Import Prelude Float32 Regs Wire.

Open Scope Z_scope.
Open Scope si4703_scope.

Module Shadow.

(** The object's fields.  [_regs] is [uint16_t _regs[16]]. *)
Record SI4703 := mkSI4703 {
  _i2cAddr : Z;
  _sda : Z;
  _scl : Z;
  _i2cClock : Z;
  _regs : list Z;
  _currentFreq : F32.float32;
  _initialized : bool
}.

(** The system: the driver object and the bus with its device. *)
Record Sys (D : Type) := mkSys { drv : SI4703; bus : Wire.Bus D }.
Arguments mkSys {D}. Arguments drv {D}. Arguments bus {D}.

Definition set_regs (f : list Z -> list Z) (o : SI4703) : SI4703 :=
  mkSI4703 (_i2cAddr o) (_sda o) (_scl o) (_i2cClock o) (f (_regs o))
           (_currentFreq o) (_initialized o).

Definition set_currentFreq (x : F32.float32) (o : SI4703) : SI4703 :=
  mkSI4703 (_i2cAddr o) (_sda o) (_scl o) (_i2cClock o) (_regs o) x (_initialized o).

Definition set_initialized (b : bool) (o : SI4703) : SI4703 :=
  mkSI4703 (_i2cAddr o) (_sda o) (_scl o) (_i2cClock o) (_regs o) (_currentFreq o) b.

Definition set_pins (sda scl clk : Z) (o : SI4703) : SI4703 :=
  mkSI4703 (_i2cAddr o) sda scl clk (_regs o) (_currentFreq o) (_initialized o).

(** The shadow word of register [r] ([_regs[r]], [r] in [0 .. 15]). *)
Definition reg (o : SI4703) (r : Z) : Z := _regs o !!! Z.to_nat r.

(** A compound assignment [_regs[r] = f(_regs[r])] ([&=], [|=]). *)
Definition update_reg (r : Z) (f : Z -> Z) (o : SI4703) : SI4703 :=
  set_regs (insert (Z.to_nat r) (f (reg o r))) o.

(** An index of the array [_regs] (SI4703.h line 44). *)
Definition reg_in_bounds (r : Z) : bool := (0 <=? r) && (r <? Regs.SI4703_REGISTER_COUNT).

(** Well-formed shadow store: sixteen [uint16_t] words. *)
Definition regs_wf (l : list Z) : bool :=
  (length l =? 16)%nat && forallb is_u16 l.

Section Access.
Context {D : Type} `{!Wire.I2CDevice D}.

Abbreviation SysD := (Sys D).

(** [_regs[r]]: an index outside [uint16_t _regs[SI4703_REGISTER_COUNT]]
    is undefined behaviour. *)
Definition get_reg (r : Z) : M SysD Z :=
  fun s => if reg_in_bounds r then Some (reg (drv s) r, s) else None.

(** [_regs[r] = v], with the same bound. *)
Definition set_reg (r v : Z) : M SysD unit :=
  fun s => if reg_in_bounds r
           then Some (tt, mkSys (set_regs (insert (Z.to_nat r) v) (drv s)) (bus s))
           else None.

Definition get_drv {A} (f : SI4703 -> A) : M SysD A := m_gets (fun s => f (drv s)).
Definition modify_drv (f : SI4703 -> SI4703) : M SysD unit :=
  m_modify (fun s => mkSys (f (drv s)) (bus s)).

(** A [Wire] call or [delay] on the bus. *)
Definition on_bus {A} (f : Wire.Bus D -> A * Wire.Bus D) : M SysD A :=
  fun s => let '(a, b') := f (bus s) in Some (a, mkSys (drv s) b').
Definition on_bus_ (f : Wire.Bus D -> Wire.Bus D) : M SysD unit :=
  m_modify (fun s => mkSys (drv s) (f (bus s))).

Definition Wire_read : M SysD Z := on_bus Wire.read.
Definition Wire_requestFrom (addr n : Z) : M SysD Z := on_bus (Wire.requestFrom addr n).
Definition Wire_beginTransmission (addr : Z) : M SysD unit :=
  on_bus_ (Wire.beginTransmission addr).
Definition Wire_write (v : Z) : M SysD unit := on_bus_ (Wire.write v).
Definition Wire_endTransmission : M SysD Z := on_bus Wire.endTransmission.
Definition Wire_begin (sda scl : Z) : M SysD unit := on_bus_ (Wire.begin sda scl).
Definition Wire_setClock (hz : Z) : M SysD unit := on_bus_ (Wire.setClock hz).
Definition delay (ms : Z) : M SysD unit := on_bus_ (Wire.delay ms).

End Access.

(** ** Lemmas on the shadow store *)

Lemma regs_wf_spec l :
  regs_wf l = true <-> length l = 16%nat /\ Forall (fun w => 0 <= w < 2 ^ 16) l.
Proof.
  unfold regs_wf. rewrite andb_true_iff, Nat.eqb_eq, forallb_forall, Forall_forall.
  setoid_rewrite is_u16_spec. setoid_rewrite list_elem_of_In. reflexivity.
Qed.

(** Every word of a well-formed store is a [uint16_t]. *)
Lemma regs_wf_word o r :
  regs_wf (_regs o) = true -> 0 <= r < 16 -> 0 <= reg o r < 2 ^ 16.
Proof.
  rewrite regs_wf_spec. intros [Hl Hf] Hr. unfold reg.
  rewrite Forall_lookup in Hf.
  destruct (lookup_lt_is_Some_2 (_regs o) (Z.to_nat r)) as [w Hw]; [lia|].
  rewrite (list_lookup_total_correct _ _ _ Hw). eauto.
Qed.

(** Writing a [uint16_t] at an address [0 .. 15] keeps the store
    well formed. *)
Lemma regs_wf_insert l r v :
  regs_wf l = true -> 0 <= r < 16 -> 0 <= v < 2 ^ 16 ->
  regs_wf (<[Z.to_nat r := v]> l) = true.
Proof.
  rewrite !regs_wf_spec. intros [Hl Hf] Hr Hv. split.
  - now rewrite length_insert.
  - apply Forall_insert; auto.
Qed.

Lemma regs_wf_insert_nat l (i : nat) v :
  regs_wf l = true -> (i < 16)%nat -> 0 <= v < 2 ^ 16 -> regs_wf (<[i := v]> l) = true.
Proof.
  intros Hl Hi Hv. rewrite <- (Nat2Z.id i). apply regs_wf_insert; auto. lia.
Qed.

Lemma reg_set_currentFreq x o r : reg (set_currentFreq x o) r = reg o r.
Proof. reflexivity. Qed.

Lemma reg_insert_eq (l : list Z) r v o :
  _regs o = l -> length l = 16%nat -> 0 <= r < 16 ->
  reg (set_regs (insert (Z.to_nat r) v) o) r = v.
Proof.
  intros Ho Hl Hr. unfold reg, set_regs; simpl. rewrite Ho.
  apply list_lookup_total_insert_eq. lia.
Qed.

Lemma reg_insert_ne l r r' v o :
  _regs o = l -> 0 <= r -> 0 <= r' -> r <> r' ->
  reg (set_regs (insert (Z.to_nat r) v) o) r' = reg o r'.
Proof.
  intros Ho Hr Hr' Hne. unfold reg, set_regs; simpl. rewrite Ho.
  apply list_lookup_total_insert_ne. lia.
Qed.

Lemma length_update_reg r f o : length (_regs (update_reg r f o)) = length (_regs o).
Proof. apply length_insert. Qed.

Lemma reg_update_reg r f o r' :
  length (_regs o) = 16%nat -> 0 <= r < 16 -> 0 <= r' < 16 ->
  reg (update_reg r f o) r' = if r =? r' then f (reg o r) else reg o r'.
Proof.
  intros Hl Hr Hr'. unfold update_reg, reg at 1, set_regs. cbn [_regs].
  destruct (Z.eqb_spec r r') as [<-|Hne].
  - apply list_lookup_total_insert_eq. lia.
  - apply list_lookup_total_insert_ne. lia.
Qed.

Lemma regs_wf_update_reg r f o :
  regs_wf (_regs o) = true -> 0 <= r < 16 -> (forall w, 0 <= f w < 2 ^ 16) ->
  regs_wf (_regs (update_reg r f o)) = true.
Proof. intros Hwf Hr Hf. apply regs_wf_insert; auto. Qed.

(** Run one bind whose first action is a primitive access. *)
Lemma reg_in_bounds_spec r : reg_in_bounds r = true <-> 0 <= r < 16.
Proof. unfold reg_in_bounds, Regs.SI4703_REGISTER_COUNT. rewrite andb_true_iff, Z.leb_le, Z.ltb_lt. lia. Qed.

(** The loop indices of [readRegisters] are reduced modulo 0x10. *)
Lemma reg_in_bounds_mod x : reg_in_bounds (x mod 16) = true.
Proof. apply reg_in_bounds_spec, Z.mod_pos_bound. lia. Qed.

Section Bounds.
Context {D : Type} `{!Wire.I2CDevice D}.

Lemma get_reg_run r (s : Sys D) : reg_in_bounds r = true -> get_reg r s = Some (reg (drv s) r, s).
Proof. unfold get_reg. now intros ->. Qed.

Lemma set_reg_run r v (s : Sys D) :
  reg_in_bounds r = true ->
  set_reg r v s = Some (tt, mkSys (set_regs (insert (Z.to_nat r) v) (drv s)) (bus s)).
Proof. unfold set_reg. now intros ->. Qed.

End Bounds.

Ltac run_prim :=
  rewrite run_bind;
  rewrite ?set_reg_run, ?get_reg_run by (vm_compute; reflexivity);
  cbn [get_drv modify_drv m_modify m_gets on_bus_ delay
       Wire_begin Wire_setClock Wire_beginTransmission Wire_write].

(** ** A concrete system for witnesses *)

(** A 32-byte block as an SI4703 sends it, from 0x0A on: STATUSRSSI
    0x0028 (RSSI 40), READCHAN 0x0035, RDS blocks 0, DEVICEID 0x1242,
    CHIPID 0x1253, then the control registers, TEST1 0x0100, and the two
    unused words. *)
Definition demo_block : list Z :=
  [0x00; 0x28; 0x00; 0x35; 0; 0; 0; 0; 0; 0; 0; 0;
   0x12; 0x42; 0x12; 0x53; 0; 0; 0; 0; 0; 0; 0x00; 0x1F; 0; 0; 0x01; 0x00;
   0; 0; 0; 0].

Definition demo_sys (init : bool) (answer : list Z) : Sys Wire.Scripted :=
  mkSys (mkSI4703 0x10 21 22 100000 (repeat 0 16) (S754_zero false) init)
        (Wire.mkBus (Wire.mkScripted answer 0) [] [] 0 []).

End Shadow.

#[export] Hint Resolve Shadow.regs_wf_insert : si4703.
