(* ===== verification/Sync.v ===== *)
(** * Sync: the register synchronizer

    [SI4703::readRegisters] (src/src/SI4703.cpp lines 177-191) reads the
    chip's 32-byte block, which starts at register 0x0A and wraps at
    0x10, into the shadow store; [SI4703::writeRegisters] (lines 196-206)
    sends registers 0x02 .. 0x07 high byte first and reports whether
    [Wire.endTransmission()] returned 0.

    The C [for] loops are [Fixpoint]s with a fuel bound [loop_fuel]; the
    theorems show that the bound is never what ends them: the read loop
    leaves by its [break] and the write loop by its guard.  Each method
    has a run lemma giving its result and final state as a pure function
    of the initial state, and the properties are stated on these. *)

From Stdlib Require Import ZArith Lia.
From stdpp Require Import base list.
From S2P Require Import Prelude Float32 Regs Wire Shadow.

Open Scope Z_scope.
Open Scope si4703_scope.

Module Sync.
Import Regs Shadow.

(** More iterations than a [uint8_t] loop counter has values. *)
Definition loop_fuel : nat := 256.

(** The word assembled at lines 185-187 from two [Wire.read()] results:
    [uint16_t hi = Wire.read(); uint16_t lo = Wire.read();
     _regs[reg] = (hi << 8) | lo;] *)
Definition read_word (hi lo : Z) : Z := u16 ((u16 hi <<' 8) |' u16 lo).

Section Methods.
Context {D : Type} `{!Wire.I2CDevice D}.

(** The [for (uint8_t reg = 0x0A; ; reg++)] loop of [readRegisters]. *)
Fixpoint readRegisters_loop (fuel : nat) (r : Z) : M (Sys D) bool :=
  match fuel with
  | O => mret false
  | S fuel' =>
      let r := if r =? 0x10 then 0x00 else r in
      Wire_read ≫= fun hi : Z =>
      Wire_read ≫= fun lo : Z =>
      set_reg r (read_word hi lo);;
      if r =? 0x09 then mret true else readRegisters_loop fuel' (u8 (r + 1))
  end.

Definition readRegisters : M (Sys D) unit :=
  addr ← get_drv _i2cAddr;
  _ ← Wire_requestFrom addr 32;
  _ ← readRegisters_loop loop_fuel REG_STATUSRSSI;
  mret tt.

(** The [for (uint8_t reg = REG_POWERCFG; reg <= REG_TEST1; reg++)]
    loop of [writeRegisters]. *)
Fixpoint writeRegisters_loop (fuel : nat) (r : Z) : M (Sys D) unit :=
  match fuel with
  | O => mret tt
  | S fuel' =>
      if r <=? REG_TEST1 then
        get_reg r ≫= fun w : Z =>
        Wire_write (w >>' 8);;
        Wire_write (w &' 0xFF);;
        writeRegisters_loop fuel' (u8 (r + 1))
      else mret tt
  end.

Definition writeRegisters : M (Sys D) bool :=
  addr ← get_drv _i2cAddr;
  Wire_beginTransmission addr;;
  writeRegisters_loop loop_fuel REG_POWERCFG;;
  st ← Wire_endTransmission;
  mret (st =? 0).

End Methods.

(** ** Reference behaviour *)

(** The order in which the 16 words of a read block land in the store:
    word [k] goes to register [(0x0A + k) mod 0x10]. *)
Definition read_order : list Z := map (fun k => (10 + Z.of_nat k) mod 16) (seq 0 16).

(** Scatter the words of a received block [rx], starting at word [i],
    into the registers of [order]. *)
Fixpoint scatter (order : list Z) (i : nat) (rx : list Z) (l : list Z) : list Z :=
  match order with
  | [] => l
  | r :: order' =>
      scatter order' (S i) rx
        (<[Z.to_nat r := read_word (Wire.byte_at rx (2 * i)) (Wire.byte_at rx (S (2 * i)))]> l)
  end.

(** The 12 bytes a control write sends for a store: registers 0x02 ..
    0x07 in ascending order, high byte first. *)
Definition control_bytes (o : SI4703) : list Z :=
  flat_map (fun r => [u8 (reg o r >>' 8); u8 (reg o r &' 0xFF)]) [2; 3; 4; 5; 6; 7].

(** ** The read loop *)

(** The value of the loop variable [reg] at the top of iteration [k]
    (before the wrap test). *)
Definition reg_at (k : nat) : Z :=
  if (k <=? 6)%nat then 10 + Z.of_nat k else Z.of_nat k - 6.

(** Arithmetic of the loop counter, checked on its 16 values. *)
Lemma reg_at_facts k :
  (k < 16)%nat ->
  (if reg_at k =? 16 then 0 else reg_at k) = (10 + Z.of_nat k) mod 16 /\
  (((10 + Z.of_nat k) mod 16 =? 9) = (k =? 15)%nat) /\
  ((k < 15)%nat -> u8 ((10 + Z.of_nat k) mod 16 + 1) = reg_at (S k)).
Proof.
  intros Hk. do 16 (destruct k as [|k]; [vm_compute; repeat split; (reflexivity || lia)|]).
  lia.
Qed.

Lemma read_order_drop k :
  (k < 16)%nat ->
  drop k read_order = (10 + Z.of_nat k) mod 16 :: drop (S k) read_order.
Proof.
  intros Hk. apply drop_S. unfold read_order.
  rewrite list_lookup_fmap, lookup_seq_lt by lia. reflexivity.
Qed.

Section ReadRun.
Context {D : Type} `{!Wire.I2CDevice D}.

Lemma Wire_read_run rx i (s : Sys D) :
  Wire.bus_rx (bus s) = drop i rx ->
  Wire_read s = Some (Wire.byte_at rx i, mkSys (drv s) (Wire.set_rx (drop (S i) rx) (bus s))).
Proof.
  intros Hrx. unfold Wire_read, on_bus. rewrite (Wire.read_drop rx i _ Hrx). reflexivity.
Qed.

(** The final state of the read loop from iteration [k] on, with the
    receive buffer at byte [2k] of [rx]. *)
Definition read_loop_post (k : nat) (rx : list Z) (s : Sys D) : Sys D :=
  mkSys (set_regs (scatter (drop k read_order) k rx) (drv s))
        (Wire.set_rx (drop 32 rx) (bus s)).

(** From iteration [k], with any fuel at least the [16 - k] remaining
    iterations, the loop ends by its [break] in [read_loop_post]. *)
Lemma readRegisters_loop_run n f k rx (s : Sys D) :
  (k + S n = 16)%nat ->
  Wire.bus_rx (bus s) = drop (2 * k) rx ->
  readRegisters_loop (S n + f) (reg_at k) s = Some (true, read_loop_post k rx s).
Proof.
  revert k s. induction n as [|n IH]; intros k s Hk Hrx;
    destruct (reg_at_facts k ltac:(lia)) as (Hnorm & H9 & Hnext).
  all: rewrite Nat.add_succ_l; cbn [readRegisters_loop]; rewrite Hnorm.
  all: rewrite run_bind, (Wire_read_run rx (2 * k) s Hrx).
  all: rewrite run_bind, (Wire_read_run rx (S (2 * k))) by reflexivity.
  all: rewrite run_bind, set_reg_run by apply reg_in_bounds_mod; cbn [drv bus].
  all: rewrite H9.
  - replace k with 15%nat by lia. reflexivity.
  - replace (k =? 15)%nat with false by (symmetry; apply Nat.eqb_neq; lia).
    rewrite Hnext by lia. rewrite IH; [| lia | simpl; f_equal; lia].
    unfold read_loop_post. rewrite (read_order_drop k) by lia.
    destruct s as [[] []]. reflexivity.
Qed.

Lemma Wire_read_some (s : Sys D) : exists v s1, Wire_read s = Some (v, s1).
Proof. unfold Wire_read, on_bus. destruct (Wire.read (bus s)). eauto. Qed.

(** With fuel for fewer iterations than remain before register 0x09,
    the loop has not reached its [break]. *)
Lemma readRegisters_loop_short n k (s : Sys D) :
  (k + n <= 15)%nat ->
  exists s', readRegisters_loop n (reg_at k) s = Some (false, s').
Proof.
  revert k s. induction n as [|n IH]; intros k s Hk; [eexists; reflexivity|].
  destruct (reg_at_facts k ltac:(lia)) as (Hnorm & H9 & Hnext).
  destruct (Wire_read_some s) as (hi & s1 & E1).
  destruct (Wire_read_some s1) as (lo & s2 & E2).
  enough (readRegisters_loop (S n) (reg_at k) s =
          readRegisters_loop n (reg_at (S k))
            (mkSys (set_regs (insert (Z.to_nat ((10 + Z.of_nat k) mod 16))
                                     (read_word hi lo)) (drv s2)) (bus s2))) as ->
    by (apply IH; lia).
  cbn [readRegisters_loop]. rewrite Hnorm, H9.
  replace (k =? 15)%nat with false by (symmetry; apply Nat.eqb_neq; lia).
  rewrite (run_bind_Some _ _ _ _ _ E1), (run_bind_Some _ _ _ _ _ E2), run_bind.
  rewrite set_reg_run by apply reg_in_bounds_mod. rewrite Hnext by lia. reflexivity.
Qed.

End ReadRun.

(** Word [k] of a received block, as [readRegisters] assembles it. *)
Definition block_word (rx : list Z) (k : nat) : Z :=
  read_word (Wire.byte_at rx (2 * k)) (Wire.byte_at rx (S (2 * k))).

(** Position in the read block of the word that lands in register [r]. *)
Definition block_pos (r : Z) : nat := Z.to_nat ((r + 6) mod 16).

Lemma length_scatter order i rx l : length (scatter order i rx l) = length l.
Proof.
  revert i l. induction order; intros i l; simpl; [done|].
  rewrite IHorder. apply length_insert.
Qed.

(** [scatter] leaves the registers outside [order] alone. *)
Lemma scatter_notin order i rx l j :
  Forall (fun x => Z.to_nat x <> j) order ->
  scatter order i rx l !!! j = l !!! j.
Proof.
  revert i l. induction order as [|x order IH]; intros i l Hf; simpl; [done|].
  inversion Hf; subst. rewrite IH by done.
  apply list_lookup_total_insert_ne. done.
Qed.

(** The register at position [p] of a duplicate-free [order] receives
    word [i + p] of the block. *)
Lemma scatter_lookup order i rx l p r :
  NoDup order -> Forall (fun x => 0 <= x) order ->
  Forall (fun x => Z.to_nat x < length l)%nat order ->
  order !! p = Some r ->
  scatter order i rx l !!! Z.to_nat r = block_word rx (i + p).
Proof.
  revert i l p. induction order as [|x order IH]; intros i l p Hnd Hpos Hlen Hp;
    [done|].
  inversion Hnd as [|? ? Hx Hnd']; inversion Hpos; inversion Hlen; subst.
  destruct p as [|p]; simpl in Hp; cbn [scatter].
  - injection Hp as <-. rewrite scatter_notin.
    + rewrite list_lookup_total_insert_eq by assumption. unfold block_word.
      now rewrite Nat.add_0_r.
    + rewrite Forall_forall. intros y Hy Heq. apply Hx.
      rewrite Forall_forall in *. assert (0 <= y) by auto.
      replace x with y by lia. done.
  - rewrite (IH _ _ p); [f_equal; lia | done | done | | done].
    rewrite Forall_forall in *. intros y Hy. rewrite length_insert. auto.
Qed.

Lemma read_order_props :
  NoDup read_order /\ Forall (fun x => 0 <= x < 16) read_order.
Proof. split; apply (bool_decide_unpack _); vm_compute; exact I. Qed.

Lemma read_order_block_pos r :
  0 <= r < 16 -> read_order !! block_pos r = Some r.
Proof.
  intros Hr. unfold block_pos.
  assert (r = 0 \/ r = 1 \/ r = 2 \/ r = 3 \/ r = 4 \/ r = 5 \/ r = 6 \/ r = 7 \/
          r = 8 \/ r = 9 \/ r = 10 \/ r = 11 \/ r = 12 \/ r = 13 \/ r = 14 \/ r = 15)
    as Hcases by lia.
  repeat destruct Hcases as [-> | Hcases]; [reflexivity ..|subst; reflexivity].
Qed.

(** Scattering a block over [read_order] into a 16-word store puts word
    [(r + 6) mod 16] of the block in register [r]. *)
Lemma scatter_read_order rx l r :
  length l = 16%nat -> 0 <= r < 16 ->
  scatter read_order 0 rx l !!! Z.to_nat r = block_word rx (block_pos r).
Proof.
  intros Hl Hr. destruct read_order_props as [Hnd Hin].
  change (block_pos r) with (0 + block_pos r)%nat.
  apply scatter_lookup; auto using read_order_block_pos.
  - eapply Forall_impl; [exact Hin|]. simpl. lia.
  - eapply Forall_impl; [exact Hin|]. simpl. intros x Hx. rewrite Hl. lia.
Qed.

Section Run.
Context {D : Type} `{!Wire.I2CDevice D}.

(** The state after [readRegisters]: the device's answer, cut to 32
    bytes, scattered into the store, and the request recorded. *)
Definition read_post (s : Sys D) : Sys D :=
  let addr := _i2cAddr (drv s) in
  let '(ans, d') := Wire.dev_request (Wire.bus_dev (bus s)) addr 32 in
  let got := take 32 ans in
  mkSys (set_regs (scatter read_order 0 got) (drv s))
        (Wire.mkBus d' (drop 32 got) (Wire.bus_tx (bus s)) (Wire.bus_txaddr (bus s))
                    (Wire.bus_trace (bus s) ++ [Wire.EvRequest addr 32 got])).

Lemma readRegisters_run (s : Sys D) : readRegisters s = Some (tt, read_post s).
Proof.
  unfold readRegisters, read_post. rewrite run_bind. cbn [get_drv m_gets].
  rewrite run_bind. unfold Wire_requestFrom, on_bus, Wire.requestFrom.
  destruct (Wire.dev_request (Wire.bus_dev (bus s)) (_i2cAddr (drv s)) 32) as [ans d'].
  rewrite run_bind.
  change loop_fuel with (S 15 + 240)%nat. change (reg_addr REG_STATUSRSSI) with (reg_at 0).
  rewrite (readRegisters_loop_run 15 240 0 (take 32 ans)) by reflexivity.
  reflexivity.
Qed.

(** The result and state after [writeRegisters]: the control bytes
    sent in one transaction to the object's address, and the status
    compared with 0. *)
Definition write_post (s : Sys D) : bool * Sys D :=
  let o := drv s in
  let addr := _i2cAddr o in
  let '(st, d') := Wire.dev_transmit (Wire.bus_dev (bus s)) addr (control_bytes o) in
  (st =? 0,
   mkSys o (Wire.mkBus d' (Wire.bus_rx (bus s)) [] addr
              (Wire.bus_trace (bus s) ++ [Wire.EvTransmit addr (control_bytes o) st]))).

(** The bytes the write loop sends from register [2 + k] on. *)
Definition ctrl_from (k : nat) (o : SI4703) : list Z :=
  flat_map (fun r => [u8 (reg o r >>' 8); u8 (reg o r &' 0xFF)])
           (map (fun j => 2 + Z.of_nat j) (seq k (6 - k))).

Definition set_tx (tx : list Z) (b : Wire.Bus D) : Wire.Bus D :=
  Wire.mkBus (Wire.bus_dev b) (Wire.bus_rx b) tx (Wire.bus_txaddr b) (Wire.bus_trace b).

(** From register [2 + k], with fuel for the [7 - k] remaining tests,
    the write loop queues the bytes of registers [2 + k .. 7] and
    leaves by its guard. *)
Lemma writeRegisters_loop_run n f k (s : Sys D) :
  (k + n = 6)%nat ->
  writeRegisters_loop (S n + f) (2 + Z.of_nat k) s =
  Some (tt, mkSys (drv s) (set_tx (Wire.bus_tx (bus s) ++ ctrl_from k (drv s)) (bus s))).
Proof.
  revert k s. induction n as [|n IH]; intros k s Hk;
    rewrite Nat.add_succ_l; cbn [writeRegisters_loop].
  - replace k with 6%nat by lia. cbn -[set_tx]. destruct s as [o [d rx tx ta tr]].
    unfold set_tx, ctrl_from; simpl. now rewrite app_nil_r.
  - destruct (Z.leb_spec (2 + Z.of_nat k) (reg_addr REG_TEST1)) as [_|Hc];
      [|simpl in Hc; lia].
    rewrite run_bind, get_reg_run by (apply reg_in_bounds_spec; lia).
    do 2 (rewrite run_bind; cbn [Wire_write on_bus_ m_modify drv bus]).
    replace (u8 (2 + Z.of_nat k + 1)) with (2 + Z.of_nat (S k))
      by (rewrite u8_id; lia).
    rewrite IH by lia. destruct s as [o [d rx tx ta tr]].
    unfold set_tx, ctrl_from. simpl. rewrite <- !app_assoc.
    replace (6 - k)%nat with (S (6 - S k)) by lia. reflexivity.
Qed.

Lemma ctrl_from_0 o : ctrl_from 0 o = control_bytes o.
Proof. reflexivity. Qed.

Lemma writeRegisters_run (s : Sys D) : writeRegisters s = Some (write_post s).
Proof.
  unfold writeRegisters, write_post. rewrite run_bind. cbn [get_drv m_gets].
  rewrite run_bind. cbn [Wire_beginTransmission on_bus_ m_modify].
  rewrite run_bind. change loop_fuel with (S 6 + 249)%nat.
  change (reg_addr REG_POWERCFG) with (2 + Z.of_nat 0).
  rewrite writeRegisters_loop_run by reflexivity.
  rewrite ctrl_from_0.
  destruct s as [o [d rx tx ta tr]]. rewrite run_bind.
  unfold Wire_endTransmission, on_bus, Wire.endTransmission. cbn -[control_bytes].
  destruct (Wire.dev_transmit d (_i2cAddr o) (control_bytes o)). reflexivity.
Qed.

End Run.

(** ** Properties of the synchronizer *)

Lemma read_order_lookup k :
  (k < 16)%nat -> read_order !! k = Some ((10 + Z.of_nat k) mod 16).
Proof. intros Hk. unfold read_order. rewrite list_lookup_fmap, lookup_seq_lt by lia. done. Qed.

(** Scattering keeps every word a [uint16_t]. *)
Lemma scatter_wf order i rx l :
  Forall (fun x => 0 <= x < 16) order ->
  regs_wf l = true -> regs_wf (scatter order i rx l) = true.
Proof.
  revert i l. induction order as [|x order IH]; intros i l Hf Hl; [done|].
  inversion Hf; subst. simpl. apply IH; [done|].
  apply regs_wf_insert; auto. apply u16_range.
Qed.

Section Props.
Context {D : Type} `{!Wire.I2CDevice D}.

(** The block a [readRegisters] receives: the device's answer to a
    32-byte request at the object's address, cut to 32 bytes. *)
Definition received (s : Sys D) : list Z :=
  take 32 (fst (Wire.dev_request (Wire.bus_dev (bus s)) (_i2cAddr (drv s)) 32)).

(** C1: [readRegisters] stores word [k] of the received block,
    [(uint16_t)((hi << 8) | lo)] of bytes [2k] and [2k+1] as
    [Wire.read()] returns them ([-1] for a missing byte), at
    shadow address [(0x0A + k) mod 0x10], for all sixteen words: word 0
    at 0x0A, word 5 at 0x0F, word 6 at 0x00 (the wrap) and word 15 at
    0x09. *)
Theorem readRegisters_scatter (s : Sys D) :
  length (_regs (drv s)) = 16%nat ->
  exists s', readRegisters s = Some (tt, s') /\
    forall k, (k < 16)%nat ->
      reg (drv s') ((10 + Z.of_nat k) mod 16) =
      u16 ((u16 (Wire.byte_at (received s) (2 * k)) <<' 8) |'
           u16 (Wire.byte_at (received s) (S (2 * k)))).
Proof.
  intros Hl. exists (read_post s). split; [apply readRegisters_run|].
  intros k Hk. unfold read_post, received.
  destruct (Wire.dev_request _ _ _) as [ans d']. unfold reg, set_regs. cbn [_regs fst].
  change k with (0 + k)%nat at 2. destruct read_order_props as [Hnd Hin].
  apply scatter_lookup; auto using read_order_lookup.
  - eapply Forall_impl; [exact Hin|]. simpl. lia.
  - eapply Forall_impl; [exact Hin|]. simpl. intros x Hx. rewrite Hl. lia.
Qed.

(** C9: the read loop of [readRegisters] ends by its [break] after
    exactly sixteen iterations, whatever the bus delivers: with any
    fuel of at least 16 it returns [true] (the [break]); with 15 it
    would still be running. *)
Theorem readRegisters_loop_terminates (s : Sys D) f :
  (exists s', readRegisters_loop (16 + f) REG_STATUSRSSI s = Some (true, s')) /\
  (exists s', readRegisters_loop 15 REG_STATUSRSSI s = Some (false, s')).
Proof.
  split.
  - exists (read_loop_post 0 (Wire.bus_rx (bus s)) s).
    change (reg_addr REG_STATUSRSSI) with (reg_at 0).
    apply readRegisters_loop_run; reflexivity.
  - change (reg_addr REG_STATUSRSSI) with (reg_at 0).
    apply readRegisters_loop_short; lia.
Qed.

(** C25: [readRegisters] never indexes [_regs] out of bounds (the wrap
    test of line 183 keeps every store in [0, 0x10)), so from any state
    and whatever bytes the device sends it is defined, and it keeps the
    shadow store well formed (sixteen [uint16_t] words). *)
Theorem readRegisters_wf (s : Sys D) :
  regs_wf (_regs (drv s)) = true ->
  exists s', readRegisters s = Some (tt, s') /\ regs_wf (_regs (drv s')) = true.
Proof.
  intros Hwf. exists (read_post s). split; [apply readRegisters_run|].
  unfold read_post. destruct (Wire.dev_request _ _ _). cbn [set_regs _regs drv].
  apply scatter_wf; [apply read_order_props | done].
Qed.

(** C26: a control write depends on the shadow store only through
    registers 0x02 .. 0x07: two systems that differ elsewhere in their
    stores send the same bytes, get the same result and leave the same
    bus. *)
Theorem writeRegisters_window (s1 s2 : Sys D) :
  bus s1 = bus s2 -> _i2cAddr (drv s1) = _i2cAddr (drv s2) ->
  (forall r, 2 <= r <= 7 -> reg (drv s1) r = reg (drv s2) r) ->
  option_map (fun p => (fst p, bus (snd p))) (writeRegisters s1) =
  option_map (fun p => (fst p, bus (snd p))) (writeRegisters s2).
Proof.
  intros Hb Ha Hr. rewrite !writeRegisters_run. unfold write_post.
  assert (control_bytes (drv s1) = control_bytes (drv s2)) as Hc.
  { unfold control_bytes. simpl. rewrite !Hr by lia. reflexivity. }
  rewrite Hb, Ha, Hc. destruct (Wire.dev_transmit _ _ _). reflexivity.
Qed.

End Props.

(** ** Witnesses on a concrete bus *)

Lemma readRegisters_scatter_witness :
  length (_regs (drv (demo_sys true demo_block))) = 16%nat /\
  exists s', readRegisters (demo_sys true demo_block) = Some (tt, s') /\
    reg (drv s') REG_DEVICEID = 0x1242 /\ reg (drv s') REG_STATUSRSSI = 0x0028 /\
    reg (drv s') 0x09 = 0.
Proof.
  assert (Hl : length (_regs (drv (demo_sys true demo_block))) = 16%nat) by reflexivity.
  split; [exact Hl|].
  destruct (readRegisters_scatter _ Hl) as (s' & E & Hk).
  exists s'. split; [exact E|].
  split; [exact (Hk 6%nat ltac:(lia))|]. split; [exact (Hk 0%nat ltac:(lia))|].
  exact (Hk 15%nat ltac:(lia)).
Defined.

Lemma readRegisters_wf_witness :
  regs_wf (_regs (drv (demo_sys true demo_block))) = true /\
  exists s', readRegisters (demo_sys true demo_block) = Some (tt, s') /\
    regs_wf (_regs (drv s')) = true.
Proof.
  assert (Hwf : regs_wf (_regs (drv (demo_sys true demo_block))) = true) by reflexivity.
  split; [exact Hwf|]. exact (readRegisters_wf (demo_sys true demo_block) Hwf).
Defined.

Lemma writeRegisters_window_witness :
  let s1 := demo_sys true demo_block in
  let s2 := mkSys (set_regs (insert 10%nat 0x28) (drv s1)) (bus s1) in
  bus s1 = bus s2 /\ _i2cAddr (drv s1) = _i2cAddr (drv s2) /\
  (forall r, 2 <= r <= 7 -> reg (drv s1) r = reg (drv s2) r) /\
  option_map (fun p => (fst p, bus (snd p))) (writeRegisters s1) =
  option_map (fun p => (fst p, bus (snd p))) (writeRegisters s2).
Proof.
  intros s1 s2.
  assert (Hr : forall r, 2 <= r <= 7 -> reg (drv s1) r = reg (drv s2) r).
  { intros r Hr. assert (r = 2 \/ r = 3 \/ r = 4 \/ r = 5 \/ r = 6 \/ r = 7) as Hc by lia.
    destruct Hc as [->|[->|[->|[->|[->| ->]]]]]; reflexivity. }
  refine (conj eq_refl (conj eq_refl (conj Hr _))).
  exact (writeRegisters_window s1 s2 eq_refl eq_refl Hr).
Defined.

(** ** Projections of the post-states *)

Create Rewrite HintDb si4703_post.

Section Post.
Context {D : Type} `{!Wire.I2CDevice D}.

(** The state after [delay(ms)]. *)
Definition delay_post (ms : Z) (s : Sys D) : Sys D :=
  mkSys (drv s) (Wire.delay ms (bus s)).

(** The status code the device gives to the control write. *)
Definition transmit_status (s : Sys D) : Z :=
  fst (Wire.dev_transmit (Wire.bus_dev (bus s)) (_i2cAddr (drv s)) (control_bytes (drv s))).

Lemma write_post_fst (s : Sys D) : fst (write_post s) = (transmit_status s =? 0).
Proof. unfold write_post, transmit_status. now destruct (Wire.dev_transmit _ _ _). Qed.

Lemma write_post_drv (s : Sys D) : drv (snd (write_post s)) = drv s.
Proof. unfold write_post. now destruct (Wire.dev_transmit _ _ _). Qed.

Lemma write_post_trace (s : Sys D) :
  Wire.bus_trace (bus (snd (write_post s))) =
  Wire.bus_trace (bus s) ++
    [Wire.EvTransmit (_i2cAddr (drv s)) (control_bytes (drv s)) (transmit_status s)].
Proof. unfold write_post, transmit_status. now destruct (Wire.dev_transmit _ _ _). Qed.

Lemma read_post_drv (s : Sys D) :
  drv (read_post s) = set_regs (scatter read_order 0 (received s)) (drv s).
Proof. unfold read_post, received. now destruct (Wire.dev_request _ _ _). Qed.

Lemma read_post_trace (s : Sys D) :
  Wire.bus_trace (bus (read_post s)) =
  Wire.bus_trace (bus s) ++ [Wire.EvRequest (_i2cAddr (drv s)) 32 (received s)].
Proof. unfold read_post, received. now destruct (Wire.dev_request _ _ _). Qed.

Lemma read_post_dev (s : Sys D) :
  Wire.bus_dev (bus (read_post s)) =
  snd (Wire.dev_request (Wire.bus_dev (bus s)) (_i2cAddr (drv s)) 32).
Proof. unfold read_post. now destruct (Wire.dev_request _ _ _). Qed.

Lemma write_post_dev (s : Sys D) :
  Wire.bus_dev (bus (snd (write_post s))) =
  snd (Wire.dev_transmit (Wire.bus_dev (bus s)) (_i2cAddr (drv s)) (control_bytes (drv s))).
Proof. unfold write_post. now destruct (Wire.dev_transmit _ _ _). Qed.

End Post.

#[export] Hint Rewrite @write_post_fst @write_post_drv @write_post_trace
  @read_post_drv @read_post_trace : si4703_post.

(** Reading register [r] of a store after a full read. *)
Lemma reg_read_post o rx r :
  length (_regs o) = 16%nat -> 0 <= r < 16 ->
  reg (set_regs (scatter read_order 0 rx) o) r = block_word rx (block_pos r).
Proof. intros Hl Hr. unfold reg, set_regs. cbn [_regs]. now apply scatter_read_order. Qed.

(** The control bytes as the pairs of a flattened list. *)
Lemma control_bytes_pairs o :
  control_bytes o =
  flat_map (fun i => [u8 (reg o (2 + Z.of_nat i) >>' 8); u8 (reg o (2 + Z.of_nat i) &' 0xFF)])
           (seq 0 6).
Proof. reflexivity. Qed.

Section Transaction.
Context {D : Type} `{!Wire.I2CDevice D}.

(** C27: [writeRegisters] is one write transaction to the driver's
    address: exactly one event is added to the trace, carrying 12
    bytes, the high then the low byte of registers 0x02, 0x03, ..,
    0x07 in ascending order (no other register appears); the result is
    [true] exactly when the device answers status 0, and the object is
    unchanged. *)
Theorem writeRegisters_transaction (s : Sys D) :
  exists bytes st s', writeRegisters s = Some (st =? 0, s') /\
    Wire.bus_trace (bus s') =
      Wire.bus_trace (bus s) ++ [Wire.EvTransmit (_i2cAddr (drv s)) bytes st] /\
    drv s' = drv s /\ length bytes = 12%nat /\
    forall k : nat, (k < 6)%nat ->
      bytes !! (2 * k)%nat = Some (u8 (reg (drv s) (2 + Z.of_nat k) >>' 8)) /\
      bytes !! S (2 * k) = Some (u8 (reg (drv s) (2 + Z.of_nat k) &' 0xFF)).
Proof.
  exists (control_bytes (drv s)), (transmit_status s), (snd (write_post s)).
  rewrite writeRegisters_run, <- write_post_fst, <- surjective_pairing.
  split; [reflexivity|]. rewrite write_post_trace, write_post_drv.
  split; [reflexivity|]. split; [reflexivity|]. split; [reflexivity|].
  intros k Hk. rewrite control_bytes_pairs.
  exact (lookup_flat_map_pair (fun i => u8 (reg (drv s) (2 + Z.of_nat i) >>' 8))
           (fun i => u8 (reg (drv s) (2 + Z.of_nat i) &' 0xFF)) 6 k Hk).
Qed.

End Transaction.

Lemma writeRegisters_transaction_witness :
  (0 < 6)%nat /\
  exists bytes st s', writeRegisters (demo_sys true demo_block) = Some (st =? 0, s') /\
    length bytes = 12%nat /\ bytes !! 0%nat = Some 0.
Proof.
  split; [lia|].
  destruct (writeRegisters_transaction (demo_sys true demo_block))
    as (bytes & st & s' & E & _ & _ & Hl & Hb).
  exists bytes, st, s'. split; [exact E|]. split; [exact Hl|].
  destruct (Hb 0%nat ltac:(lia)) as [H0 _]. exact H0.
Defined.

End Sync.
