(* ===== verification/Sequencer.v ===== *)
(** * Sequencer: the power-up and soft-reset sequences

    [SI4703::powerUp] (src/src/SI4703.cpp lines 70-95): full read, stage
    TEST1 = 0x8100, SYSCONFIG1 = RDS | DE, SYSCONFIG2 = SPACE_100KHZ,
    POWERCFG = ENABLE | DMUTE, one control write, [delay(110)].

    [SI4703::reset] (lines 53-65): a no-op unless initialized; otherwise a
    full read, POWERCFG |= DISABLE, a control write, [delay(10)], and the
    power-up sequence again.

    The run lemmas give the final state as a pure function of the
    initial one; the properties state what is staged and written, and in
    which order the bus sees the transactions. *)

From Stdlib Require Import ZArith Lia.
From stdpp Require Import base list.
From S2P Require Import Prelude Float32 Regs Wire Shadow Sync.

Open Scope Z_scope.
Open Scope si4703_scope.

Module Sequencer.
Import Regs Shadow Sync.

Section Methods.
Context {D : Type} `{!Wire.I2CDevice D}.

Definition powerUp : M (Sys D) unit :=
  readRegisters;;
  set_reg REG_TEST1 (u16 0x8100);;
  set_reg REG_SYSCONFIG1 (u16 (SYSCONFIG1_RDS |' SYSCONFIG1_DE));;
  set_reg REG_SYSCONFIG2 (u16 SYSCONFIG2_SPACE_100KHZ);;
  set_reg REG_POWERCFG (u16 (POWERCFG_ENABLE |' POWERCFG_DMUTE));;
  _ ← writeRegisters;
  delay 110.

Definition reset : M (Sys D) unit :=
  init ← get_drv _initialized;
  if negb init then mret tt else
  readRegisters;;
  w ← get_reg REG_POWERCFG;
  set_reg REG_POWERCFG (u16 (w |' POWERCFG_DISABLE));;
  _ ← writeRegisters;
  delay 10;;
  powerUp.

End Methods.

(** The words [powerUp] stages, as the code computes them. *)
Definition TEST1_POWERUP : Z := u16 0x8100.
Definition SYSCONFIG1_POWERUP : Z := u16 (SYSCONFIG1_RDS |' SYSCONFIG1_DE).
Definition SYSCONFIG2_POWERUP : Z := u16 SYSCONFIG2_SPACE_100KHZ.
Definition POWERCFG_POWERUP : Z := u16 (POWERCFG_ENABLE |' POWERCFG_DMUTE).

Lemma powerup_words :
  TEST1_POWERUP = 0x8100 /\ SYSCONFIG1_POWERUP = 0x1800 /\
  SYSCONFIG2_POWERUP = 0x0010 /\ POWERCFG_POWERUP = 0x4001.
Proof. repeat split; reflexivity. Qed.

(** Staging of the power-up words into a store. *)
Definition stage_powerUp (l : list Z) : list Z :=
  <[2%nat := POWERCFG_POWERUP]> (<[5%nat := SYSCONFIG2_POWERUP]>
    (<[4%nat := SYSCONFIG1_POWERUP]> (<[7%nat := TEST1_POWERUP]> l))).

Section Run.
Context {D : Type} `{!Wire.I2CDevice D}.

Definition powerUp_post (s : Sys D) : Sys D :=
  let s1 := read_post s in
  let s2 := mkSys (set_regs stage_powerUp (drv s1)) (bus s1) in
  delay_post 110 (snd (write_post s2)).

Lemma powerUp_run (s : Sys D) : powerUp s = Some (tt, powerUp_post s).
Proof.
  unfold powerUp, powerUp_post. rewrite run_bind, readRegisters_run.
  cbn beta iota. do 4 run_prim.
  rewrite run_bind, writeRegisters_run. destruct (write_post _) as [ok s5].
  reflexivity.
Qed.

(** The disabling write of [reset]: POWERCFG as read, with DISABLE. *)
Definition stage_disable (o : SI4703) : SI4703 :=
  set_regs (insert 2%nat (u16 (reg o REG_POWERCFG |' POWERCFG_DISABLE))) o.

Definition reset_post (s : Sys D) : Sys D :=
  if negb (_initialized (drv s)) then s else
  let s1 := read_post s in
  let s2 := mkSys (stage_disable (drv s1)) (bus s1) in
  powerUp_post (delay_post 10 (snd (write_post s2))).

Lemma reset_run (s : Sys D) : reset s = Some (tt, reset_post s).
Proof.
  unfold reset, reset_post. rewrite run_bind. cbn [get_drv m_gets].
  destruct (_initialized (drv s)); [|reflexivity]. cbn [negb].
  rewrite run_bind, readRegisters_run. cbn beta iota. do 2 run_prim.
  rewrite run_bind, writeRegisters_run. destruct (write_post _) as [ok s5].
  run_prim. rewrite powerUp_run. reflexivity.
Qed.

End Run.

(** The registers of a staged power-up store. *)
Lemma stage_powerUp_regs o :
  length (_regs o) = 16%nat ->
  let o' := set_regs stage_powerUp o in
  reg o' 2 = 0x4001 /\ reg o' 4 = 0x1800 /\ reg o' 5 = 0x0010 /\ reg o' 7 = 0x8100 /\
  (forall r, 0 <= r -> r <> 2 -> r <> 4 -> r <> 5 -> r <> 7 -> reg o' r = reg o r).
Proof.
  intros Hl o'. subst o'. unfold reg, set_regs, stage_powerUp. cbn [_regs].
  repeat split; [..|intros r Hr H2 H4 H5 H7];
    rewrite !list_lookup_total_insert, ?length_insert;
    repeat case_decide; (reflexivity || lia).
Qed.

Lemma length_regs_read_post {D} `{!Wire.I2CDevice D} (s : Sys D) :
  length (_regs (drv (read_post s))) = length (_regs (drv s)).
Proof. rewrite read_post_drv. apply length_scatter. Qed.

Section Props.
Context {D : Type} `{!Wire.I2CDevice D}.

(** [powerUp] changes the object only in its store. *)
Lemma powerUp_post_drv (s : Sys D) :
  drv (powerUp_post s) =
  set_regs (fun l => stage_powerUp (scatter read_order 0 (received s) l)) (drv s).
Proof.
  unfold powerUp_post, delay_post. cbn [drv]. rewrite write_post_drv. cbn [drv].
  rewrite read_post_drv. reflexivity.
Qed.

(** What [powerUp_post] does to the trace and the store. *)
Lemma powerUp_post_facts (s : Sys D) :
  length (_regs (drv s)) = 16%nat ->
  let s' := powerUp_post s in
  (exists st, Wire.bus_trace (bus s') = Wire.bus_trace (bus s) ++
      [Wire.EvRequest (_i2cAddr (drv s)) 32 (received s);
       Wire.EvTransmit (_i2cAddr (drv s)) (control_bytes (drv s')) st;
       Wire.EvDelay 110]) /\
  reg (drv s') REG_POWERCFG = 0x4001 /\ reg (drv s') REG_SYSCONFIG1 = 0x1800 /\
  reg (drv s') REG_SYSCONFIG2 = 0x0010 /\ reg (drv s') REG_TEST1 = 0x8100 /\
  (forall r, 0 <= r < 16 -> r <> 2 -> r <> 4 -> r <> 5 -> r <> 7 ->
     reg (drv s') r = block_word (received s) (block_pos r)) /\
  _i2cAddr (drv s') = _i2cAddr (drv s) /\ _initialized (drv s') = _initialized (drv s) /\
  _currentFreq (drv s') = _currentFreq (drv s) /\
  length (_regs (drv s')) = 16%nat.
Proof.
  intros Hl s'. subst s'.
  unfold powerUp_post, delay_post. cbn [drv bus Wire.bus_trace Wire.delay Wire.log].
  rewrite write_post_drv, write_post_trace. cbn [drv bus _i2cAddr set_regs].
  rewrite read_post_drv, read_post_trace.
  destruct (stage_powerUp_regs (set_regs (scatter read_order 0 (received s)) (drv s)))
    as (H2 & H4 & H5 & H7 & Hother).
  { cbn [_regs set_regs]. now rewrite length_scatter. }
  split; [eexists; rewrite <- !app_assoc; reflexivity|].
  repeat split; auto.
  - intros r Hr ? ? ? ?. rewrite Hother by (auto || lia). now apply reg_read_post.
  - cbn [_regs set_regs]. unfold stage_powerUp. now rewrite !length_insert, length_scatter.
Qed.

(** The trace of [powerUp], with the status the device gave to its
    write. *)
Lemma powerUp_post_trace (s : Sys D) :
  Wire.bus_trace (bus (powerUp_post s)) = Wire.bus_trace (bus s) ++
    [Wire.EvRequest (_i2cAddr (drv s)) 32 (received s);
     Wire.EvTransmit (_i2cAddr (drv s)) (control_bytes (drv (powerUp_post s)))
       (transmit_status (mkSys (drv (powerUp_post s)) (bus (read_post s))));
     Wire.EvDelay 110].
Proof.
  assert (Hd : drv (powerUp_post s) = set_regs stage_powerUp (drv (read_post s))).
  { unfold powerUp_post, delay_post. cbn [drv]. now rewrite write_post_drv. }
  rewrite Hd. unfold powerUp_post, delay_post. cbn [bus Wire.bus_trace Wire.delay Wire.log].
  rewrite write_post_trace. cbn [bus drv]. rewrite read_post_trace, <- !app_assoc.
  rewrite read_post_drv. reflexivity.
Qed.

(** C3: [powerUp] performs, in this order, one full read, one control
    write and a 110 ms wait.  The store it writes (and keeps) has
    POWERCFG = ENABLE | DMUTE = 0x4001, SYSCONFIG1 = RDS | DE = 0x1800,
    SYSCONFIG2 = SPACE_100KHZ = 0x0010 and TEST1 = 0x8100, each written
    whole, while CHANNEL, SYSCONFIG3 and the read-only registers keep
    the words just read. *)
Theorem powerUp_sequence (s : Sys D) :
  length (_regs (drv s)) = 16%nat ->
  exists s' st, powerUp s = Some (tt, s') /\
    Wire.bus_trace (bus s') = Wire.bus_trace (bus s) ++
      [Wire.EvRequest (_i2cAddr (drv s)) 32 (received s);
       Wire.EvTransmit (_i2cAddr (drv s)) (control_bytes (drv s')) st;
       Wire.EvDelay 110] /\
    reg (drv s') REG_POWERCFG = 0x4001 /\ reg (drv s') REG_SYSCONFIG1 = 0x1800 /\
    reg (drv s') REG_SYSCONFIG2 = 0x0010 /\ reg (drv s') REG_TEST1 = 0x8100 /\
    (forall r, 0 <= r < 16 -> r <> 2 -> r <> 4 -> r <> 5 -> r <> 7 ->
       reg (drv s') r = block_word (received s) (block_pos r)).
Proof.
  intros Hl. destruct (powerUp_post_facts s Hl) as ([st Htr] & H2 & H4 & H5 & H7 & Ho & _).
  exists (powerUp_post s), st. rewrite powerUp_run. auto 8.
Qed.

(** C21: on an initialized driver, [reset] performs, in this order, a
    full read, a control write whose POWERCFG word is the word read
    with DISABLE (bit 6) set and every other register as read, a
    10 ms wait, and then the whole power-up sequence (read, write of
    the power-up words, 110 ms wait). *)
Theorem reset_sequence (s : Sys D) :
  _initialized (drv s) = true -> length (_regs (drv s)) = 16%nat ->
  exists s' o1 st1 got2 st2, reset s = Some (tt, s') /\
    Wire.bus_trace (bus s') = Wire.bus_trace (bus s) ++
      [Wire.EvRequest (_i2cAddr (drv s)) 32 (received s);
       Wire.EvTransmit (_i2cAddr (drv s)) (control_bytes o1) st1;
       Wire.EvDelay 10;
       Wire.EvRequest (_i2cAddr (drv s)) 32 got2;
       Wire.EvTransmit (_i2cAddr (drv s)) (control_bytes (drv s')) st2;
       Wire.EvDelay 110] /\
    reg o1 REG_POWERCFG = block_word (received s) (block_pos 2) |' POWERCFG_DISABLE /\
    (forall r, 0 <= r < 16 -> r <> 2 -> reg o1 r = block_word (received s) (block_pos r)) /\
    reg (drv s') REG_POWERCFG = 0x4001 /\ reg (drv s') REG_SYSCONFIG1 = 0x1800 /\
    reg (drv s') REG_SYSCONFIG2 = 0x0010 /\ reg (drv s') REG_TEST1 = 0x8100.
Proof.
  intros Hinit Hl.
  set (o1 := stage_disable (drv (read_post s))).
  set (s3 := delay_post 10 (snd (write_post (mkSys o1 (bus (read_post s)))))).
  assert (Hl1 : length (_regs o1) = 16%nat).
  { subst o1. unfold stage_disable. cbn [_regs set_regs].
    now rewrite length_insert, length_regs_read_post. }
  assert (Hl3 : length (_regs (drv s3)) = 16%nat).
  { subst s3. unfold delay_post. cbn [drv]. now rewrite write_post_drv. }
  destruct (powerUp_post_facts s3 Hl3) as ([st2 Htr] & H2 & H4 & H5 & H7 & _).
  set (s' := powerUp_post s3) in *.
  assert (Hs' : s' = reset_post s).
  { unfold reset_post. rewrite Hinit. reflexivity. }
  exists s', o1, (transmit_status (mkSys o1 (bus (read_post s)))), (received s3), st2.
  split; [rewrite reset_run; congruence|].
  split.
  - rewrite Htr. subst s3. unfold delay_post.
    cbn [drv bus Wire.bus_trace Wire.delay Wire.log].
    rewrite write_post_trace, !write_post_drv. cbn [drv bus]. rewrite read_post_trace.
    subst o1. unfold stage_disable. rewrite !read_post_drv. cbn [_i2cAddr set_regs].
    rewrite <- !app_assoc. reflexivity.
  - subst o1. unfold stage_disable. rewrite read_post_drv.
    assert (Hlr : length (_regs (set_regs (scatter read_order 0 (received s)) (drv s))) = 16%nat)
      by (cbn [_regs set_regs]; now rewrite length_scatter).
    repeat split; auto.
    + unfold reg at 1. cbn [_regs set_regs].
      rewrite list_lookup_total_insert_eq by (rewrite length_scatter; lia).
      rewrite reg_read_post by (auto || (simpl; lia)). apply u16_id, lor_u16.
      * apply u16_range.
      * vm_compute. split; congruence.
    + intros r Hr Hne. unfold reg at 1. cbn [_regs set_regs].
      rewrite list_lookup_total_insert_ne by lia. now apply reg_read_post.
Qed.

End Props.

(** ** Witnesses on a concrete bus *)

Lemma powerUp_sequence_witness :
  length (_regs (drv (demo_sys true demo_block))) = 16%nat /\
  exists s', powerUp (demo_sys true demo_block) = Some (tt, s') /\
    reg (drv s') REG_POWERCFG = 0x4001 /\ reg (drv s') REG_SYSCONFIG2 = 0x0010.
Proof.
  assert (Hl : length (_regs (drv (demo_sys true demo_block))) = 16%nat) by reflexivity.
  split; [exact Hl|].
  destruct (powerUp_sequence _ Hl) as (s' & st & E & _ & H2 & _ & H5 & _).
  exists s'. auto.
Defined.

Lemma reset_sequence_witness :
  _initialized (drv (demo_sys true demo_block)) = true /\
  length (_regs (drv (demo_sys true demo_block))) = 16%nat /\
  exists s' o1, reset (demo_sys true demo_block) = Some (tt, s') /\
    reg o1 REG_POWERCFG = 0x0040 /\ reg (drv s') REG_POWERCFG = 0x4001.
Proof.
  assert (Hi : _initialized (drv (demo_sys true demo_block)) = true) by reflexivity.
  assert (Hl : length (_regs (drv (demo_sys true demo_block))) = 16%nat) by reflexivity.
  split; [exact Hi|]. split; [exact Hl|].
  destruct (reset_sequence _ Hi Hl) as (s' & o1 & st1 & got2 & st2 & E & _ & H1 & _ & H2 & _).
  exists s', o1. split; [exact E|]. split; [rewrite H1; reflexivity | exact H2].
Defined.

End Sequencer.
