(* ===== verification/Tune.v ===== *)
(** * Tune: [SI4703::setFrequency] and [SI4703::getFrequency]

    src/src/SI4703.cpp lines 100-136.  The requested frequency is a
    binary32 [float]; it is clamped to [87.5f, 108.0f] by two comparisons,
    converted to a channel by [(uint16_t)((mhz - 87.5f) / 0.1f)] (binary32
    subtraction and division, then truncation), staged into CHANNEL with
    the TUNE bit, written, and after [delay(60)] read back, TUNE cleared,
    written again; then [_currentFreq] is set, whatever the two writes
    returned.

    A NaN request passes both comparisons unclamped and reaches the
    conversion, whose result is then undefined: the model returns [None]
    there.  For every other request the conversion is shown equal to the
    spec's exact [floor((f - 87.5) / 0.1)] ([spec_channel]), from the
    rounding lemmas of Round.v. *)

From Stdlib Require Import ZArith Lia Floats.SpecFloat.
From stdpp Require Import base list.
From S2P Require Import Prelude Float32 Round Regs Wire Shadow Sync.

Open Scope Z_scope.
Open Scope si4703_scope.

Module Tune.
Import Regs Shadow Sync.

(** Lines 105-106: the two clamping assignments, in order. *)
Definition clamp (mhz : F32.float32) : F32.float32 :=
  let mhz := if F32.lt mhz SI4703_FREQ_MIN_MHZ then SI4703_FREQ_MIN_MHZ else mhz in
  if F32.gt mhz SI4703_FREQ_MAX_MHZ then SI4703_FREQ_MAX_MHZ else mhz.

(** Lines 109-110: [(uint16_t)((mhz - SI4703_FREQ_MIN_MHZ) /
    SI4703_CHANNEL_SPACING_MHZ)]; [None] is undefined behaviour. *)
Definition channel_of (mhz : F32.float32) : option Z :=
  F32.to_u16 (F32.div (F32.sub mhz SI4703_FREQ_MIN_MHZ) SI4703_CHANNEL_SPACING_MHZ).

(** The channel spec.md prescribes for a tuned frequency [f]
    ("Testable properties": [floor((clamp(f) - 87.5) / 0.1)]), in exact
    arithmetic on the value of the float: [(f - 87.5) / 0.1 = 10 f - 875],
    and for [f = v * 2^e] with [e < 0] its floor is
    [(10 v - 875 * 2^-e) / 2^-e] with [Z.div] rounding down.  A
    reference for [channel_of], not code of the driver. *)
Definition spec_channel (f : F32.float32) : option Z :=
  match f with
  | S754_zero _ => Some (-875)
  | S754_finite s m e =>
      let v := if s then - Zpos m else Zpos m in
      Some (if 0 <=? e then 10 * v * 2 ^ e - 875 else (10 * v - 875 * 2 ^ (- e)) / 2 ^ (- e))
  | S754_infinity _ | S754_nan => None
  end.

Section Methods.
Context {D : Type} `{!Wire.I2CDevice D}.

Definition setFrequency (mhz : F32.float32) : M (Sys D) unit :=
  init ← get_drv _initialized;
  if negb init then mret tt else
  let mhz := clamp mhz in
  channel ← m_lift (channel_of mhz);
  readRegisters;;
  w ← get_reg REG_CHANNEL; set_reg REG_CHANNEL (u16 (w &' ~' CHANNEL_CHAN_MASK));;
  w ← get_reg REG_CHANNEL; set_reg REG_CHANNEL (u16 (w |' channel));;
  w ← get_reg REG_CHANNEL; set_reg REG_CHANNEL (u16 (w |' CHANNEL_TUNE));;
  _ ← writeRegisters;
  delay 60;;
  readRegisters;;
  w ← get_reg REG_CHANNEL; set_reg REG_CHANNEL (u16 (w &' ~' CHANNEL_TUNE));;
  _ ← writeRegisters;
  modify_drv (set_currentFreq mhz).

Definition getFrequency : M (Sys D) F32.float32 := get_drv _currentFreq.

End Methods.

(** ** The constants, evaluated *)

Lemma band_constants :
  SI4703_FREQ_MIN_MHZ = S754_finite false 11468800 (-17) /\
  SI4703_FREQ_MAX_MHZ = S754_finite false 14155776 (-17) /\
  SI4703_CHANNEL_SPACING_MHZ = S754_finite false 13421773 (-27).
Proof. repeat split; vm_compute; reflexivity. Qed.

Lemma channel_of_bounds :
  channel_of SI4703_FREQ_MIN_MHZ = Some 0 /\ channel_of SI4703_FREQ_MAX_MHZ = Some 205.
Proof. split; vm_compute; reflexivity. Qed.

(** ** Clamping *)

Lemma clamp_nan : clamp S754_nan = S754_nan.
Proof. reflexivity. Qed.

(** Every clamped non-NaN float is [m * 2^-17] with [m] between the
    mantissas of 87.5 and 108.0: it lies in the band. *)
Lemma clamp_window x :
  F32.is_nan x = false ->
  exists m, clamp x = S754_finite false m (-17) /\ 11468800 <= Zpos m <= 14155776.
Proof.
  intros Hnan. destruct band_constants as (Hmin & Hmax & _).
  unfold clamp. rewrite Hmin, Hmax.
  destruct (F32.lt x _) eqn:Hlo.
  - exists 11468800%positive. split; [reflexivity | lia].
  - destruct (F32.gt x (S754_finite false 14155776 (-17))) eqn:Hhi.
    + exists 14155776%positive. split; [reflexivity | lia].
    + destruct (F32.window_same_exp x _ _ _ Hlo Hnan Hhi) as (m & -> & Hm).
      exists m. split; [reflexivity | lia].
Qed.

Lemma clamp_below x :
  SFleb x SI4703_FREQ_MIN_MHZ = true -> clamp x = SI4703_FREQ_MIN_MHZ.
Proof.
  destruct band_constants as (Hmin & Hmax & _). unfold clamp, F32.lt, F32.gt, SFleb, SFltb.
  rewrite Hmin, Hmax. destruct (SFcompare x _) as [[]|] eqn:E; try discriminate; intros _.
  - apply F32.compare_eq_finite in E. subst x. reflexivity.
  - reflexivity.
Qed.

Lemma clamp_above x :
  SFleb SI4703_FREQ_MAX_MHZ x = true -> clamp x = SI4703_FREQ_MAX_MHZ.
Proof.
  destruct band_constants as (Hmin & Hmax & _). unfold clamp, F32.lt, F32.gt.
  rewrite Hmin, Hmax. intros H.
  destruct x as [s|s| |s m e]; try (destruct s; discriminate); try discriminate.
  - destruct s; [discriminate | reflexivity].
  - destruct s; [discriminate|]. rewrite F32.leb_pos_finite in H.
    assert (Hc : -17 < e \/ (e = -17 /\ 14155776 <= Zpos m)).
    { destruct (Z.ltb_spec (-17) e); [lia|]. destruct (Z.eqb_spec (-17) e); [|discriminate].
      simpl in H. apply Z.leb_le in H. lia. }
    rewrite F32.ltb_pos_finite. destruct Hc as [Hc | [-> Hm]].
    + rewrite (proj2 (Z.ltb_ge e (-17))), (proj2 (Z.eqb_neq e (-17))) by lia.
      cbn [orb andb]. rewrite F32.ltb_pos_finite, (proj2 (Z.ltb_lt (-17) e)) by lia.
      reflexivity.
    + rewrite Z.ltb_irrefl, Z.eqb_refl, (proj2 (Z.ltb_ge (Zpos m) 11468800)) by lia.
      cbn [orb andb]. rewrite F32.ltb_pos_finite, Z.ltb_irrefl, Z.eqb_refl. cbn [orb andb].
      destruct (Z.ltb_spec 14155776 (Zpos m)); [reflexivity|].
      replace m with 14155776%positive by lia. reflexivity.
Qed.

(** ** The channel of every clamped request *)

(** The arithmetic of the exact channel: a value [W] (in units of
    [2^-T], [P = 2^T]) within half a unit [u] of [N / 13421773], where
    [N = 1024 k P] is the exact quotient by [0.1f], truncates to
    [floor(10 k / 2^17)], the exact quotient by [0.1].  The margin comes
    from [0.1f] being slightly above [0.1]. *)
Lemma band_div_arith k P W u N :
  0 < k <= 2686976 -> 65536 <= P -> (exists P', P = 2 * P') ->
  N = 1024 * (k * P) -> N < 2 ^ 25 * 13421773 -> (u = 1 \/ u = 2) ->
  (exists w, W = u * w) -> 2 * Z.abs (W * 13421773 - N) <= u * 13421773 ->
  W / P = 10 * k / 2 ^ 17.
Proof.
  intros Hk HP [P' HP'] HN HNb Hu [w Hw] Hnear.
  change (2 ^ 17) with 131072. change (2 ^ 25) with 33554432 in HNb.
  set (n := 10 * k / 131072).
  assert (Hn : 131072 * n <= 10 * k <= 131072 * n + 131070) by (subst n; div_lia).
  assert (Hb1 : 131072 * n * P <= 10 * k * P) by (apply Z.mul_le_mono_nonneg_r; lia).
  assert (Hb2 : 10 * k * P <= (131072 * n + 131070) * P) by (apply Z.mul_le_mono_nonneg_r; lia).
  assert (n * P <= W).
  { destruct (Z_le_gt_dec (n * P) W) as [|Hlt]; [assumption|]. exfalso.
    assert (W <= n * P - u) by (destruct Hu; subst u W P; lia). lia. }
  assert (W < (n + 1) * P) by lia.
  symmetry. apply Z.div_unique with (W - n * P); lia.
Qed.

(** The quotient [(m * 2^-17 - 87.5f) / 0.1f] of a mantissa in the band
    truncates to [floor((m * 2^-17 - 87.5) / 0.1)], computed exactly:
    the subtraction is exact, the division is correctly rounded, and its
    rounding never crosses an integer. *)
Lemma channel_of_band_exact m :
  11468800 <= Zpos m <= 14155776 ->
  channel_of (S754_finite false m (-17)) = Some (10 * (Zpos m - 11468800) / 2 ^ 17).
Proof.
  intros Hm. unfold channel_of, F32.sub, F32.div, F32.prec, F32.emax.
  destruct band_constants as (-> & _ & ->).
  destruct (Z.eq_dec (Zpos m) 11468800) as [Heq|Hne].
  { replace m with 11468800%positive by lia. rewrite Round.sub_same_exp_zero. reflexivity. }
  rewrite Round.sub_same_exp by lia.
  assert (Hk : Zpos (m - 11468800) = Zpos m - 11468800) by (rewrite Pos2Z.inj_sub; lia).
  destruct (Round.binary_round_exact (m - 11468800) (-17) ltac:(cbn; lia) ltac:(lia))
    as (M1 & E1 & -> & HM1 & HE1 & HMr).
  set (A := 2 ^ (-17 - E1)) in HM1.
  assert (HA : 0 < A) by (apply Z.pow_pos_nonneg; lia).
  assert (HE1' : -41 < E1).
  { destruct (Z_lt_le_dec (-41) E1) as [|Hle]; [assumption|].
    assert (2 ^ 24 <= A) by (apply Z.pow_le_mono_r; lia). nia. }
  rewrite Round.div_24 by (cbn; lia).
  replace (2 ^ 24) with 16777216 by reflexivity.
  set (N := Zpos M1 * 16777216).
  assert (Hq : 0 < N / 13421773 < 2 ^ 25) by (cbn in HMr |- *; subst N; div_lia).
  destruct (Round.round_aux_near N 13421773 (N / 13421773) (E1 - -27 - 24)
              (new_location 13421773 (N mod 13421773)) ltac:(lia) Hq ltac:(lia)
              (Round.new_location_ok N 13421773 ltac:(lia)))
    as (mf & ef & u & -> & Hef & Hu & Hw & Hnear).
  set (T := - (E1 - -27 - 24)).
  assert (HP : A * 2 ^ 14 = 2 ^ T) by (subst A T; rewrite <- Z.pow_add_r by lia; f_equal; lia).
  change (2 ^ 14) with 16384 in HP. cbn in HMr.
  assert (HP16 : 65536 <= 2 ^ T) by nia.
  assert (HP2 : exists P', 2 ^ T = 2 * P')
    by (exists (2 ^ (T - 1)); rewrite <- Z.pow_succ_r by lia; f_equal; lia).
  cbn [F32.to_u16]. rewrite (Round.trunc_finite_div mf ef T) by lia.
  replace (ef + T) with (ef - (E1 - -27 - 24)) by lia.
  assert (HN : N = 1024 * ((Zpos m - 11468800) * 2 ^ T))
    by (subst N; rewrite HM1, Hk, <- HP; ring).
  change (2 ^ 25) with 33554432 in Hq.
  rewrite (band_div_arith (Zpos m - 11468800) (2 ^ T) _ u N);
    [| lia | exact HP16 | exact HP2 | exact HN | div_lia | exact Hu | exact Hw | exact Hnear].
  assert (Hr : 0 <= 10 * (Zpos m - 11468800) / 2 ^ 17 <= 205) by (cbn; div_lia).
  rewrite (proj2 (is_u16_spec _)) by (cbn -[Z.div]; lia). reflexivity.
Qed.

(** Hence the channel of a mantissa in the band lies in [[0, 205]]. *)
Lemma channel_of_band m :
  11468800 <= Zpos m <= 14155776 ->
  exists c, channel_of (S754_finite false m (-17)) = Some c /\ 0 <= c <= 205.
Proof.
  intros Hm. rewrite channel_of_band_exact by exact Hm.
  eexists. split; [reflexivity | change (2 ^ 17) with 131072; div_lia].
Qed.

(** Every clamped non-NaN request has a channel, in [[0, 205]]. *)
Lemma clamp_channel x :
  F32.is_nan x = false -> exists c, channel_of (clamp x) = Some c /\ 0 <= c <= 205.
Proof. intros Hn. destruct (clamp_window x Hn) as (m & -> & Hm). now apply channel_of_band. Qed.

(** A defined channel of a clamped request is the spec's exact
    channel. *)
Lemma channel_of_clamp_spec x c :
  channel_of (clamp x) = Some c -> spec_channel (clamp x) = Some c.
Proof.
  destruct (F32.is_nan x) eqn:Hn; [destruct x; try discriminate; discriminate|].
  destruct (clamp_window x Hn) as (m & -> & Hm).
  rewrite channel_of_band_exact by exact Hm. intros <-. cbn -[Z.pow Z.div]. f_equal.
  change (- -17) with 17. f_equal. change (2 ^ 17) with 131072. lia.
Qed.

(** C10: the channel computation of line 110, in binary32 arithmetic
    with truncation, equals the spec's [floor((clamp(f) - 87.5) / 0.1)]
    computed exactly on the value of the clamped float, for every request
    that is not NaN: the float subtraction is exact, and the rounding of
    the division never crosses an integer. *)
Theorem channel_of_spec x :
  F32.is_nan x = false -> channel_of (clamp x) = spec_channel (clamp x).
Proof.
  intros Hn. destruct (clamp_channel x Hn) as (c & Hc & _).
  rewrite Hc. symmetry. now apply channel_of_clamp_spec.
Qed.

(** C16: the channel conversion of line 110 is total on the clamped
    requests but for NaN: every request that is not NaN is clamped and
    converted to a channel number in [[0, 205]] (so [(uint16_t)] is
    defined and the channel fits the 10-bit CHAN field), and a NaN
    request is the only one whose conversion is undefined. *)
Theorem channel_of_clamp_total x :
  (F32.is_nan x = false /\ exists c, channel_of (clamp x) = Some c /\ 0 <= c <= 205) \/
  (F32.is_nan x = true /\ channel_of (clamp x) = None).
Proof.
  destruct (F32.is_nan x) eqn:Hn; [right | left].
  - destruct x; try discriminate. split; reflexivity.
  - split; [reflexivity | now apply clamp_channel].
Qed.

(** ** The channel on the EU grid *)

(** The float a caller gets by writing the grid frequency
    [87.5 + k/10] MHz as a decimal literal. *)
Definition grid_mhz (k : Z) : F32.float32 := F32.of_decimal (875 + k) 1.

Definition grid_channels : list (option Z) :=
  map (fun k => channel_of (clamp (grid_mhz (Z.of_nat k)))) (seq 0 206).

(** The grid channels that come out one low. *)
Definition grid_low : list Z :=
  filter (fun k => bool_decide (channel_of (clamp (grid_mhz k)) = Some (k - 1)))
         (map Z.of_nat (seq 0 206)).

Lemma grid_channels_check :
  forallb (fun k => match channel_of (clamp (grid_mhz (Z.of_nat k))) with
                    | Some c => (Z.of_nat k - 1 =? c) || (Z.of_nat k =? c)
                    | None => false
                    end) (seq 0 206) = true.
Proof. vm_compute. reflexivity. Qed.

(** C15: tuning to a frequency of the EU grid [87.5 + k/10] MHz
    ([k = 0 .. 205]), given as the [float] literal a caller writes,
    never hits undefined behaviour and selects channel [k] or [k - 1]:
    the float computation [(mhz - 87.5f) / 0.1f] followed by
    truncation loses at most one channel. *)
Theorem setFrequency_grid_channel k :
  0 <= k <= 205 ->
  exists c, channel_of (clamp (grid_mhz k)) = Some c /\ (c = k \/ c = k - 1).
Proof.
  intros Hk. pose proof grid_channels_check as Hc.
  rewrite forallb_forall in Hc. specialize (Hc (Z.to_nat k) ltac:(apply in_seq; lia)).
  rewrite Z2Nat.id in Hc by lia.
  destruct (channel_of _) as [c|]; [|discriminate].
  exists c. split; [reflexivity|].
  apply orb_true_iff in Hc as [Hc|Hc]; apply Z.eqb_eq in Hc; lia.
Qed.

(** The evidence of the grid finding: the truncation loses a channel
    on 82 of the 206 grid frequencies; 98.1 MHz, for one, is tuned as
    channel 105 (98.0 MHz) instead of 106. *)
Theorem setFrequency_grid_off_by_one :
  length grid_low = 82%nat /\ channel_of (clamp (grid_mhz 106)) = Some 105.
Proof. split; vm_compute; reflexivity. Qed.

(** C24: out-of-band requests are clamped silently: any request at or
    below 87.5 MHz (including -infinity) is tuned as 87.5 MHz, channel
    0, and any request at or above 108.0 MHz (including +infinity) as
    108.0 MHz, channel 205. *)
Theorem setFrequency_clamp_ends x :
  (SFleb x SI4703_FREQ_MIN_MHZ = true ->
     clamp x = SI4703_FREQ_MIN_MHZ /\ channel_of (clamp x) = Some 0) /\
  (SFleb SI4703_FREQ_MAX_MHZ x = true ->
     clamp x = SI4703_FREQ_MAX_MHZ /\ channel_of (clamp x) = Some 205).
Proof.
  destruct channel_of_bounds as [H0 H205]. split; intros H.
  - rewrite clamp_below by exact H. auto.
  - rewrite clamp_above by exact H. auto.
Qed.

(** ** The run of [setFrequency] *)

(** A compound assignment [_regs[REG_CHANNEL] = f(_regs[REG_CHANNEL])]. *)
Definition stage_chan (f : Z -> Z) (o : SI4703) : SI4703 := update_reg REG_CHANNEL f o.

(** Lines 114-116 and line 124. *)
Definition stage_tune (c : Z) (o : SI4703) : SI4703 :=
  stage_chan (fun w => u16 (w |' CHANNEL_TUNE))
    (stage_chan (fun w => u16 (w |' c))
      (stage_chan (fun w => u16 (w &' ~' CHANNEL_CHAN_MASK)) o)).
Definition stage_untune (o : SI4703) : SI4703 :=
  stage_chan (fun w => u16 (w &' ~' CHANNEL_TUNE)) o.

Section Run.
Context {D : Type} `{!Wire.I2CDevice D}.

Definition tune_post (mhz : F32.float32) (c : Z) (s : Sys D) : Sys D :=
  let s1 := read_post s in
  let s2 := snd (write_post (mkSys (stage_tune c (drv s1)) (bus s1))) in
  let s4 := read_post (delay_post 60 s2) in
  let s5 := snd (write_post (mkSys (stage_untune (drv s4)) (bus s4))) in
  mkSys (set_currentFreq (clamp mhz) (drv s5)) (bus s5).

(** The bus after [setFrequency]: the one the second write left. *)
Lemma tune_post_bus mhz c (s : Sys D) :
  bus (tune_post mhz c s) =
  let s1 := read_post s in
  let s4 := read_post (delay_post 60 (snd (write_post (mkSys (stage_tune c (drv s1)) (bus s1))))) in
  bus (snd (write_post (mkSys (stage_untune (drv s4)) (bus s4)))).
Proof. reflexivity. Qed.

Lemma setFrequency_run mhz c (s : Sys D) :
  _initialized (drv s) = true -> channel_of (clamp mhz) = Some c ->
  setFrequency mhz s = Some (tt, tune_post mhz c s).
Proof.
  intros Hinit Hc. unfold setFrequency, tune_post. run_prim. rewrite Hinit. cbn [negb].
  rewrite run_bind. unfold m_lift at 1. rewrite Hc. cbn beta iota.
  rewrite run_bind, readRegisters_run. cbn beta iota. do 6 run_prim.
  rewrite run_bind, writeRegisters_run. destruct (write_post _) as [ok1 s2].
  run_prim. rewrite run_bind, readRegisters_run. cbn beta iota. do 2 run_prim.
  rewrite run_bind, writeRegisters_run. destruct (write_post _) as [ok2 s5].
  reflexivity.
Qed.

Lemma setFrequency_noinit mhz (s : Sys D) :
  _initialized (drv s) = false -> setFrequency mhz s = Some (tt, s).
Proof. intros Hn. unfold setFrequency. run_prim. now rewrite Hn. Qed.

(** A request whose channel conversion is undefined stops the run. *)
Lemma setFrequency_ub mhz (s : Sys D) :
  _initialized (drv s) = true -> channel_of (clamp mhz) = None ->
  setFrequency mhz s = None.
Proof.
  intros Hinit Hc. unfold setFrequency. run_prim. rewrite Hinit. cbn [negb].
  rewrite run_bind. unfold m_lift at 1. now rewrite Hc.
Qed.

End Run.

Lemma length_stage_chan f o : length (_regs (stage_chan f o)) = length (_regs o).
Proof. apply length_update_reg. Qed.

Lemma reg_stage_chan f o r :
  length (_regs o) = 16%nat -> 0 <= r < 16 ->
  reg (stage_chan f o) r = if r =? 3 then f (reg o 3) else reg o r.
Proof.
  intros Hl Hr. unfold stage_chan. rewrite reg_update_reg by (cbn; lia).
  change (reg_addr REG_CHANNEL) with 3. now rewrite Z.eqb_sym.
Qed.

Lemma reg_stage_tune c o r :
  length (_regs o) = 16%nat -> 0 <= r < 16 -> 0 <= c < 2 ^ 16 ->
  0 <= reg o 3 < 2 ^ 16 ->
  reg (stage_tune c o) r =
    if r =? 3 then ((reg o 3 &' ~' CHANNEL_CHAN_MASK) |' c) |' CHANNEL_TUNE else reg o r.
Proof.
  intros Hl Hr Hc Hw. unfold stage_tune.
  rewrite !reg_stage_chan by (rewrite ?length_stage_chan; lia || assumption).
  destruct (Z.eqb_spec r 3); [|reflexivity]. cbn.
  assert (H1 : 0 <= reg o 3 &' ~' CHANNEL_CHAN_MASK < 2 ^ 16) by now apply land_u16.
  assert (H2 : 0 <= (reg o 3 &' ~' CHANNEL_CHAN_MASK) |' c < 2 ^ 16) by now apply lor_u16.
  rewrite (u16_id (_ &' _)), (u16_id (_ |' c)) by assumption.
  apply u16_id, lor_u16; [assumption | vm_compute; split; congruence].
Qed.

Section Props.
Context {D : Type} `{!Wire.I2CDevice D}.

(** The trace of [setFrequency]: read, tuning write, wait, read,
    untuning write, with the statuses the device gave. *)
Lemma tune_post_trace mhz c (s : Sys D) :
  let s1 := read_post s in
  let o1 := stage_tune c (drv s1) in
  let s3 := delay_post 60 (snd (write_post (mkSys o1 (bus s1)))) in
  let s4 := read_post s3 in
  let o5 := stage_untune (drv s4) in
  Wire.bus_trace (bus (tune_post mhz c s)) = Wire.bus_trace (bus s) ++
    [Wire.EvRequest (_i2cAddr (drv s)) 32 (received s);
     Wire.EvTransmit (_i2cAddr (drv s)) (control_bytes o1) (transmit_status (mkSys o1 (bus s1)));
     Wire.EvDelay 60;
     Wire.EvRequest (_i2cAddr (drv s)) 32 (received s3);
     Wire.EvTransmit (_i2cAddr (drv s)) (control_bytes o5) (transmit_status (mkSys o5 (bus s4)))].
Proof.
  intros s1 o1 s3 s4 o5.
  assert (A1 : _i2cAddr o1 = _i2cAddr (drv s))
    by (subst o1 s1; unfold stage_tune, stage_chan, update_reg; now rewrite read_post_drv).
  assert (A3 : _i2cAddr (drv s3) = _i2cAddr (drv s))
    by (subst s3; unfold delay_post; cbn [drv]; now rewrite write_post_drv).
  assert (A5 : _i2cAddr o5 = _i2cAddr (drv s))
    by (subst o5 s4; unfold stage_untune, stage_chan, update_reg; rewrite read_post_drv; exact A3).
  assert (T3 : Wire.bus_trace (bus s3) = Wire.bus_trace (bus s) ++
    [Wire.EvRequest (_i2cAddr (drv s)) 32 (received s);
     Wire.EvTransmit (_i2cAddr (drv s)) (control_bytes o1) (transmit_status (mkSys o1 (bus s1)));
     Wire.EvDelay 60]).
  { subst s3. unfold delay_post. cbn [bus Wire.bus_trace Wire.delay Wire.log].
    rewrite write_post_trace. cbn [drv bus]. rewrite A1. subst s1.
    rewrite read_post_trace, <- !app_assoc. reflexivity. }
  unfold tune_post. change (read_post s) with s1. change (stage_tune c (drv s1)) with o1.
  change (delay_post 60 (snd (write_post (mkSys o1 (bus s1))))) with s3.
  change (read_post s3) with s4. change (stage_untune (drv s4)) with o5.
  cbn [bus]. rewrite write_post_trace. cbn [drv bus]. rewrite A5. subst s4.
  rewrite read_post_trace, A3, T3, <- !app_assoc. reflexivity.
Qed.

(** C2: [setFrequency] on an initialized driver, for a request whose
    channel [c] is defined, performs in order: a full read, a control
    write whose CHANNEL word is the word read with its channel field
    cleared, [c] or-ed in and TUNE set (every other register as read),
    a 60 ms wait, a second full read, and a control write whose
    CHANNEL word is the word read back with TUNE cleared; it then
    caches the clamped request, whatever status the two writes got. *)
Theorem setFrequency_sequence mhz c (s : Sys D) :
  _initialized (drv s) = true -> length (_regs (drv s)) = 16%nat ->
  channel_of (clamp mhz) = Some c ->
  exists s' o1 st1 got2 st2, setFrequency mhz s = Some (tt, s') /\
    Wire.bus_trace (bus s') = Wire.bus_trace (bus s) ++
      [Wire.EvRequest (_i2cAddr (drv s)) 32 (received s);
       Wire.EvTransmit (_i2cAddr (drv s)) (control_bytes o1) st1;
       Wire.EvDelay 60;
       Wire.EvRequest (_i2cAddr (drv s)) 32 got2;
       Wire.EvTransmit (_i2cAddr (drv s)) (control_bytes (drv s')) st2] /\
    reg o1 REG_CHANNEL =
      ((block_word (received s) (block_pos 3) &' ~' CHANNEL_CHAN_MASK) |' c)
        |' CHANNEL_TUNE /\
    (forall r, 0 <= r < 16 -> r <> 3 -> reg o1 r = block_word (received s) (block_pos r)) /\
    reg (drv s') REG_CHANNEL = block_word got2 (block_pos 3) &' ~' CHANNEL_TUNE /\
    (forall r, 0 <= r < 16 -> r <> 3 -> reg (drv s') r = block_word got2 (block_pos r)) /\
    _currentFreq (drv s') = clamp mhz /\ _initialized (drv s') = true.
Proof.
  intros Hinit Hl Hc. pose proof (F32.to_u16_range _ _ Hc) as Hcr.
  change (reg_addr REG_CHANNEL) with 3.
  set (s1 := read_post s).
  set (o1 := stage_tune c (drv s1)).
  set (s3 := delay_post 60 (snd (write_post (mkSys o1 (bus s1))))).
  assert (Hl1 : length (_regs (drv s1)) = 16%nat) by (subst s1; rewrite read_post_drv; cbn [_regs set_regs]; now rewrite length_scatter).
  assert (Hl3 : length (_regs (drv s3)) = 16%nat).
  { subst s3 o1. unfold delay_post. cbn [drv]. rewrite write_post_drv. cbn [drv].
    unfold stage_tune. now rewrite !length_stage_chan. }
  exists (tune_post mhz c s), o1, (transmit_status (mkSys o1 (bus s1))), (received s3),
    (transmit_status (mkSys (stage_untune (drv (read_post s3))) (bus (read_post s3)))).
  split; [now apply setFrequency_run|].
  split; [rewrite tune_post_trace; unfold tune_post; cbn [drv]; now rewrite write_post_drv|].
  unfold tune_post. fold s1. fold o1. fold s3.
  cbn [drv bus _currentFreq _initialized set_currentFreq]. rewrite !write_post_drv.
  cbn [drv]. split; [|split; [|split; [|split]]].
  - subst o1 s1. rewrite reg_stage_tune, Z.eqb_refl; try (assumption || lia).
    + rewrite read_post_drv. now rewrite reg_read_post.
    + rewrite read_post_drv, reg_read_post by (assumption || lia). apply u16_range.
  - intros r Hr Hne. subst o1 s1. rewrite reg_stage_tune; try (assumption || lia).
    + rewrite (proj2 (Z.eqb_neq r 3)) by lia. rewrite read_post_drv. now apply reg_read_post.
    + rewrite read_post_drv, reg_read_post by (assumption || lia). apply u16_range.
  - rewrite reg_set_currentFreq. unfold stage_untune. rewrite reg_stage_chan; [|rewrite read_post_drv; cbn [_regs set_regs]; now rewrite length_scatter | lia].
    cbn. rewrite read_post_drv, reg_read_post by (assumption || lia).
    apply u16_id, land_u16, u16_range.
  - intros r Hr Hne. rewrite reg_set_currentFreq. unfold stage_untune.
    rewrite reg_stage_chan; [|rewrite read_post_drv; cbn [_regs set_regs]; now rewrite length_scatter | lia].
    rewrite (proj2 (Z.eqb_neq r 3)) by lia. rewrite read_post_drv. now apply reg_read_post.
  - split; [reflexivity|]. subst s3 s1 o1.
    unfold delay_post, stage_tune, stage_untune, stage_chan, update_reg.
    repeat (autorewrite with si4703_post; cbn [drv _initialized set_regs set_currentFreq]).
    exact Hinit.
Qed.

(** C18: on an initialized driver, [setFrequency(mhz)] has undefined
    behaviour exactly when [mhz] is NaN: a NaN passes both clamping
    comparisons unchanged and reaches the [float -> uint16_t]
    conversion, and every other request runs to the end. *)
Theorem setFrequency_ub_iff_nan mhz (s : Sys D) :
  _initialized (drv s) = true -> setFrequency mhz s = None <-> F32.is_nan mhz = true.
Proof.
  intros Hinit. destruct (F32.is_nan mhz) eqn:Hn.
  - destruct mhz; try discriminate.
    split; [reflexivity | intros _; apply setFrequency_ub; [exact Hinit | reflexivity]].
  - destruct (clamp_channel mhz Hn) as (c & Hc & _).
    rewrite (setFrequency_run mhz c s Hinit Hc). split; discriminate.
Qed.

End Props.

(** ** Witnesses *)

Lemma setFrequency_grid_channel_witness :
  0 <= 106 <= 205 /\
  exists c, channel_of (clamp (grid_mhz 106)) = Some c /\ (c = 106 \/ c = 105).
Proof. split; [lia | apply (setFrequency_grid_channel 106); lia]. Defined.

Lemma setFrequency_clamp_ends_witness :
  (SFleb (S754_infinity true) SI4703_FREQ_MIN_MHZ = true /\
   channel_of (clamp (S754_infinity true)) = Some 0) /\
  (SFleb SI4703_FREQ_MAX_MHZ (F32.of_decimal 1200 1) = true /\
   channel_of (clamp (F32.of_decimal 1200 1)) = Some 205).
Proof.
  assert (H1 : SFleb (S754_infinity true) SI4703_FREQ_MIN_MHZ = true) by (vm_compute; reflexivity).
  assert (H2 : SFleb SI4703_FREQ_MAX_MHZ (F32.of_decimal 1200 1) = true) by (vm_compute; reflexivity).
  split; split; [exact H1 | | exact H2 |].
  - exact (proj2 (proj1 (setFrequency_clamp_ends _) H1)).
  - exact (proj2 (proj2 (setFrequency_clamp_ends _) H2)).
Defined.

Lemma setFrequency_sequence_witness :
  _initialized (drv (demo_sys true demo_block)) = true /\
  length (_regs (drv (demo_sys true demo_block))) = 16%nat /\
  channel_of (clamp (grid_mhz 106)) = Some 105 /\
  exists s' o1, setFrequency (grid_mhz 106) (demo_sys true demo_block) = Some (tt, s') /\
    reg o1 REG_CHANNEL = 0x8069 /\ _currentFreq (drv s') = clamp (grid_mhz 106).
Proof.
  assert (Hi : _initialized (drv (demo_sys true demo_block)) = true) by reflexivity.
  assert (Hl : length (_regs (drv (demo_sys true demo_block))) = 16%nat) by reflexivity.
  assert (Hc : channel_of (clamp (grid_mhz 106)) = Some 105) by (vm_compute; reflexivity).
  split; [exact Hi|]. split; [exact Hl|]. split; [exact Hc|].
  destruct (setFrequency_sequence _ _ _ Hi Hl Hc)
    as (s' & o1 & st1 & got2 & st2 & E & _ & Hch & _ & _ & _ & Hf & _).
  exists s', o1. split; [exact E|]. split; [rewrite Hch; reflexivity | exact Hf].
Defined.

Lemma channel_of_spec_witness :
  F32.is_nan (grid_mhz 106) = false /\
  channel_of (clamp (grid_mhz 106)) = spec_channel (clamp (grid_mhz 106)).
Proof.
  assert (Hn : F32.is_nan (grid_mhz 106) = false) by (vm_compute; reflexivity).
  split; [exact Hn | apply channel_of_spec; exact Hn].
Defined.

Lemma setFrequency_ub_iff_nan_witness :
  _initialized (drv (demo_sys true demo_block)) = true /\
  (setFrequency S754_nan (demo_sys true demo_block) = None <-> F32.is_nan S754_nan = true).
Proof. split; [reflexivity | apply setFrequency_ub_iff_nan; reflexivity]. Defined.

End Tune.
