(* ===== verification/Driver.v ===== *)
(** * Driver: the command surface and the driver's lifecycle

    The constructor and the public methods of [SI4703] not covered by
    Sequencer.v and Tune.v (src/src/SI4703.cpp): [SI4703()] (lines 11-20),
    [begin] (lines 25-48), [setVolume] (lines 141-151), [getRSSI] (lines
    156-162) and [process] (lines 167-172).

    The public methods are gathered into one command type; [step] is the
    transition relation of a driver used by a caller (any command with a
    well-typed argument) on a bus whose device may also change on its own
    between commands.  The invariant of reachable states is proved by
    rule induction on [step]. *)

From Stdlib Require Import ZArith Lia Floats.SpecFloat.
From stdpp Require Import base list.
From S2P Require Import Prelude Float32 Regs Wire Shadow Sync Sequencer Tune.

Open Scope Z_scope.
Open Scope si4703_scope.

Module Driver.
Import Regs Shadow Sync Sequencer Tune.

(** [SI4703::SI4703()]: address 0x10, pins -1, 100 kHz, a zeroed
    store, frequency 0.0f, not initialized. *)
Definition SI4703_new : SI4703 :=
  mkSI4703 SI4703_I2C_ADDR (-1) (-1) 100000 (repeat 0 16) (S754_zero false) false.

Section Methods.
Context {D : Type} `{!Wire.I2CDevice D}.

Definition begin (sda scl i2cClock : Z) : M (Sys D) bool :=
  modify_drv (set_pins sda scl i2cClock);;
  sda' ← get_drv _sda; scl' ← get_drv _scl;
  Wire_begin sda' scl';;
  clk ← get_drv _i2cClock;
  Wire_setClock clk;;
  delay 10;;
  readRegisters;;
  id ← get_reg REG_DEVICEID;
  if id =? 0x0000 then mret false else
  powerUp;;
  modify_drv (set_initialized true);;
  mret true.

Definition setVolume (volume : Z) : M (Sys D) unit :=
  init ← get_drv _initialized;
  if negb init then mret tt else
  let volume := if 15 <? volume then 15 else volume in
  readRegisters;;
  w ← get_reg REG_SYSCONFIG2;
  set_reg REG_SYSCONFIG2 (u16 (w &' ~' SYSCONFIG2_VOLUME_MASK));;
  w ← get_reg REG_SYSCONFIG2;
  set_reg REG_SYSCONFIG2 (u16 (w |' volume));;
  _ ← writeRegisters;
  mret tt.

Definition getRSSI : M (Sys D) Z :=
  init ← get_drv _initialized;
  if negb init then mret 0 else
  readRegisters;;
  w ← get_reg REG_STATUSRSSI;
  mret (u8 (w &' STATUSRSSI_RSSI_MASK)).

Definition process : M (Sys D) unit := mret tt.

End Methods.

(** ** Commands and the step relation *)

Inductive command :=
| CBegin (sda scl i2cClock : Z)
| CReset
| CSetFrequency (mhz : F32.float32)
| CGetFrequency
| CSetVolume (volume : Z)
| CGetRSSI
| CProcess.

Inductive result :=
| RUnit | RBool (b : bool) | RFloat (x : F32.float32) | RByte (z : Z).

(** Arguments a C++ caller can pass: [setVolume] takes a [uint8_t]. *)
Definition arg_ok (c : command) : bool :=
  match c with CSetVolume v => is_u8 v | _ => true end.

Section Steps.
Context {D : Type} `{!Wire.I2CDevice D}.

Definition exec (c : command) : M (Sys D) result :=
  match c with
  | CBegin sda scl clk => b ← begin sda scl clk; mret (RBool b)
  | CReset => reset;; mret RUnit
  | CSetFrequency x => setFrequency x;; mret RUnit
  | CGetFrequency => x ← getFrequency; mret (RFloat x)
  | CSetVolume v => setVolume v;; mret RUnit
  | CGetRSSI => z ← getRSSI; mret (RByte z)
  | CProcess => process;; mret RUnit
  end.

Definition set_dev (d : D) (b : Wire.Bus D) : Wire.Bus D :=
  Wire.mkBus d (Wire.bus_rx b) (Wire.bus_tx b) (Wire.bus_txaddr b) (Wire.bus_trace b).

Inductive step : Sys D -> Sys D -> Prop :=
| step_cmd c s r s' :
    arg_ok c = true -> exec c s = Some (r, s') -> step s s'
| step_env s d :
    step s (mkSys (drv s) (set_dev d (bus s))).

Inductive reachable : Sys D -> Prop :=
| reach_init b : reachable (mkSys SI4703_new b)
| reach_step s s' : reachable s -> step s s' -> reachable s'.

(** The driver's own moves: one public method call with a well-typed
    argument, the device left as it is. *)
Inductive cmd_step : Sys D -> Sys D -> Prop :=
| cmd_step_exec c s r s' :
    arg_ok c = true -> exec c s = Some (r, s') -> cmd_step s s'.

(** [eventually P s]: some sequence of method calls from [s], with no
    change of the device in between, reaches a state where [P] holds. *)
Inductive eventually (P : Sys D -> Prop) : Sys D -> Prop :=
| eventually_done s : P s -> eventually P s
| eventually_step s s' : cmd_step s s' -> eventually P s' -> eventually P s.

End Steps.

(** ** Run lemmas *)

(** Line 145: [if (volume > 15) volume = 15;] *)
Definition clamp_volume (v : Z) : Z := if 15 <? v then 15 else v.

(** Lines 148-149. *)
Definition stage_volume (v : Z) (o : SI4703) : SI4703 :=
  update_reg REG_SYSCONFIG2 (fun w => u16 (w |' clamp_volume v))
    (update_reg REG_SYSCONFIG2 (fun w => u16 (w &' ~' SYSCONFIG2_VOLUME_MASK)) o).

Section Run.
Context {D : Type} `{!Wire.I2CDevice D}.

Definition volume_post (v : Z) (s : Sys D) : Sys D :=
  if negb (_initialized (drv s)) then s else
  let s1 := read_post s in
  snd (write_post (mkSys (stage_volume v (drv s1)) (bus s1))).

Lemma setVolume_run v (s : Sys D) : setVolume v s = Some (tt, volume_post v s).
Proof.
  unfold setVolume, volume_post. run_prim. destruct (_initialized (drv s)); [|reflexivity].
  cbn [negb]. rewrite run_bind, readRegisters_run. cbn beta iota. do 4 run_prim.
  rewrite run_bind, writeRegisters_run. destruct (write_post _) as [ok s2]. reflexivity.
Qed.

Definition rssi_post (s : Sys D) : Z * Sys D :=
  if negb (_initialized (drv s)) then (0, s) else
  let s1 := read_post s in
  (u8 (reg (drv s1) REG_STATUSRSSI &' STATUSRSSI_RSSI_MASK), s1).

Lemma getRSSI_run (s : Sys D) : getRSSI s = Some (rssi_post s).
Proof.
  unfold getRSSI, rssi_post. run_prim. destruct (_initialized (drv s)); [|reflexivity].
  cbn [negb]. rewrite run_bind, readRegisters_run. cbn beta iota. run_prim. reflexivity.
Qed.

(** The state when [begin] starts its first read. *)
Definition begin_pre (sda scl clk : Z) (s : Sys D) : Sys D :=
  mkSys (set_pins sda scl clk (drv s))
        (Wire.delay 10 (Wire.setClock clk (Wire.begin sda scl (bus s)))).

Definition begin_post (sda scl clk : Z) (s : Sys D) : bool * Sys D :=
  let s1 := read_post (begin_pre sda scl clk s) in
  if reg (drv s1) REG_DEVICEID =? 0 then (false, s1) else
  let s2 := powerUp_post s1 in
  (true, mkSys (set_initialized true (drv s2)) (bus s2)).

Lemma begin_run sda scl clk (s : Sys D) :
  begin sda scl clk s = Some (begin_post sda scl clk s).
Proof.
  unfold begin, begin_post, begin_pre. do 7 run_prim.
  rewrite run_bind, readRegisters_run. cbn beta iota. run_prim.
  destruct (_ =? 0); [reflexivity|].
  rewrite run_bind, powerUp_run. cbn beta iota. run_prim. reflexivity.
Qed.

End Run.

Lemma block_word_range rx k : 0 <= block_word rx k < 2 ^ 16.
Proof. apply u16_range. Qed.

Lemma volume_mask_ones : SYSCONFIG2_VOLUME_MASK = Z.ones 4.
Proof. reflexivity. Qed.

Lemma clamp_volume_range v : 0 <= v -> clamp_volume v = Z.min v 15 /\ 0 <= clamp_volume v < 2 ^ 4.
Proof. unfold clamp_volume. destruct (Z.ltb_spec 15 v); lia. Qed.

(** The SYSCONFIG2 word [setVolume] stages from a word [w] it read. *)
Lemma stage_volume_word v w :
  0 <= v -> 0 <= w < 2 ^ 16 ->
  u16 (u16 (w &' ~' SYSCONFIG2_VOLUME_MASK) |' clamp_volume v) =
  (w &' ~' Z.ones 4) |' clamp_volume v.
Proof.
  intros Hv Hw. destruct (clamp_volume_range v Hv) as [_ Hc]. rewrite volume_mask_ones.
  assert (H1 : 0 <= w &' ~' Z.ones 4 < 2 ^ 16) by now apply land_u16.
  rewrite (u16_id (_ &' _)) by exact H1. apply u16_id, lor_u16; [exact H1 | lia].
Qed.

Section Props.
Context {D : Type} `{!Wire.I2CDevice D}.

(** C5: [setVolume(v)] on an initialized driver performs one full
    read and one control write; the SYSCONFIG2 word it writes (and
    keeps) has [min(v, 15)] in its low four bits and the upper twelve
    bits of the word just read; every other register is as read. *)
Theorem setVolume_sets_volume v (s : Sys D) :
  _initialized (drv s) = true -> length (_regs (drv s)) = 16%nat -> 0 <= v < 2 ^ 8 ->
  exists s' st, setVolume v s = Some (tt, s') /\
    Wire.bus_trace (bus s') = Wire.bus_trace (bus s) ++
      [Wire.EvRequest (_i2cAddr (drv s)) 32 (received s);
       Wire.EvTransmit (_i2cAddr (drv s)) (control_bytes (drv s')) st] /\
    reg (drv s') REG_SYSCONFIG2 &' SYSCONFIG2_VOLUME_MASK = Z.min v 15 /\
    reg (drv s') REG_SYSCONFIG2 &' ~' SYSCONFIG2_VOLUME_MASK =
      block_word (received s) (block_pos 5) &' ~' SYSCONFIG2_VOLUME_MASK /\
    (forall r, 0 <= r < 16 -> r <> 5 -> reg (drv s') r = block_word (received s) (block_pos r)).
Proof.
  intros Hinit Hl Hv. change (reg_addr REG_SYSCONFIG2) with 5.
  destruct (clamp_volume_range v ltac:(lia)) as [Hmin Hc].
  set (s1 := read_post s).
  assert (Hl1 : length (_regs (drv s1)) = 16%nat) by (subst s1; now rewrite length_regs_read_post).
  eexists (volume_post v s), _. split; [apply setVolume_run|].
  unfold volume_post. rewrite Hinit. cbn [negb]. fold s1. rewrite write_post_drv.
  cbn [drv].
  assert (Hw : reg (drv s1) 5 = block_word (received s) (block_pos 5))
    by (subst s1; rewrite read_post_drv; apply reg_read_post; auto; lia).
  assert (H5 : reg (stage_volume v (drv s1)) 5 = (block_word (received s) (block_pos 5) &' ~' Z.ones 4) |' clamp_volume v).
  { unfold stage_volume. rewrite !reg_update_reg by (rewrite ?length_update_reg; cbn; lia).
    cbn. rewrite Hw. apply stage_volume_word; [lia | apply block_word_range]. }
  rewrite volume_mask_ones. repeat split.
  - rewrite write_post_trace. cbn [drv bus]. subst s1. rewrite read_post_trace.
    unfold stage_volume, update_reg. rewrite read_post_drv. cbn [_i2cAddr set_regs].
    rewrite <- app_assoc. reflexivity.
  - rewrite H5, field_set_low by lia. lia.
  - rewrite H5, field_set_high by lia. reflexivity.
  - intros r Hr Hne. unfold stage_volume.
    rewrite !reg_update_reg by (rewrite ?length_update_reg; cbn; lia).
    replace (reg_addr REG_SYSCONFIG2 =? r) with false by (symmetry; apply Z.eqb_neq; cbn; lia).
    subst s1. rewrite read_post_drv. now apply reg_read_post.
Qed.

(** C22: [getRSSI()] on an initialized driver performs one full read
    and returns the low byte of the STATUSRSSI word just received
    (word 0 of the block), a value in [0, 255]; nothing is cached. *)
Theorem getRSSI_live (s : Sys D) :
  _initialized (drv s) = true -> length (_regs (drv s)) = 16%nat ->
  exists s', getRSSI s = Some (block_word (received s) 0 &' 0xFF, s') /\
    0 <= block_word (received s) 0 &' 0xFF <= 255 /\
    Wire.bus_trace (bus s') = Wire.bus_trace (bus s) ++
      [Wire.EvRequest (_i2cAddr (drv s)) 32 (received s)].
Proof.
  intros Hinit Hl. exists (read_post s).
  assert (Hb : 0 <= block_word (received s) 0 &' 0xFF <= 255).
  { pose proof (Z.land_ones (block_word (received s) 0) 8 ltac:(lia)) as E.
    change (Z.ones 8) with 0xFF in E. rewrite E.
    pose proof (Z.mod_pos_bound (block_word (received s) 0) (2 ^ 8) ltac:(lia)). lia. }
  split; [|split; [exact Hb | apply read_post_trace]].
  rewrite getRSSI_run. unfold rssi_post. rewrite Hinit. cbn [negb]. rewrite read_post_drv.
  rewrite reg_read_post by (auto; cbn; lia).
  change (block_pos REG_STATUSRSSI) with 0%nat. change STATUSRSSI_RSSI_MASK with 0xFF.
  rewrite u8_id by lia. reflexivity.
Qed.

(** C23: on a driver that is not initialized every command but
    [begin] does nothing: [reset], [setFrequency], [setVolume] and
    [process] leave the whole system (object, bus, trace) unchanged,
    [getRSSI] returns 0 and [getFrequency] the cached value, also
    without a bus transaction. *)
Theorem uninitialized_noop (s : Sys D) :
  _initialized (drv s) = false ->
  reset s = Some (tt, s) /\ (forall x, setFrequency x s = Some (tt, s)) /\
  (forall v, setVolume v s = Some (tt, s)) /\ getRSSI s = Some (0, s) /\
  getFrequency s = Some (_currentFreq (drv s), s) /\ process s = Some (tt, s).
Proof.
  intros Hn. rewrite reset_run, getRSSI_run. unfold reset_post, rssi_post. rewrite Hn.
  repeat split; [intros x | intros v]; [unfold setFrequency | rewrite setVolume_run];
    [run_prim; now rewrite Hn | unfold volume_post; now rewrite Hn].
Qed.

End Props.

Lemma received_begin_pre {D} `{!Wire.I2CDevice D} sda scl clk (s : Sys D) :
  received (begin_pre sda scl clk s) = received s.
Proof. reflexivity. Qed.

Section BeginProps.
Context {D : Type} `{!Wire.I2CDevice D}.

(** C20: [begin(sda, scl, clk)] records the pins and clock, opens the
    bus, waits 10 ms and reads the registers; if the DEVICEID word
    read is 0 it returns [false] at once, leaving [_initialized] as it
    was; otherwise it runs the power-up sequence, sets
    [_initialized] and returns [true]. *)
Theorem begin_checks_device_id sda scl clk (s : Sys D) :
  length (_regs (drv s)) = 16%nat ->
  let id := block_word (received s) (block_pos 0) in
  exists s', begin sda scl clk s = Some (negb (id =? 0), s') /\
    _sda (drv s') = sda /\ _scl (drv s') = scl /\ _i2cClock (drv s') = clk /\
    (id = 0 -> _initialized (drv s') = _initialized (drv s) /\
       Wire.bus_trace (bus s') = Wire.bus_trace (bus s) ++
         [Wire.EvBegin sda scl; Wire.EvSetClock clk; Wire.EvDelay 10;
          Wire.EvRequest (_i2cAddr (drv s)) 32 (received s)]) /\
    (id <> 0 -> _initialized (drv s') = true /\
       reg (drv s') REG_POWERCFG = 0x4001 /\ reg (drv s') REG_SYSCONFIG2 = 0x0010 /\
       exists got st, Wire.bus_trace (bus s') = Wire.bus_trace (bus s) ++
         [Wire.EvBegin sda scl; Wire.EvSetClock clk; Wire.EvDelay 10;
          Wire.EvRequest (_i2cAddr (drv s)) 32 (received s);
          Wire.EvRequest (_i2cAddr (drv s)) 32 got;
          Wire.EvTransmit (_i2cAddr (drv s)) (control_bytes (drv s')) st;
          Wire.EvDelay 110]).
Proof.
  intros Hl id. set (s1 := read_post (begin_pre sda scl clk s)).
  assert (Hl1 : length (_regs (drv s1)) = 16%nat) by (subst s1; now rewrite length_regs_read_post).
  assert (Hid : reg (drv s1) REG_DEVICEID = id).
  { subst s1 id. rewrite read_post_drv, received_begin_pre. apply reg_read_post; [exact Hl | cbn; lia]. }
  assert (Htr1 : Wire.bus_trace (bus s1) = Wire.bus_trace (bus s) ++
            [Wire.EvBegin sda scl; Wire.EvSetClock clk; Wire.EvDelay 10;
             Wire.EvRequest (_i2cAddr (drv s)) 32 (received s)]).
  { subst s1. rewrite read_post_trace.
    cbn [begin_pre bus drv Wire.delay Wire.setClock Wire.begin Wire.log Wire.bus_trace].
    rewrite <- !app_assoc. reflexivity. }
  assert (Hpins : _sda (drv s1) = sda /\ _scl (drv s1) = scl /\ _i2cClock (drv s1) = clk /\
                  _initialized (drv s1) = _initialized (drv s) /\ _i2cAddr (drv s1) = _i2cAddr (drv s)).
  { subst s1. rewrite read_post_drv. repeat split. }
  destruct Hpins as (Hsda & Hscl & Hclk & Hini & Haddr).
  exists (snd (begin_post sda scl clk s)). rewrite begin_run. unfold begin_post. fold s1.
  rewrite Hid. destruct (Z.eqb_spec id 0) as [Hz|Hnz]; cbn [negb snd].
  - refine (conj eq_refl (conj Hsda (conj Hscl (conj Hclk (conj _ _))))).
    + intros _. split; [exact Hini | exact Htr1].
    + intros Hne. contradiction.
  - destruct (powerUp_post_facts s1 Hl1) as ([st Htr] & H2 & _ & H5 & _ & _ & Ha & _).
    rewrite powerUp_post_drv in *.
    refine (conj eq_refl (conj Hsda (conj Hscl (conj Hclk (conj _ _))))).
    + intros Hz. contradiction.
    + intros _. split; [reflexivity|]. split; [exact H2|]. split; [exact H5|].
      exists (received s1), st. cbn [bus drv]. rewrite Htr, Htr1, <- app_assoc, Haddr.
      reflexivity.
Qed.

End BeginProps.

(** ** The invariant of reachable states *)

(** The cached frequency: the constructor's [0.0f], or a value of the
    band. *)
Definition freq_ok (x : F32.float32) : Prop :=
  x = S754_zero false \/
  (SFleb SI4703_FREQ_MIN_MHZ x = true /\ SFleb x SI4703_FREQ_MAX_MHZ = true).

Definition inv_drv (o : SI4703) : Prop :=
  regs_wf (_regs o) = true /\ _i2cAddr o = SI4703_I2C_ADDR /\ freq_ok (_currentFreq o).

Lemma clamp_freq_ok x c : channel_of (clamp x) = Some c -> freq_ok (clamp x).
Proof.
  intros Hc. right. destruct (F32.is_nan x) eqn:Hn.
  - destruct x; discriminate.
  - destruct (clamp_window x Hn) as (m & -> & Hm). destruct band_constants as (-> & -> & _).
    rewrite !F32.leb_pos_finite, Z.ltb_irrefl, Z.eqb_refl. cbn [orb andb].
    split; apply Z.leb_le; lia.
Qed.

Lemma inv_update_reg r f o :
  inv_drv o -> 0 <= r < 16 -> (forall w, 0 <= f w < 2 ^ 16) -> inv_drv (update_reg r f o).
Proof. intros (Hwf & Ha & Hf) Hr Hfw. repeat split; auto. now apply regs_wf_update_reg. Qed.

Lemma inv_set_currentFreq x o : inv_drv o -> freq_ok x -> inv_drv (set_currentFreq x o).
Proof. intros (Hwf & Ha & _) Hx. now repeat split. Qed.

Section Inv.
Context {D : Type} `{!Wire.I2CDevice D}.

Lemma inv_read_post (s : Sys D) : inv_drv (drv s) -> inv_drv (drv (read_post s)).
Proof.
  intros (Hwf & Ha & Hf). rewrite read_post_drv. repeat split; auto.
  cbn [_regs set_regs]. apply scatter_wf; [apply read_order_props | exact Hwf].
Qed.

Lemma inv_powerUp_post (s : Sys D) : inv_drv (drv s) -> inv_drv (drv (powerUp_post s)).
Proof.
  intros Hi. pose proof (inv_read_post s Hi) as (Hwf & Ha & Hf).
  rewrite powerUp_post_drv. rewrite read_post_drv in Hwf, Ha, Hf.
  repeat split; auto. cbn [_regs set_regs] in *. unfold stage_powerUp.
  repeat (apply regs_wf_insert_nat; [|lia|vm_compute; split; congruence]). exact Hwf.
Qed.

Lemma inv_exec c (s s' : Sys D) r :
  inv_drv (drv s) -> exec c s = Some (r, s') -> inv_drv (drv s').
Proof.
  intros Hi Hrun. destruct c as [sda scl clk| |x| |v| |]; cbn [exec] in Hrun;
    rewrite run_bind in Hrun.
  - rewrite begin_run in Hrun. unfold begin_post in Hrun.
    assert (H1 : inv_drv (drv (read_post (begin_pre sda scl clk s)))) by (apply inv_read_post, Hi).
    destruct (_ =? 0); injection Hrun as <- <-; [exact H1|].
    apply inv_powerUp_post in H1. exact H1.
  - rewrite reset_run in Hrun. injection Hrun as <- <-. unfold reset_post.
    destruct (_initialized (drv s)); [|exact Hi]. cbn [negb]. apply inv_powerUp_post.
    unfold delay_post. cbn [drv]. rewrite write_post_drv. cbn [drv].
    apply (inv_update_reg REG_POWERCFG (fun w => u16 (w |' POWERCFG_DISABLE))).
    + now apply inv_read_post.
    + cbn. lia.
    + intros. apply u16_range.
  - destruct (_initialized (drv s)) eqn:Hinit.
    + destruct (channel_of (clamp x)) as [c|] eqn:Hc.
      * rewrite (setFrequency_run x c s Hinit Hc) in Hrun. injection Hrun as <- <-.
        unfold tune_post. cbn [drv]. rewrite write_post_drv. cbn [drv].
        apply inv_set_currentFreq; [|exact (clamp_freq_ok x c Hc)].
        unfold stage_untune, stage_chan.
        apply inv_update_reg; [|cbn; lia|auto with si4703].
        apply inv_read_post. unfold delay_post. cbn [drv]. rewrite write_post_drv.
        cbn [drv]. unfold stage_tune, stage_chan.
        repeat (apply inv_update_reg; [|cbn; lia|auto with si4703]).
        now apply inv_read_post.
      * rewrite (setFrequency_ub x s Hinit Hc) in Hrun. discriminate.
    + rewrite (setFrequency_noinit x s Hinit) in Hrun. injection Hrun as <- <-. exact Hi.
  - cbn [getFrequency get_drv m_gets] in Hrun. injection Hrun as <- <-. exact Hi.
  - rewrite setVolume_run in Hrun. injection Hrun as <- <-. unfold volume_post.
    destruct (_initialized (drv s)); [|exact Hi]. cbn [negb]. rewrite write_post_drv.
    cbn [drv]. unfold stage_volume.
    apply inv_update_reg; [apply inv_update_reg; [now apply inv_read_post | cbn; lia | auto with si4703] | cbn; lia | auto with si4703].
  - rewrite getRSSI_run in Hrun. unfold rssi_post in Hrun.
    destruct (_initialized (drv s)); injection Hrun as <- <-; [now apply inv_read_post | exact Hi].
  - injection Hrun as <- <-. exact Hi.
Qed.

End Inv.

Section Reach.
Context {D : Type} `{!Wire.I2CDevice D}.

(** C4: in every state reachable from the constructor, by any
    sequence of commands with well-typed arguments and any changes of
    the device in between, the shadow store is sixteen [uint16_t]
    words, the bus address is still 0x10, and the cached frequency is
    either the constructor's [0.0f] or a value in [87.5, 108.0]. *)
Theorem reachable_inv (s : Sys D) : reachable s -> inv_drv (drv s).
Proof.
  induction 1 as [b|s s' _ IH Hstep].
  - split; [reflexivity|]. split; [reflexivity|]. now left.
  - destruct Hstep as [c s r s'' _ Hrun | s d]; [|exact IH].
    eapply inv_exec; eauto.
Qed.

End Reach.

(** ** Witnesses on a concrete bus *)

Lemma setVolume_sets_volume_witness :
  _initialized (drv (demo_sys true demo_block)) = true /\
  length (_regs (drv (demo_sys true demo_block))) = 16%nat /\ 0 <= 7 < 2 ^ 8 /\
  exists s', setVolume 7 (demo_sys true demo_block) = Some (tt, s') /\
    reg (drv s') REG_SYSCONFIG2 &' SYSCONFIG2_VOLUME_MASK = 7 /\
    reg (drv s') REG_SYSCONFIG2 &' ~' SYSCONFIG2_VOLUME_MASK = 0x0010.
Proof.
  assert (Hi : _initialized (drv (demo_sys true demo_block)) = true) by reflexivity.
  assert (Hl : length (_regs (drv (demo_sys true demo_block))) = 16%nat) by reflexivity.
  assert (Hv : 0 <= 7 < 2 ^ 8) by lia.
  split; [exact Hi|]. split; [exact Hl|]. split; [exact Hv|].
  destruct (setVolume_sets_volume 7 _ Hi Hl Hv) as (s' & st & E & _ & Hlow & Hhigh & _).
  exists s'. split; [exact E|]. split; [exact Hlow | exact Hhigh].
Defined.

Lemma getRSSI_live_witness :
  _initialized (drv (demo_sys true demo_block)) = true /\
  length (_regs (drv (demo_sys true demo_block))) = 16%nat /\
  exists s', getRSSI (demo_sys true demo_block) = Some (40, s').
Proof.
  assert (Hi : _initialized (drv (demo_sys true demo_block)) = true) by reflexivity.
  assert (Hl : length (_regs (drv (demo_sys true demo_block))) = 16%nat) by reflexivity.
  split; [exact Hi|]. split; [exact Hl|].
  destruct (getRSSI_live _ Hi Hl) as (s' & E & _). exists s'. exact E.
Defined.

Lemma uninitialized_noop_witness :
  _initialized (drv (demo_sys false demo_block)) = false /\
  setVolume 9 (demo_sys false demo_block) = Some (tt, demo_sys false demo_block) /\
  getRSSI (demo_sys false demo_block) = Some (0, demo_sys false demo_block).
Proof.
  assert (Hn : _initialized (drv (demo_sys false demo_block)) = false) by reflexivity.
  destruct (uninitialized_noop _ Hn) as (_ & _ & Hv & Hr & _).
  split; [exact Hn|]. split; [apply Hv | exact Hr].
Defined.

Lemma begin_checks_device_id_witness :
  length (_regs (drv (demo_sys false demo_block))) = 16%nat /\
  exists s', begin 21 22 400000 (demo_sys false demo_block) = Some (true, s') /\
    _initialized (drv s') = true.
Proof.
  assert (Hl : length (_regs (drv (demo_sys false demo_block))) = 16%nat) by reflexivity.
  split; [exact Hl|].
  destruct (begin_checks_device_id 21 22 400000 _ Hl) as (s' & E & _ & _ & _ & _ & Hon).
  exists s'. split; [exact E|]. exact (proj1 (Hon ltac:(discriminate))).
Defined.

(** The driver right after construction, on a bus whose device answers
    with [demo_block]. *)
Definition demo_start : Sys Wire.Scripted :=
  mkSys SI4703_new (bus (demo_sys false demo_block)).

Lemma reachable_inv_witness :
  let s := snd (begin_post 21 22 400000 demo_start) in
  reachable s /\ inv_drv (drv s).
Proof.
  intros s. assert (Hr : reachable s).
  { apply (reach_step demo_start); [apply reach_init|].
    apply (step_cmd (CBegin 21 22 400000) demo_start (RBool true)); [reflexivity|].
    vm_compute. reflexivity. }
  split; [exact Hr | exact (reachable_inv s Hr)].
Defined.

End Driver.
