(* ===== verification/Chip.v ===== *)
(** * Chip: the devices the driver runs against, and the round trips

    The SI4703 itself is not code of this repository: it is modelled from
    the datasheet behaviour the driver relies on (spec.md, "Register
    Synchronizer"): a file of sixteen 16-bit registers; a read transaction
    streams the registers from 0x0A on, wrapping after 0x0F to 0x00, each
    word high byte first; a write transaction stores byte pairs into the
    registers from 0x02 on.  It answers at address 0x10 only.  Two other
    devices model failures the driver has to live with: [Absent] (nothing
    on the bus: no byte is received, every write is refused with status 2)
    and [Deaf] (a chip whose reads work but whose writes are refused with
    status 3).

    The theorems here connect the driver to the chip: a read makes the
    shadow store equal to the chip's registers, a write makes the chip's
    registers 0x02 .. 0x07 equal to the shadow store; from these, the
    effect of each command on the chip is an abstract operation on its
    register file (the refinement theorems), and the failure scenarios of
    the findings are proved on [Absent] and [Deaf]. *)

From Stdlib Require Import ZArith Lia Floats.SpecFloat.
From stdpp Require Import base list.
From S2P Require Import Prelude Float32 Regs Wire Shadow Sync Sequencer Tune Driver.

Open Scope Z_scope.
Open Scope si4703_scope.

Module Chip.
Import Regs Shadow Sync Sequencer Tune Driver.

(** ** The simulated SI4703 *)

Record Si4703Chip := mkChip { chip_regs : list Z }.

(** The chip's register [r]. *)
Definition chip_word (c : Si4703Chip) (r : Z) : Z := chip_regs c !!! Z.to_nat r.

(** The first [n] bytes a read transaction streams: the registers from
    0x0A on, wrapping at 0x10, high byte first. *)
Definition chip_stream (l : list Z) (n : Z) : list Z :=
  take (Z.to_nat n)
    (flat_map (fun k => [(l !!! Z.to_nat ((10 + Z.of_nat k) mod 16)) >>' 8;
                         (l !!! Z.to_nat ((10 + Z.of_nat k) mod 16)) &' 0xFF])
              (seq 0 16)).

(** A write transaction: byte pairs into the registers from [r] on. *)
Fixpoint chip_write (r : nat) (bytes : list Z) (l : list Z) : list Z :=
  match bytes with
  | hi :: lo :: rest => chip_write (S r) rest (<[r := (hi <<' 8) |' lo]> l)
  | _ => l
  end.

#[global] Instance Chip_device : Wire.I2CDevice Si4703Chip := {
  dev_request c addr n :=
    if addr =? SI4703_I2C_ADDR then (chip_stream (chip_regs c) n, c) else ([], c);
  dev_transmit c addr bytes :=
    if addr =? SI4703_I2C_ADDR then (0, mkChip (chip_write 2 bytes (chip_regs c)))
    else (2, c)
}.

(** Nothing answers on the bus. *)
Inductive Absent := absent.

#[global] Instance Absent_device : Wire.I2CDevice Absent := {
  dev_request a _ _ := ([], a);
  dev_transmit a _ _ := (2, a)
}.

(** A chip that answers reads but refuses every write. *)
Record Deaf := mkDeaf { deaf_chip : Si4703Chip }.

#[global] Instance Deaf_device : Wire.I2CDevice Deaf := {
  dev_request d addr n :=
    if addr =? SI4703_I2C_ADDR then (chip_stream (chip_regs (deaf_chip d)) n, d) else ([], d);
  dev_transmit d _ _ := (3, d)
}.

(** ** Reading the chip *)

Lemma regs_wf_lookup l i : regs_wf l = true -> (i < 16)%nat -> 0 <= l !!! i < 2 ^ 16.
Proof.
  rewrite regs_wf_spec. intros [Hl Hf] Hi. rewrite Forall_lookup in Hf.
  apply (Hf i). apply list_lookup_lookup_total_lt. lia.
Qed.

(** A word split into its two bytes and assembled again by
    [readRegisters] is the word. *)
Lemma read_word_split w : 0 <= w < 2 ^ 16 -> read_word (w >>' 8) (w &' 0xFF) = w.
Proof.
  intros Hw. unfold read_word.
  assert (Hhi : 0 <= w >>' 8 < 2 ^ 16).
  { rewrite Z.shiftr_div_pow2 by lia. split; [apply Z.div_pos; lia|].
    apply Z.div_lt_upper_bound; lia. }
  assert (Hlo : 0 <= w &' 0xFF < 2 ^ 16) by (apply land_u16; exact Hw).
  rewrite (u16_id (w >>' 8)), (u16_id (w &' 0xFF)) by assumption.
  rewrite word_bytes_recombine by exact Hw. apply u16_id, Hw.
Qed.

(** Where the word of block position [block_pos r] comes from. *)
Lemma block_pos_source r :
  0 <= r < 16 -> (block_pos r < 16)%nat /\ (10 + Z.of_nat (block_pos r)) mod 16 = r.
Proof.
  intros Hr. pose proof (read_order_block_pos r Hr) as E.
  assert (Hk : (block_pos r < 16)%nat).
  { apply lookup_lt_Some in E. unfold read_order in E. now rewrite length_fmap, length_seq in E. }
  split; [exact Hk|]. rewrite read_order_lookup in E by exact Hk. congruence.
Qed.

Lemma chip_stream_word l k :
  regs_wf l = true -> (k < 16)%nat ->
  block_word (chip_stream l 32) k = l !!! Z.to_nat ((10 + Z.of_nat k) mod 16).
Proof.
  intros Hwf Hk. unfold block_word, Wire.byte_at, chip_stream.
  destruct (lookup_flat_map_pair
              (fun i => (l !!! Z.to_nat ((10 + Z.of_nat i) mod 16)) >>' 8)
              (fun i => (l !!! Z.to_nat ((10 + Z.of_nat i) mod 16)) &' 0xFF) 16 k Hk)
    as [E1 E2].
  rewrite !lookup_take_lt by lia. rewrite E1, E2. cbn [default].
  apply read_word_split, regs_wf_lookup; [exact Hwf|].
  pose proof (Z.mod_pos_bound (10 + Z.of_nat k) 16). lia.
Qed.

Lemma received_chip (s : Sys Si4703Chip) :
  _i2cAddr (drv s) = SI4703_I2C_ADDR ->
  received s = chip_stream (chip_regs (Wire.bus_dev (bus s))) 32.
Proof.
  intros Ha. unfold received. rewrite Ha. cbn [Wire.dev_request Chip_device].
  rewrite Z.eqb_refl. cbn [fst]. unfold chip_stream. now rewrite take_take.
Qed.

(** A store of sixteen words that agrees with [l] at every address is
    [l]. *)
Lemma regs_ext o l :
  length (_regs o) = 16%nat -> length l = 16%nat ->
  (forall r, 0 <= r < 16 -> reg o r = l !!! Z.to_nat r) -> _regs o = l.
Proof.
  intros H1 H2 Heq. apply (list_eq_lookup_total _ _ 16); auto.
  intros i Hi. specialize (Heq (Z.of_nat i) ltac:(lia)). unfold reg in Heq.
  now rewrite Nat2Z.id in Heq.
Qed.

(** The state after a read of the chip: the shadow store is the chip's
    register file, the chip is unchanged. *)
Lemma chip_read_post (s : Sys Si4703Chip) :
  _i2cAddr (drv s) = SI4703_I2C_ADDR -> length (_regs (drv s)) = 16%nat ->
  regs_wf (chip_regs (Wire.bus_dev (bus s))) = true ->
  _regs (drv (read_post s)) = chip_regs (Wire.bus_dev (bus s)) /\
  Wire.bus_dev (bus (read_post s)) = Wire.bus_dev (bus s).
Proof.
  intros Ha Hl Hwf. split.
  - apply regs_ext.
    + rewrite read_post_drv. cbn [_regs set_regs]. now rewrite length_scatter.
    + apply regs_wf_spec in Hwf. apply Hwf.
    + intros r Hr. rewrite read_post_drv, reg_read_post by assumption.
      rewrite received_chip by exact Ha. destruct (block_pos_source r Hr) as [Hk E].
      rewrite chip_stream_word, E by assumption. reflexivity.
  - rewrite read_post_dev, Ha. reflexivity.
Qed.

(** ** Writing the chip *)

(** The two bytes [writeRegisters] sends for a word. *)
Definition word_bytes (w : Z) : list Z := [u8 (w >>' 8); u8 (w &' 0xFF)].

Lemma control_bytes_words o :
  control_bytes o = flat_map word_bytes (map (reg o) [2; 3; 4; 5; 6; 7]).
Proof. reflexivity. Qed.

(** The chip assembles the two bytes of a word into the word. *)
Lemma write_word_split w : 0 <= w < 2 ^ 16 -> (u8 (w >>' 8) <<' 8) |' u8 (w &' 0xFF) = w.
Proof.
  intros Hw.
  assert (Hhi : 0 <= w >>' 8 < 2 ^ 8).
  { rewrite Z.shiftr_div_pow2 by lia. split; [apply Z.div_pos; lia|].
    apply Z.div_lt_upper_bound; lia. }
  assert (Hlo : 0 <= w &' 0xFF < 2 ^ 8).
  { pose proof (Z.land_ones w 8 ltac:(lia)) as E. change (Z.ones 8) with 0xFF in E.
    rewrite E. apply Z.mod_pos_bound. lia. }
  rewrite !u8_id by assumption. now apply word_bytes_recombine.
Qed.

Lemma length_chip_write r bytes l : length (chip_write r bytes l) = length l.
Proof.
  remember (length bytes) as n eqn:Hn. revert r bytes l Hn.
  induction n as [n IH] using lt_wf_ind. intros r bytes l Hn.
  destruct bytes as [|hi [|lo rest]]; [done|done|].
  cbn [chip_write]. rewrite (IH (length rest)) by (cbn in Hn; lia || done). apply length_insert.
Qed.

(** A write of the bytes of [ws] from register [r0] on stores [ws] at
    [r0 ..] and leaves the rest. *)
Lemma chip_write_words ws r0 l i :
  Forall (fun w => 0 <= w < 2 ^ 16) ws -> (r0 + length ws <= length l)%nat ->
  chip_write r0 (flat_map word_bytes ws) l !!! i =
  if decide (r0 <= i < r0 + length ws)%nat then ws !!! (i - r0)%nat else l !!! i.
Proof.
  revert r0 l. induction ws as [|w ws IH]; intros r0 l Hf Hl.
  - cbn. case_decide; [lia | reflexivity].
  - inversion Hf as [|? ? Hw Hf']; subst. cbn [flat_map word_bytes app chip_write].
    rewrite write_word_split by exact Hw.
    rewrite IH by (auto; rewrite length_insert; cbn in Hl; lia). cbn [length] in *.
    rewrite lookup_total_insert_Z by lia.
    repeat case_decide; try lia; subst.
    + now replace (i - r0)%nat with (S (i - S r0)) by lia.
    + now rewrite Nat.sub_diag.
Qed.

(** The state after a control write to the chip: the write succeeds,
    the chip's registers 0x02 .. 0x07 are the shadow's, the others are
    unchanged. *)
Lemma chip_write_post (s : Sys Si4703Chip) :
  _i2cAddr (drv s) = SI4703_I2C_ADDR -> regs_wf (_regs (drv s)) = true ->
  length (chip_regs (Wire.bus_dev (bus s))) = 16%nat ->
  let c' := Wire.bus_dev (bus (snd (write_post s))) in
  fst (write_post s) = true /\ length (chip_regs c') = 16%nat /\
  forall r, 0 <= r < 16 ->
    chip_word c' r = if (2 <=? r) && (r <=? 7) then reg (drv s) r
                     else chip_word (Wire.bus_dev (bus s)) r.
Proof.
  intros Ha Hwf Hl c'. subst c'.
  rewrite write_post_fst, write_post_dev. unfold transmit_status. rewrite Ha.
  cbn [Wire.dev_transmit Chip_device]. rewrite !Z.eqb_refl. cbn [fst snd chip_regs].
  split; [reflexivity|]. split; [now rewrite length_chip_write|].
  intros r Hr. unfold chip_word. cbn [chip_regs]. rewrite control_bytes_words.
  rewrite chip_write_words.
  - cbn [length map]. destruct (Z.leb_spec 2 r), (Z.leb_spec r 7); cbn [andb];
      case_decide; try lia; [|reflexivity..].
    assert (r = 2 \/ r = 3 \/ r = 4 \/ r = 5 \/ r = 6 \/ r = 7) as Hc by lia.
    destruct Hc as [->|[->|[->|[->|[->| ->]]]]]; reflexivity.
  - repeat constructor; apply regs_wf_word; auto; lia.
  - cbn [length map]. lia.
Qed.

(** ** One register read, changed and written back *)

Lemma update_reg_update_reg r f g o :
  length (_regs o) = 16%nat -> 0 <= r < 16 ->
  update_reg r g (update_reg r f o) = update_reg r (fun w => g (f w)) o.
Proof.
  intros Hl Hr. unfold update_reg at 1. rewrite reg_update_reg, Z.eqb_refl by assumption.
  unfold update_reg, set_regs. cbn [_regs]. now rewrite list_insert_insert_eq.
Qed.

(** A shadow store equal to the chip's registers, changed by [f] only
    in registers 0x02 .. 0x07, and written: the write succeeds and the
    chip's register file becomes the changed store. *)
Lemma chip_write_set_regs (s : Sys Si4703Chip) f :
  _i2cAddr (drv s) = SI4703_I2C_ADDR -> _regs (drv s) = chip_regs (Wire.bus_dev (bus s)) ->
  regs_wf (f (chip_regs (Wire.bus_dev (bus s)))) = true ->
  length (chip_regs (Wire.bus_dev (bus s))) = 16%nat ->
  (forall i, (i < 2 \/ 7 < i)%nat ->
     f (chip_regs (Wire.bus_dev (bus s))) !!! i = chip_regs (Wire.bus_dev (bus s)) !!! i) ->
  let p := write_post (mkSys (set_regs f (drv s)) (bus s)) in
  fst p = true /\ chip_regs (Wire.bus_dev (bus (snd p))) = f (chip_regs (Wire.bus_dev (bus s))).
Proof.
  intros Ha Hco Hwf Hl Hout p. subst p. set (l := chip_regs (Wire.bus_dev (bus s))) in *.
  destruct (chip_write_post (mkSys (set_regs f (drv s)) (bus s))) as (Hok & Hl' & Hpt).
  - exact Ha.
  - cbn [drv _regs set_regs]. now rewrite Hco.
  - exact Hl.
  - split; [exact Hok|]. apply regs_wf_spec in Hwf.
    apply (list_eq_lookup_total _ _ 16); [exact Hl' | apply Hwf|].
    intros i Hi. specialize (Hpt (Z.of_nat i) ltac:(lia)). unfold chip_word in Hpt at 1.
    rewrite Nat2Z.id in Hpt. rewrite Hpt. unfold reg, chip_word. cbn [drv _regs set_regs].
    rewrite Hco, !Nat2Z.id. fold l.
    destruct (Z.leb_spec 2 (Z.of_nat i)), (Z.leb_spec (Z.of_nat i) 7); cbn [andb];
      [reflexivity | symmetry; apply Hout; lia..].
Qed.

(** The same for a change [update_reg k h] of one register. *)
Lemma chip_write_update (s : Sys Si4703Chip) k h :
  _i2cAddr (drv s) = SI4703_I2C_ADDR -> _regs (drv s) = chip_regs (Wire.bus_dev (bus s)) ->
  regs_wf (chip_regs (Wire.bus_dev (bus s))) = true -> 2 <= k <= 7 ->
  (forall w, 0 <= h w < 2 ^ 16) ->
  let p := write_post (mkSys (update_reg k h (drv s)) (bus s)) in
  fst p = true /\
  chip_regs (Wire.bus_dev (bus (snd p))) = _regs (update_reg k h (drv s)) /\
  _regs (update_reg k h (drv s)) =
    <[Z.to_nat k := h (chip_word (Wire.bus_dev (bus s)) k)]> (chip_regs (Wire.bus_dev (bus s))).
Proof.
  intros Ha Hco Hwf Hk Hh p. subst p. set (c := Wire.bus_dev (bus s)) in *.
  assert (Hl : length (chip_regs c) = 16%nat) by (apply regs_wf_spec in Hwf; apply Hwf).
  destruct (chip_write_set_regs s (<[Z.to_nat k := h (chip_word c k)]>) Ha Hco) as [Hok Hc'].
  - apply regs_wf_insert; auto. lia.
  - exact Hl.
  - intros i Hi. apply list_lookup_total_insert_ne. lia.
  - assert (Heq : update_reg k h (drv s) = set_regs (<[Z.to_nat k := h (chip_word c k)]>) (drv s))
      by (unfold update_reg, reg, chip_word; now rewrite Hco).
    rewrite Heq. split; [exact Hok|]. rewrite Hc'. cbn [_regs set_regs]. rewrite Hco.
    split; reflexivity.
Qed.

Lemma chip_wf_insert c k v :
  regs_wf (chip_regs c) = true -> 0 <= k < 16 -> 0 <= v < 2 ^ 16 ->
  regs_wf (<[Z.to_nat k := v]> (chip_regs c)) = true.
Proof. intros. now apply regs_wf_insert. Qed.

(** ** The effect of the commands on the chip

    What a command does to the radio's register file, stated on the
    register file alone (spec.md, sections 4.3 and 4.4): [setVolume(v)]
    puts [min(v, 15)] in the volume field of SYSCONFIG2; [setFrequency]
    leaves CHANNEL with the new channel number, TUNE clear, and its other
    bits unchanged.  The refinement theorems show that the driver's
    commands have exactly these effects on a chip. *)

Definition radio_volume (v : Z) (l : list Z) : list Z :=
  <[5%nat := (l !!! 5%nat &' ~' SYSCONFIG2_VOLUME_MASK) |' Z.min v 15]> l.

Definition radio_tune (c : Z) (l : list Z) : list Z :=
  <[3%nat := (l !!! 3%nat &' ~' (CHANNEL_CHAN_MASK |' CHANNEL_TUNE)) |' c]> l.

(** A channel number of the 10-bit CHAN field has no bit above 9. *)
Lemma testbit_chan c : 0 <= c < 2 ^ 10 -> forall i, 10 <= i -> Z.testbit c i = false.
Proof. intros Hc i Hi. rewrite <- (Z.mod_small c (2 ^ 10)) by lia. now apply Z.mod_pow2_bits_high. Qed.

(** The fields of the CHANNEL word [radio_tune] leaves: CHAN holds the
    channel, TUNE is clear. *)
Lemma tuned_word_fields w c :
  0 <= c < 2 ^ 10 ->
  ((w &' ~' (CHANNEL_CHAN_MASK |' CHANNEL_TUNE)) |' c) &' CHANNEL_CHAN_MASK = c /\
  ((w &' ~' (CHANNEL_CHAN_MASK |' CHANNEL_TUNE)) |' c) &' CHANNEL_TUNE = 0.
Proof.
  intros Hc. pose proof (testbit_chan c Hc) as Hhigh.
  change CHANNEL_CHAN_MASK with (Z.ones 10). change CHANNEL_TUNE with (2 ^ 15).
  split; apply Z.bits_inj'; intros i Hi;
    repeat first [rewrite Z.land_spec | rewrite Z.lor_spec | rewrite Z.lnot_spec by lia];
    rewrite ?Z.testbit_ones, ?Z.pow2_bits_eqb, ?Z.bits_0 by lia;
    rewrite ?(proj2 (Z.leb_le 0 i) Hi);
    destruct (Z.ltb_spec i 10), (Z.eqb_spec 15 i); cbn [andb orb negb];
    rewrite ?Hhigh by lia; destruct (Z.testbit w i), (Z.testbit c i); try reflexivity; lia.
Qed.

(** The CHANNEL word after [setFrequency]'s two writes, from the word
    [w] the chip had. *)
Lemma tune_word w c :
  0 <= w < 2 ^ 16 -> 0 <= c < 2 ^ 10 ->
  u16 (u16 (u16 (u16 (w &' ~' CHANNEL_CHAN_MASK) |' c) |' CHANNEL_TUNE) &' ~' CHANNEL_TUNE) =
  (w &' ~' (CHANNEL_CHAN_MASK |' CHANNEL_TUNE)) |' c.
Proof.
  intros Hw Hc.
  assert (B1 : 0 <= w &' ~' CHANNEL_CHAN_MASK < 2 ^ 16) by now apply land_u16.
  rewrite (u16_id (w &' _)) by exact B1.
  assert (B2 : 0 <= (w &' ~' CHANNEL_CHAN_MASK) |' c < 2 ^ 16) by (apply lor_u16; lia).
  rewrite (u16_id (_ |' c)) by exact B2.
  assert (B3 : 0 <= ((w &' ~' CHANNEL_CHAN_MASK) |' c) |' CHANNEL_TUNE < 2 ^ 16)
    by (apply lor_u16; [exact B2 | change CHANNEL_TUNE with 32768; lia]).
  rewrite (u16_id (_ |' CHANNEL_TUNE)) by exact B3.
  rewrite u16_id by (apply land_u16; exact B3).
  pose proof (testbit_chan c Hc) as Hhigh.
  change CHANNEL_CHAN_MASK with (Z.ones 10). change CHANNEL_TUNE with (2 ^ 15).
  apply Z.bits_inj'. intros i Hi.
  repeat first [rewrite Z.land_spec | rewrite Z.lor_spec | rewrite Z.lnot_spec by lia].
  rewrite Z.testbit_ones, Z.pow2_bits_eqb by lia.
  rewrite (proj2 (Z.leb_le 0 i) Hi).
  destruct (Z.ltb_spec i 10), (Z.eqb_spec 15 i); cbn [andb orb negb];
    rewrite ?Hhigh by lia; destruct (Z.testbit w i), (Z.testbit c i); try reflexivity; lia.
Qed.

Lemma stage_tune_update c o :
  length (_regs o) = 16%nat ->
  stage_tune c o =
  update_reg 3 (fun w => u16 (u16 (u16 (w &' ~' CHANNEL_CHAN_MASK) |' c) |' CHANNEL_TUNE)) o.
Proof.
  intros Hl. unfold stage_tune, stage_chan.
  rewrite !update_reg_update_reg by (rewrite ?length_update_reg; first [exact Hl | cbn; lia]).
  reflexivity.
Qed.

(** The state after a read of the chip, in the form the refinement
    proofs use. *)
Lemma chip_read_coherent (s : Sys Si4703Chip) :
  _i2cAddr (drv s) = SI4703_I2C_ADDR -> length (_regs (drv s)) = 16%nat ->
  regs_wf (chip_regs (Wire.bus_dev (bus s))) = true ->
  _i2cAddr (drv (read_post s)) = SI4703_I2C_ADDR /\
  _regs (drv (read_post s)) = chip_regs (Wire.bus_dev (bus (read_post s))) /\
  Wire.bus_dev (bus (read_post s)) = Wire.bus_dev (bus s).
Proof.
  intros Ha Hl Hwf. destruct (chip_read_post s Ha Hl Hwf) as [Hr Hd].
  rewrite Hd. split; [rewrite read_post_drv; exact Ha | split; [exact Hr | reflexivity]].
Qed.

Section Refinement.

(** Every theorem of this section is about a driver at the chip's
    address, on the simulated chip, whose registers are [uint16_t]
    words. *)
Variable s : Sys Si4703Chip.
Hypothesis Hinit : _initialized (drv s) = true.
Hypothesis Haddr : _i2cAddr (drv s) = SI4703_I2C_ADDR.
Hypothesis Hlen : length (_regs (drv s)) = 16%nat.
Hypothesis Hchip : regs_wf (chip_regs (Wire.bus_dev (bus s))) = true.

(** [setVolume(v)] on the chip, as a lemma of the section. *)
Lemma setVolume_chip v :
  0 <= v < 2 ^ 8 ->
  exists s', setVolume v s = Some (tt, s') /\
    chip_regs (Wire.bus_dev (bus s')) = radio_volume v (chip_regs (Wire.bus_dev (bus s))) /\
    _regs (drv s') = chip_regs (Wire.bus_dev (bus s')).
Proof.
  intros Hv. destruct (chip_read_coherent s Haddr Hlen Hchip) as (Ha1 & Hr1 & Hd1).
  assert (Hw5 : 0 <= chip_word (Wire.bus_dev (bus s)) 5 < 2 ^ 16)
    by (apply regs_wf_lookup; [exact Hchip | lia]).
  set (s1 := read_post s) in *.
  set (h := fun w => u16 (u16 (w &' ~' SYSCONFIG2_VOLUME_MASK) |' clamp_volume v)).
  assert (Hl1 : length (_regs (drv s1)) = 16%nat) by (subst s1; now rewrite length_regs_read_post).
  assert (Hst : stage_volume v (drv s1) = update_reg 5 h (drv s1))
    by (unfold stage_volume; rewrite update_reg_update_reg by (exact Hl1 || cbn; lia);
        reflexivity).
  rewrite <- Hd1 in Hchip.
  destruct (chip_write_update s1 5 h Ha1 Hr1 Hchip ltac:(lia) ltac:(intros; apply u16_range))
    as (_ & Hc' & Hu).
  exists (volume_post v s). split; [apply setVolume_run|].
  unfold volume_post. rewrite Hinit. cbn [negb]. fold s1. rewrite Hst, write_post_drv.
  cbn [drv]. split; [|symmetry; exact Hc'].
  rewrite Hc', Hu, Hd1. unfold radio_volume, h. f_equal.
  destruct (clamp_volume_range v ltac:(lia)) as [<- _].
  rewrite stage_volume_word by (lia || exact Hw5). reflexivity.
Qed.

(** C12: [setVolume(v)] on the chip changes the chip's register file
    exactly as [radio_volume v] says, and leaves the shadow store equal
    to it. *)
Theorem setVolume_refines v :
  0 <= v < 2 ^ 8 ->
  exists s', setVolume v s = Some (tt, s') /\
    chip_regs (Wire.bus_dev (bus s')) = radio_volume v (chip_regs (Wire.bus_dev (bus s))) /\
    _regs (drv s') = chip_regs (Wire.bus_dev (bus s')).
Proof. exact (setVolume_chip v). Qed.

(** [setFrequency(mhz)] on the chip, for a request whose channel [c]
    is defined and fits the CHAN field. *)
Lemma setFrequency_refines_at mhz c :
  channel_of (clamp mhz) = Some c -> c < 2 ^ 10 ->
  exists s', setFrequency mhz s = Some (tt, s') /\
    chip_regs (Wire.bus_dev (bus s')) = radio_tune c (chip_regs (Wire.bus_dev (bus s))) /\
    _regs (drv s') = chip_regs (Wire.bus_dev (bus s')) /\
    _currentFreq (drv s') = clamp mhz.
Proof.
  intros Hc Hc10. pose proof (F32.to_u16_range _ _ Hc) as Hcr.
  destruct (chip_read_coherent s Haddr Hlen Hchip) as (Ha1 & Hr1 & Hd1).
  set (s1 := read_post s) in *.
  assert (Hl1 : length (_regs (drv s1)) = 16%nat) by (subst s1; now rewrite length_regs_read_post).
  set (H := fun w => u16 (u16 (u16 (w &' ~' CHANNEL_CHAN_MASK) |' c) |' CHANNEL_TUNE)).
  set (G := fun w => u16 (w &' ~' CHANNEL_TUNE)).
  pose proof Hchip as Hchip1. rewrite <- Hd1 in Hchip1.
  destruct (chip_write_update s1 3 H Ha1 Hr1 Hchip1 ltac:(lia) ltac:(intros; apply u16_range))
    as (_ & Hc2 & Hu2).
  set (s3 := delay_post 60 (snd (write_post (mkSys (update_reg 3 H (drv s1)) (bus s1))))).
  assert (Ha3 : _i2cAddr (drv s3) = SI4703_I2C_ADDR) by (subst s3; unfold delay_post; cbn [drv]; now rewrite write_post_drv).
  assert (Hl3 : length (_regs (drv s3)) = 16%nat)
    by (subst s3; unfold delay_post; cbn [drv]; rewrite write_post_drv; cbn [drv];
        now rewrite length_update_reg).
  assert (Hd3 : chip_regs (Wire.bus_dev (bus s3)) =
                <[3%nat := H (chip_word (Wire.bus_dev (bus s)) 3)]> (chip_regs (Wire.bus_dev (bus s))))
    by (subst s3; unfold delay_post; cbn [bus Wire.delay Wire.log Wire.bus_dev];
        rewrite Hc2, Hu2, Hd1; reflexivity).
  assert (Hw3 : regs_wf (chip_regs (Wire.bus_dev (bus s3))) = true)
    by (rewrite Hd3; apply (chip_wf_insert _ 3); [exact Hchip | lia | apply u16_range]).
  destruct (chip_read_coherent s3 Ha3 Hl3 Hw3) as (Ha4 & Hr4 & Hd4).
  set (s4 := read_post s3) in *.
  pose proof Hw3 as Hw4. rewrite <- Hd4 in Hw4.
  destruct (chip_write_update s4 3 G Ha4 Hr4 Hw4 ltac:(lia) ltac:(intros; apply u16_range))
    as (_ & Hc5 & Hu5).
  exists (tune_post mhz c s). split; [now apply setFrequency_run|].
  unfold tune_post. fold s1. rewrite stage_tune_update by exact Hl1. fold H. fold s3. fold s4.
  replace (stage_untune (drv s4)) with (update_reg 3 G (drv s4)) by reflexivity.
  cbn [drv bus set_currentFreq _regs _currentFreq].
  rewrite write_post_drv. cbn [drv]. split; [|split; [symmetry; exact Hc5 | reflexivity]].
  rewrite Hc5, Hu5, Hd4, Hd3, list_insert_insert_eq. unfold radio_tune. f_equal.
  unfold chip_word. rewrite Hd3. change (Z.to_nat 3) with 3%nat.
  assert (Hl0 : length (chip_regs (Wire.bus_dev (bus s))) = 16%nat)
    by (apply regs_wf_spec in Hchip; apply Hchip).
  rewrite list_lookup_total_insert_eq by lia.
  subst G H. cbn beta. apply tune_word; [apply regs_wf_lookup; [exact Hchip | lia] | lia].
Qed.

(** C11: [setFrequency(mhz)] on the chip, for every request that is
    not NaN, runs to the end with a channel [c] of [[0, 205]] and leaves
    the chip's CHANNEL register with [c] in its channel field and TUNE
    clear, every other register unchanged ([radio_tune c]); the shadow
    store ends equal to the chip's registers and the clamped request is
    cached. *)
Theorem setFrequency_refines mhz :
  F32.is_nan mhz = false ->
  exists c s', channel_of (clamp mhz) = Some c /\ 0 <= c <= 205 /\
    setFrequency mhz s = Some (tt, s') /\
    chip_regs (Wire.bus_dev (bus s')) = radio_tune c (chip_regs (Wire.bus_dev (bus s))) /\
    _regs (drv s') = chip_regs (Wire.bus_dev (bus s')) /\
    _currentFreq (drv s') = clamp mhz.
Proof.
  intros Hn. destruct (clamp_channel mhz Hn) as (c & Hc & Hr).
  destruct (setFrequency_refines_at mhz c Hc ltac:(lia)) as (s' & E & Hch & Hsh & Hf).
  exists c, s'. repeat split; assumption || lia.
Qed.

End Refinement.


(** ** Round trips through the bus *)

(** C7: a read of the chip makes the shadow store the chip's register
    file, all sixteen words, and leaves the chip as it was. *)
Theorem readRegisters_chip_roundtrip (s : Sys Si4703Chip) :
  _i2cAddr (drv s) = SI4703_I2C_ADDR -> length (_regs (drv s)) = 16%nat ->
  regs_wf (chip_regs (Wire.bus_dev (bus s))) = true ->
  exists s', readRegisters s = Some (tt, s') /\
    _regs (drv s') = chip_regs (Wire.bus_dev (bus s)) /\
    Wire.bus_dev (bus s') = Wire.bus_dev (bus s).
Proof.
  intros Ha Hl Hwf. exists (read_post s). split; [apply readRegisters_run|].
  now apply chip_read_post.
Qed.

(** C8: a control write to the chip succeeds, makes the chip's registers
    0x02 .. 0x07 the shadow's, and leaves the chip's other registers and
    the shadow store as they were. *)
Theorem writeRegisters_chip_roundtrip (s : Sys Si4703Chip) :
  _i2cAddr (drv s) = SI4703_I2C_ADDR -> regs_wf (_regs (drv s)) = true ->
  regs_wf (chip_regs (Wire.bus_dev (bus s))) = true ->
  exists s', writeRegisters s = Some (true, s') /\ drv s' = drv s /\
    forall r, 0 <= r < 16 ->
      chip_word (Wire.bus_dev (bus s')) r =
      if (2 <=? r) && (r <=? 7) then reg (drv s) r else chip_word (Wire.bus_dev (bus s)) r.
Proof.
  intros Ha Hwf Hc. apply regs_wf_spec in Hc.
  destruct (chip_write_post s Ha Hwf (proj1 Hc)) as (Hok & _ & Hpt).
  exists (snd (write_post s)). rewrite writeRegisters_run, <- Hok, <- surjective_pairing.
  split; [reflexivity|]. split; [apply write_post_drv | exact Hpt].
Qed.

(** The chip's register file stays sixteen [uint16_t] words under a
    control write. *)
Lemma chip_write_wf (s : Sys Si4703Chip) :
  _i2cAddr (drv s) = SI4703_I2C_ADDR -> regs_wf (_regs (drv s)) = true ->
  regs_wf (chip_regs (Wire.bus_dev (bus s))) = true ->
  regs_wf (chip_regs (Wire.bus_dev (bus (snd (write_post s))))) = true.
Proof.
  intros Ha Hwf Hc. pose proof Hc as Hc'. apply regs_wf_spec in Hc'.
  destruct (chip_write_post s Ha Hwf (proj1 Hc')) as (_ & Hl & Hpt).
  apply regs_wf_spec. split; [exact Hl|]. apply Forall_lookup. intros i x Hx.
  pose proof (lookup_lt_Some _ _ _ Hx) as Hi. rewrite Hl in Hi.
  apply list_lookup_total_correct in Hx. rewrite <- Hx.
  specialize (Hpt (Z.of_nat i) ltac:(lia)). unfold chip_word in Hpt at 1.
  rewrite Nat2Z.id in Hpt. rewrite Hpt.
  destruct (_ && _); [apply regs_wf_word; auto; lia | apply regs_wf_lookup; auto; lia].
Qed.

(** C6: what the driver writes to the chip it reads back: after a
    control write and a read, the shadow's registers 0x02 .. 0x07 are
    what they were before the write, and the others are the chip's. *)
Theorem write_read_roundtrip (s : Sys Si4703Chip) :
  _i2cAddr (drv s) = SI4703_I2C_ADDR -> regs_wf (_regs (drv s)) = true ->
  regs_wf (chip_regs (Wire.bus_dev (bus s))) = true ->
  exists s1 s2, writeRegisters s = Some (true, s1) /\ readRegisters s1 = Some (tt, s2) /\
    forall r, 0 <= r < 16 ->
      reg (drv s2) r =
      if (2 <=? r) && (r <=? 7) then reg (drv s) r else chip_word (Wire.bus_dev (bus s)) r.
Proof.
  intros Ha Hwf Hc. pose proof Hc as Hc'. apply regs_wf_spec in Hc'.
  destruct (chip_write_post s Ha Hwf (proj1 Hc')) as (Hok & _ & Hpt).
  set (s1 := snd (write_post s)).
  assert (Hd1 : drv s1 = drv s) by apply write_post_drv.
  assert (Hw1 : regs_wf (chip_regs (Wire.bus_dev (bus s1))) = true) by now apply chip_write_wf.
  assert (Hl1 : length (_regs (drv s1)) = 16%nat) by (rewrite Hd1; apply regs_wf_spec, Hwf).
  destruct (chip_read_post s1 ltac:(now rewrite Hd1) Hl1 Hw1) as [Hr2 _].
  exists s1, (read_post s1). split; [|split; [apply readRegisters_run|]].
  - rewrite writeRegisters_run, <- Hok. f_equal. apply surjective_pairing.
  - intros r Hr. rewrite <- Hpt by exact Hr. unfold reg, chip_word. now rewrite Hr2.
Qed.

(** ** Failure scenarios and the state after [begin] *)

(** C17: with nothing on the bus, [begin] reports success: every
    [Wire.read()] returns -1, so every shadow word is 0xFFFF and the
    DEVICEID test passes; the power-up write is refused with status 2,
    and the driver ends initialized. *)
Theorem begin_absent_device sda scl clk (s : Sys Absent) :
  length (_regs (drv s)) = 16%nat ->
  exists s' bytes, begin sda scl clk s = Some (true, s') /\ _initialized (drv s') = true /\
    reg (drv s') REG_DEVICEID = 0xFFFF /\
    Wire.bus_trace (bus s') = Wire.bus_trace (bus s) ++
      [Wire.EvBegin sda scl; Wire.EvSetClock clk; Wire.EvDelay 10;
       Wire.EvRequest (_i2cAddr (drv s)) 32 []; Wire.EvRequest (_i2cAddr (drv s)) 32 [];
       Wire.EvTransmit (_i2cAddr (drv s)) bytes 2; Wire.EvDelay 110].
Proof.
  intros Hl. set (s1 := read_post (begin_pre sda scl clk s)).
  assert (Hl1 : length (_regs (drv s1)) = 16%nat) by (subst s1; now rewrite length_regs_read_post).
  assert (Hid : reg (drv s1) REG_DEVICEID = 0xFFFF)
    by (subst s1; rewrite read_post_drv, reg_read_post; [reflexivity | exact Hl | cbn; lia]).
  exists (snd (begin_post sda scl clk s)), (control_bytes (drv (powerUp_post s1))).
  rewrite begin_run. unfold begin_post. fold s1. rewrite Hid. cbn [Z.eqb Pos.eqb snd].
  destruct (powerUp_post_facts s1 Hl1) as (_ & _ & _ & _ & _ & Ho & _).
  split; [reflexivity|]. split; [reflexivity|]. split.
  - transitivity (reg (drv (powerUp_post s1)) 0); [reflexivity|]. rewrite Ho by lia.
    reflexivity.
  - transitivity (Wire.bus_trace (bus (powerUp_post s1))); [reflexivity|].
    rewrite powerUp_post_trace. subst s1. rewrite read_post_trace.
    cbn [begin_pre bus drv Wire.delay Wire.setClock Wire.begin Wire.log Wire.bus_trace].
    rewrite <- !app_assoc. reflexivity.
Qed.

Lemma deaf_read_post_dev (s : Sys Deaf) : Wire.bus_dev (bus (read_post s)) = Wire.bus_dev (bus s).
Proof. rewrite read_post_dev. cbn. now destruct (_ =? _). Qed.

Lemma deaf_write_post_dev o (b : Wire.Bus Deaf) :
  Wire.bus_dev (bus (snd (write_post (mkSys o b)))) = Wire.bus_dev b.
Proof. now rewrite write_post_dev. Qed.

Lemma delay_post_dev {D} `{!Wire.I2CDevice D} ms (s : Sys D) :
  Wire.bus_dev (bus (delay_post ms s)) = Wire.bus_dev (bus s).
Proof. reflexivity. Qed.

(** The scenario of the finding on line 127 of SI4703.cpp: on a chip
    that refuses writes, [setFrequency] still caches the new frequency:
    both writes fail (status 3), the chip's registers do not change, and
    [getFrequency()] then reports the requested frequency. *)
Theorem setFrequency_deaf_caches mhz c (s : Sys Deaf) :
  _initialized (drv s) = true -> channel_of (clamp mhz) = Some c ->
  exists s' got1 b1 got2 b2, setFrequency mhz s = Some (tt, s') /\
    Wire.bus_trace (bus s') = Wire.bus_trace (bus s) ++
      [Wire.EvRequest (_i2cAddr (drv s)) 32 got1; Wire.EvTransmit (_i2cAddr (drv s)) b1 3;
       Wire.EvDelay 60;
       Wire.EvRequest (_i2cAddr (drv s)) 32 got2; Wire.EvTransmit (_i2cAddr (drv s)) b2 3] /\
    Wire.bus_dev (bus s') = Wire.bus_dev (bus s) /\
    getFrequency s' = Some (clamp mhz, s').
Proof.
  intros Hinit Hc. do 5 eexists. split; [apply (setFrequency_run mhz c s Hinit Hc)|].
  split; [rewrite tune_post_trace; reflexivity|]. split; [|reflexivity].
  rewrite tune_post_bus. cbv zeta.
  rewrite deaf_write_post_dev, deaf_read_post_dev, delay_post_dev, deaf_write_post_dev.
  apply deaf_read_post_dev.
Qed.

(** [powerUp] on the chip: the chip's register file and the shadow
    store both become the staged power-up file. *)
(** The power-up words are [uint16_t]: staging them keeps a register
    file well formed. *)
Lemma stage_powerUp_wf l : regs_wf l = true -> regs_wf (stage_powerUp l) = true.
Proof.
  intros Hwf. unfold stage_powerUp.
  repeat (apply regs_wf_insert_nat; [|lia|vm_compute; split; congruence]). exact Hwf.
Qed.

Lemma chip_powerUp_post (s : Sys Si4703Chip) :
  _i2cAddr (drv s) = SI4703_I2C_ADDR -> length (_regs (drv s)) = 16%nat ->
  regs_wf (chip_regs (Wire.bus_dev (bus s))) = true ->
  chip_regs (Wire.bus_dev (bus (powerUp_post s))) = stage_powerUp (chip_regs (Wire.bus_dev (bus s))) /\
  _regs (drv (powerUp_post s)) = stage_powerUp (chip_regs (Wire.bus_dev (bus s))).
Proof.
  intros Ha Hl Hwf. destruct (chip_read_coherent s Ha Hl Hwf) as (Ha2 & Hr2 & Hd2).
  set (s2 := read_post s) in *.
  assert (Hst : regs_wf (stage_powerUp (chip_regs (Wire.bus_dev (bus s2)))) = true).
  { rewrite Hd2. now apply stage_powerUp_wf. }
  assert (Hl0 : length (chip_regs (Wire.bus_dev (bus s2))) = 16%nat)
    by (rewrite Hd2; apply regs_wf_spec in Hwf; apply Hwf).
  destruct (chip_write_set_regs s2 stage_powerUp Ha2 Hr2 Hst Hl0) as [_ Hc'].
  { intros i Hi. unfold stage_powerUp. rewrite !list_lookup_total_insert_ne by lia. reflexivity. }
  rewrite Hd2 in Hc'. unfold powerUp_post. fold s2. rewrite delay_post_dev.
  split; [exact Hc'|]. unfold delay_post. change (drv (mkSys ?o ?b)) with o.
  rewrite write_post_drv. cbn [drv _regs set_regs]. now rewrite Hr2, Hd2.
Qed.

(** [begin] on a chip whose DEVICEID is not zero, from any state at the
    chip's address with a 16-word store: it powers the chip up, sets
    [_initialized] and keeps the cached frequency. *)
Lemma begin_chip sda scl clk (s : Sys Si4703Chip) :
  _i2cAddr (drv s) = SI4703_I2C_ADDR -> length (_regs (drv s)) = 16%nat ->
  regs_wf (chip_regs (Wire.bus_dev (bus s))) = true ->
  chip_word (Wire.bus_dev (bus s)) REG_DEVICEID <> 0 ->
  exists s', begin sda scl clk s = Some (true, s') /\
    _initialized (drv s') = true /\ _i2cAddr (drv s') = SI4703_I2C_ADDR /\
    length (_regs (drv s')) = 16%nat /\ _currentFreq (drv s') = _currentFreq (drv s) /\
    chip_regs (Wire.bus_dev (bus s')) = stage_powerUp (chip_regs (Wire.bus_dev (bus s))) /\
    _regs (drv s') = chip_regs (Wire.bus_dev (bus s')).
Proof.
  intros Ha Hl Hwf Hid. set (p := begin_pre sda scl clk s).
  destruct (chip_read_coherent p Ha Hl Hwf) as (Ha1 & Hr1 & Hd1).
  set (s1 := read_post p) in *. change (Wire.bus_dev (bus p)) with (Wire.bus_dev (bus s)) in Hd1.
  assert (Hl1 : length (_regs (drv s1)) = 16%nat)
    by (rewrite Hr1, Hd1; apply regs_wf_spec in Hwf; apply Hwf).
  pose proof Hwf as Hwf1. rewrite <- Hd1 in Hwf1.
  destruct (chip_powerUp_post s1 Ha1 Hl1 Hwf1) as [Hdev Hreg]. rewrite Hd1 in Hdev, Hreg.
  assert (Hon : reg (drv s1) REG_DEVICEID <> 0) by (unfold reg; rewrite Hr1, Hd1; exact Hid).
  destruct (powerUp_post_facts s1 Hl1) as (_ & _ & _ & _ & _ & _ & Ha3 & _ & Hf & Hl3).
  exists (mkSys (set_initialized true (drv (powerUp_post s1))) (bus (powerUp_post s1))).
  rewrite begin_run. unfold begin_post. fold p s1.
  destruct (Z.eqb_spec (reg (drv s1) REG_DEVICEID) 0); [contradiction|].
  cbn [drv bus _initialized _i2cAddr _regs _currentFreq set_initialized].
  rewrite Ha3, Hf, Hl3, Hdev, Hreg. subst s1. rewrite read_post_drv.
  repeat split; assumption.
Qed.

(** C19: from the constructor, [begin] on a chip whose DEVICEID is not 0
    succeeds and leaves the chip's register file as the power-up
    sequence stages it: POWERCFG = ENABLE | DMUTE, SYSCONFIG1 = RDS | DE
    with STCIEN clear, SYSCONFIG2 with volume 0, TEST1 = 0x8100; the
    shadow store equals the chip's registers; and [getFrequency()]
    returns the constructor's 0.0f, below the band. *)
Theorem begin_chip_from_new sda scl clk (b : Wire.Bus Si4703Chip) :
  regs_wf (chip_regs (Wire.bus_dev b)) = true -> chip_word (Wire.bus_dev b) REG_DEVICEID <> 0 ->
  exists s', begin sda scl clk (mkSys SI4703_new b) = Some (true, s') /\
    chip_regs (Wire.bus_dev (bus s')) = stage_powerUp (chip_regs (Wire.bus_dev b)) /\
    _regs (drv s') = chip_regs (Wire.bus_dev (bus s')) /\
    chip_word (Wire.bus_dev (bus s')) REG_POWERCFG = POWERCFG_ENABLE |' POWERCFG_DMUTE /\
    chip_word (Wire.bus_dev (bus s')) REG_SYSCONFIG1 &' SYSCONFIG1_STCIEN = 0 /\
    chip_word (Wire.bus_dev (bus s')) REG_SYSCONFIG2 &' SYSCONFIG2_VOLUME_MASK = 0 /\
    getFrequency s' = Some (S754_zero false, s').
Proof.
  intros Hwf Hid.
  destruct (begin_chip sda scl clk (mkSys SI4703_new b) eq_refl eq_refl Hwf Hid)
    as (s' & E & _ & _ & _ & Hf & Hdev & Hreg).
  assert (Hl : length (chip_regs (Wire.bus_dev b)) = 16%nat)
    by (apply regs_wf_spec in Hwf; apply Hwf).
  set (o := set_regs (fun _ => chip_regs (Wire.bus_dev b)) SI4703_new).
  assert (Hw : forall r, chip_word (Wire.bus_dev (bus s')) r = reg (set_regs stage_powerUp o) r)
    by (intros r; unfold chip_word; now rewrite Hdev).
  destruct (stage_powerUp_regs o Hl) as (H2 & H4 & H5 & _).
  exists s'. split; [exact E|]. split; [exact Hdev|]. split; [exact Hreg|].
  change (reg_addr REG_POWERCFG) with 2. change (reg_addr REG_SYSCONFIG1) with 4.
  change (reg_addr REG_SYSCONFIG2) with 5. rewrite !Hw, H2, H4, H5.
  split; [reflexivity|]. split; [reflexivity|]. split; [reflexivity|].
  unfold getFrequency, get_drv, m_gets. now rewrite Hf.
Qed.

(** ** Liveness: tuning is always possible *)

(** C13: from any state where the driver is at the chip's address with a
    16-word store (every reachable state is, C4), on an SI4703 whose
    DEVICEID is not zero, every request [f] that is not NaN can be
    carried out by the driver alone: a run of two method calls,
    [begin] then [setFrequency(f)], with the device left untouched,
    reaches a state where the chip's CHANNEL register holds the channel
    of [f] in its CHAN field with TUNE clear, the shadow store equals
    the chip's registers, and [getFrequency] reports the clamped
    request. *)
Theorem tune_eventually (s : Sys Si4703Chip) f :
  _i2cAddr (drv s) = SI4703_I2C_ADDR -> length (_regs (drv s)) = 16%nat ->
  regs_wf (chip_regs (Wire.bus_dev (bus s))) = true ->
  chip_word (Wire.bus_dev (bus s)) REG_DEVICEID <> 0 -> F32.is_nan f = false ->
  eventually (fun s' => exists c, channel_of (clamp f) = Some c /\
      chip_word (Wire.bus_dev (bus s')) REG_CHANNEL &' CHANNEL_CHAN_MASK = c /\
      chip_word (Wire.bus_dev (bus s')) REG_CHANNEL &' CHANNEL_TUNE = 0 /\
      _regs (drv s') = chip_regs (Wire.bus_dev (bus s')) /\
      _currentFreq (drv s') = clamp f) s.
Proof.
  intros Ha Hl Hwf Hid Hn.
  destruct (begin_chip 21 22 400000 s Ha Hl Hwf Hid)
    as (s1 & E1 & Hi1 & Ha1 & Hl1 & _ & Hd1 & _).
  assert (Hw1 : regs_wf (chip_regs (Wire.bus_dev (bus s1))) = true)
    by (rewrite Hd1; now apply stage_powerUp_wf).
  destruct (clamp_channel f Hn) as (c & Hc & Hcr).
  destruct (setFrequency_refines_at s1 Hi1 Ha1 Hl1 Hw1 f c Hc ltac:(lia))
    as (s2 & E2 & Hch & Hsh & Hf).
  apply eventually_step with s1.
  { apply cmd_step_exec with (CBegin 21 22 400000) (RBool true); [reflexivity|].
    cbn [exec]. now rewrite run_bind, E1. }
  apply eventually_step with s2.
  { apply cmd_step_exec with (CSetFrequency f) RUnit; [reflexivity|].
    cbn [exec]. now rewrite run_bind, E2. }
  apply eventually_done. exists c. split; [exact Hc|].
  assert (Hl0 : length (chip_regs (Wire.bus_dev (bus s1))) = 16%nat)
    by (apply regs_wf_spec in Hw1; apply Hw1).
  destruct (tuned_word_fields (chip_regs (Wire.bus_dev (bus s1)) !!! 3%nat) c ltac:(lia))
    as [H1 H2].
  assert (Hw3 : chip_word (Wire.bus_dev (bus s2)) REG_CHANNEL =
    (chip_regs (Wire.bus_dev (bus s1)) !!! 3%nat &' ~' (CHANNEL_CHAN_MASK |' CHANNEL_TUNE)) |' c).
  { unfold chip_word. rewrite Hch. unfold radio_tune. change (Z.to_nat REG_CHANNEL) with 3%nat.
    apply list_lookup_total_insert_eq. lia. }
  rewrite Hw3. auto.
Qed.

(** ** Witnesses on concrete devices *)

(** A chip as it might be after its own reset: DEVICEID 0x1242, CHIPID
    0x1253, SYSCONFIG2 0x001F, TEST1 0x0100, STATUSRSSI 0x0028,
    READCHAN 0x0035. *)
Definition demo_chip : Si4703Chip :=
  mkChip [0x1242; 0x1253; 0; 0; 0; 0x001F; 0; 0x0100; 0; 0; 0x0028; 0x0035; 0; 0; 0; 0].

Definition demo_obj (init : bool) (regs : list Z) : SI4703 :=
  mkSI4703 0x10 21 22 100000 regs (S754_zero false) init.

Definition on_chip {D} (d : D) (o : SI4703) : Sys D := mkSys o (Wire.mkBus d [] [] 0 []).

(** The shadow of [demo_chip] with the volume set to 7. *)
Definition demo_shadow : list Z :=
  [0x1242; 0x1253; 0; 0; 0; 0x0017; 0; 0x0100; 0; 0; 0x0028; 0x0035; 0; 0; 0; 0].

Lemma readRegisters_chip_roundtrip_witness :
  _i2cAddr (drv (on_chip demo_chip (demo_obj true (repeat 0 16)))) = SI4703_I2C_ADDR /\
  length (_regs (drv (on_chip demo_chip (demo_obj true (repeat 0 16))))) = 16%nat /\
  regs_wf (chip_regs demo_chip) = true /\
  exists s', readRegisters (on_chip demo_chip (demo_obj true (repeat 0 16))) = Some (tt, s') /\
    reg (drv s') REG_DEVICEID = 0x1242.
Proof.
  assert (Hwf : regs_wf (chip_regs demo_chip) = true) by reflexivity.
  split; [reflexivity|]. split; [reflexivity|]. split; [exact Hwf|].
  destruct (readRegisters_chip_roundtrip (on_chip demo_chip (demo_obj true (repeat 0 16)))
              eq_refl eq_refl Hwf) as (s' & E & Hr & _).
  exists s'. split; [exact E|]. unfold reg. rewrite Hr. reflexivity.
Defined.

Lemma writeRegisters_chip_roundtrip_witness :
  regs_wf demo_shadow = true /\ regs_wf (chip_regs demo_chip) = true /\
  exists s', writeRegisters (on_chip demo_chip (demo_obj true demo_shadow)) = Some (true, s') /\
    chip_word (Wire.bus_dev (bus s')) REG_SYSCONFIG2 = 0x0017.
Proof.
  assert (H1 : regs_wf demo_shadow = true) by reflexivity.
  assert (H2 : regs_wf (chip_regs demo_chip) = true) by reflexivity.
  split; [exact H1|]. split; [exact H2|].
  destruct (writeRegisters_chip_roundtrip (on_chip demo_chip (demo_obj true demo_shadow))
              eq_refl H1 H2) as (s' & E & _ & Hpt).
  exists s'. split; [exact E|]. exact (Hpt 5 ltac:(lia)).
Defined.

Lemma write_read_roundtrip_witness :
  regs_wf demo_shadow = true /\ regs_wf (chip_regs demo_chip) = true /\
  exists s1 s2, writeRegisters (on_chip demo_chip (demo_obj true demo_shadow)) = Some (true, s1) /\
    readRegisters s1 = Some (tt, s2) /\ reg (drv s2) REG_SYSCONFIG2 = 0x0017.
Proof.
  assert (H1 : regs_wf demo_shadow = true) by reflexivity.
  assert (H2 : regs_wf (chip_regs demo_chip) = true) by reflexivity.
  split; [exact H1|]. split; [exact H2|].
  destruct (write_read_roundtrip (on_chip demo_chip (demo_obj true demo_shadow)) eq_refl H1 H2)
    as (s1 & s2 & E1 & E2 & Hpt).
  exists s1, s2. split; [exact E1|]. split; [exact E2|]. exact (Hpt 5 ltac:(lia)).
Defined.

Lemma setVolume_refines_witness :
  regs_wf (chip_regs demo_chip) = true /\ 0 <= 7 < 2 ^ 8 /\
  exists s', setVolume 7 (on_chip demo_chip (demo_obj true (repeat 0 16))) = Some (tt, s') /\
    chip_regs (Wire.bus_dev (bus s')) = demo_shadow.
Proof.
  assert (H2 : regs_wf (chip_regs demo_chip) = true) by reflexivity.
  assert (Hv : 0 <= 7 < 2 ^ 8) by lia.
  split; [exact H2|]. split; [exact Hv|].
  destruct (setVolume_refines (on_chip demo_chip (demo_obj true (repeat 0 16)))
              eq_refl eq_refl eq_refl H2 7 Hv) as (s' & E & Hc & _).
  exists s'. split; [exact E|]. rewrite Hc. reflexivity.
Defined.

Lemma setFrequency_refines_witness :
  regs_wf (chip_regs demo_chip) = true /\ F32.is_nan (grid_mhz 106) = false /\
  exists c s', setFrequency (grid_mhz 106) (on_chip demo_chip (demo_obj true (repeat 0 16))) =
               Some (tt, s') /\ chip_word (Wire.bus_dev (bus s')) REG_CHANNEL = c /\ 0 <= c <= 205.
Proof.
  assert (H2 : regs_wf (chip_regs demo_chip) = true) by reflexivity.
  assert (Hn : F32.is_nan (grid_mhz 106) = false) by (vm_compute; reflexivity).
  split; [exact H2|]. split; [exact Hn|].
  destruct (setFrequency_refines (on_chip demo_chip (demo_obj true (repeat 0 16)))
              eq_refl eq_refl eq_refl H2 (grid_mhz 106) Hn) as (c & s' & Hc & Hr & E & Hch & _).
  exists c, s'. split; [exact E|]. split; [|exact Hr].
  unfold chip_word. rewrite Hch. cbn. rewrite Z.land_0_l, Z.lor_0_l. reflexivity.
Defined.

Lemma begin_absent_device_witness :
  length (_regs (drv (on_chip absent (demo_obj false (repeat 0 16))))) = 16%nat /\
  exists s', begin 21 22 400000 (on_chip absent (demo_obj false (repeat 0 16))) = Some (true, s') /\
    _initialized (drv s') = true.
Proof.
  split; [reflexivity|].
  destruct (begin_absent_device 21 22 400000 (on_chip absent (demo_obj false (repeat 0 16))) eq_refl)
    as (s' & bytes & E & Hi & _).
  exists s'. split; [exact E | exact Hi].
Defined.

Lemma setFrequency_deaf_caches_witness :
  channel_of (clamp (grid_mhz 106)) = Some 105 /\
  exists s', setFrequency (grid_mhz 106) (on_chip (mkDeaf demo_chip) (demo_obj true (repeat 0 16))) =
             Some (tt, s') /\
    Wire.bus_dev (bus s') = mkDeaf demo_chip /\ getFrequency s' = Some (clamp (grid_mhz 106), s').
Proof.
  assert (Hc : channel_of (clamp (grid_mhz 106)) = Some 105) by (vm_compute; reflexivity).
  split; [exact Hc|].
  destruct (setFrequency_deaf_caches (grid_mhz 106) 105
              (on_chip (mkDeaf demo_chip) (demo_obj true (repeat 0 16))) eq_refl Hc)
    as (s' & got1 & b1 & got2 & b2 & E & _ & Hd & Hf).
  exists s'. split; [exact E|]. split; [exact Hd | exact Hf].
Defined.

Lemma begin_chip_from_new_witness :
  regs_wf (chip_regs demo_chip) = true /\ chip_word demo_chip REG_DEVICEID <> 0 /\
  exists s', begin 21 22 400000 (mkSys SI4703_new (Wire.mkBus demo_chip [] [] 0 [])) = Some (true, s') /\
    chip_word (Wire.bus_dev (bus s')) REG_SYSCONFIG2 &' SYSCONFIG2_VOLUME_MASK = 0 /\
    getFrequency s' = Some (S754_zero false, s').
Proof.
  assert (H1 : regs_wf (chip_regs demo_chip) = true) by reflexivity.
  assert (H2 : chip_word demo_chip REG_DEVICEID <> 0) by discriminate.
  split; [exact H1|]. split; [exact H2|].
  destruct (begin_chip_from_new 21 22 400000 (Wire.mkBus demo_chip [] [] 0 []) H1 H2)
    as (s' & E & _ & _ & _ & _ & Hv & Hf).
  exists s'. split; [exact E|]. split; [exact Hv | exact Hf].
Defined.

Lemma tune_eventually_witness :
  regs_wf (chip_regs demo_chip) = true /\ chip_word demo_chip REG_DEVICEID <> 0 /\
  F32.is_nan (grid_mhz 106) = false /\
  eventually (fun s' => exists c, channel_of (clamp (grid_mhz 106)) = Some c /\
      chip_word (Wire.bus_dev (bus s')) REG_CHANNEL &' CHANNEL_CHAN_MASK = c /\
      chip_word (Wire.bus_dev (bus s')) REG_CHANNEL &' CHANNEL_TUNE = 0 /\
      _regs (drv s') = chip_regs (Wire.bus_dev (bus s')) /\
      _currentFreq (drv s') = clamp (grid_mhz 106))
    (on_chip demo_chip (demo_obj false (repeat 0 16))).
Proof.
  assert (H1 : regs_wf (chip_regs demo_chip) = true) by reflexivity.
  assert (H2 : chip_word demo_chip REG_DEVICEID <> 0) by discriminate.
  assert (Hn : F32.is_nan (grid_mhz 106) = false) by (vm_compute; reflexivity).
  split; [exact H1|]. split; [exact H2|]. split; [exact Hn|].
  exact (tune_eventually (on_chip demo_chip (demo_obj false (repeat 0 16))) (grid_mhz 106)
           eq_refl eq_refl H1 H2 Hn).
Defined.

End Chip.
