(* ===== verification/Radio.v ===== *)
(** * Radio: the receiver as its user sees it, and the simulation of
    every driver command by it

    An abstract specification of what the driver promises on an SI4703
    (spec.md sections 4.2 - 4.5 and 8): the radio is the session flag,
    the identity the chip answers, the power word, the tuned channel and
    its TUNE bit, the volume, the signal strength and the cached
    frequency.  [radio_step] says what each command does to it and
    [radio_result] what it returns.  [abs] reads the abstract radio off
    a system running on the simulated chip of Chip.v.  The simulation
    theorem shows that every command the driver runs on the chip, from a
    state where the driver talks to the chip with a 16-word store,
    changes [abs] exactly as [radio_step] says, returns [radio_result],
    and keeps that condition. *)

From Stdlib Require Import ZArith Lia Floats.SpecFloat.
From stdpp Require Import base list.
From S2P Require Import Prelude Float32 Regs Wire Shadow Sync Sequencer Tune Driver Chip.

Open Scope Z_scope.
Open Scope si4703_scope.

Module Radio.
Import Regs Shadow Sync Sequencer Tune Driver Chip.

(** ** The abstract radio *)

Record radio := mkRadio {
  r_init : bool;            (** the driver's session is open *)
  r_devid : Z;              (** the DEVICEID the chip answers *)
  r_power : Z;              (** the POWERCFG word *)
  r_chan : Z;               (** the CHAN field of CHANNEL *)
  r_tune : Z;               (** the TUNE bit of CHANNEL (masked) *)
  r_vol : Z;                (** the VOLUME field of SYSCONFIG2 *)
  r_rssi : Z;               (** the RSSI field of STATUSRSSI *)
  r_freq : F32.float32      (** the cached frequency *)
}.

(** The radio a register file and a session describe. *)
Definition abs_of (init : bool) (l : list Z) (f : F32.float32) : radio :=
  mkRadio init (l !!! 0%nat) (l !!! 2%nat) (l !!! 3%nat &' CHANNEL_CHAN_MASK)
    (l !!! 3%nat &' CHANNEL_TUNE) (l !!! 5%nat &' SYSCONFIG2_VOLUME_MASK)
    (l !!! 10%nat &' STATUSRSSI_RSSI_MASK) f.

Definition abs (s : Sys Si4703Chip) : radio :=
  abs_of (_initialized (drv s)) (chip_regs (Wire.bus_dev (bus s))) (_currentFreq (drv s)).

(** Power-up (spec.md 4.2): enabled and unmuted, volume 0. *)
Definition power_up (a : radio) : radio :=
  mkRadio (r_init a) (r_devid a) (POWERCFG_ENABLE |' POWERCFG_DMUTE) (r_chan a) (r_tune a) 0
    (r_rssi a) (r_freq a).

Definition open_session (a : radio) : radio :=
  mkRadio true (r_devid a) (r_power a) (r_chan a) (r_tune a) (r_vol a) (r_rssi a) (r_freq a).

(** Tuning (spec.md 4.4): the channel in CHAN, TUNE clear, the request
    cached. *)
Definition tune_to (ch : Z) (f : F32.float32) (a : radio) : radio :=
  mkRadio (r_init a) (r_devid a) (r_power a) ch 0 (r_vol a) (r_rssi a) f.

Definition set_volume (v : Z) (a : radio) : radio :=
  mkRadio (r_init a) (r_devid a) (r_power a) (r_chan a) (r_tune a) v (r_rssi a) (r_freq a).

(** What each command does to the radio: nothing but [begin] acts on a
    closed session; [begin] opens one on a chip with a non-zero
    identity; the channel is the spec's exact [floor((f - 87.5) / 0.1)]
    of the clamped request. *)
Definition radio_step (c : command) (a : radio) : radio :=
  match c with
  | CBegin _ _ _ => if r_devid a =? 0 then a else open_session (power_up a)
  | CReset => if r_init a then power_up a else a
  | CSetFrequency f =>
      if r_init a then
        match spec_channel (clamp f) with Some ch => tune_to ch (clamp f) a | None => a end
      else a
  | CSetVolume v => if r_init a then set_volume (Z.min v 15) a else a
  | CGetFrequency | CGetRSSI | CProcess => a
  end.

(** What each command returns. *)
Definition radio_result (c : command) (a : radio) : result :=
  match c with
  | CBegin _ _ _ => RBool (negb (r_devid a =? 0))
  | CGetFrequency => RFloat (r_freq a)
  | CGetRSSI => RByte (if r_init a then r_rssi a else 0)
  | CReset | CSetFrequency _ | CSetVolume _ | CProcess => RUnit
  end.

(** The condition the simulation keeps: the driver's invariant of
    reachable states ([inv_drv], C4: a 16-word [uint16_t] store, the
    chip's address, a cached frequency in the band or 0.0f) and a chip
    whose registers are [uint16_t] words. *)
Definition chip_ok (s : Sys Si4703Chip) : Prop :=
  inv_drv (drv s) /\ regs_wf (chip_regs (Wire.bus_dev (bus s))) = true.

(** ** The abstraction of changed register files *)

Lemma power_up_insert_powercfg i l f v :
  power_up (abs_of i (<[2%nat := v]> l) f) = power_up (abs_of i l f).
Proof. unfold power_up, abs_of. cbn. rewrite !list_lookup_total_insert_ne by congruence. reflexivity. Qed.

Lemma abs_of_stage_powerUp i l f :
  length l = 16%nat -> abs_of i (stage_powerUp l) f = power_up (abs_of i l f).
Proof.
  intros Hl. unfold stage_powerUp, abs_of, power_up. cbn [r_init r_devid r_chan r_tune r_rssi r_freq].
  rewrite list_lookup_total_insert_eq by (rewrite !length_insert; lia).
  rewrite (list_lookup_total_insert_ne _ 2 5), list_lookup_total_insert_eq
    by (rewrite ?length_insert; lia).
  rewrite !(list_lookup_total_insert_ne _ _ 0), !(list_lookup_total_insert_ne _ _ 3),
    !(list_lookup_total_insert_ne _ _ 10) by lia.
  f_equal; vm_compute; reflexivity.
Qed.

Lemma abs_of_radio_volume i l f v :
  length l = 16%nat -> 0 <= v ->
  abs_of i (radio_volume v l) f = set_volume (Z.min v 15) (abs_of i l f).
Proof.
  intros Hl Hv. unfold radio_volume, abs_of, set_volume. cbn [r_init r_devid r_power r_chan r_tune r_rssi r_freq].
  rewrite list_lookup_total_insert_eq by lia.
  rewrite !list_lookup_total_insert_ne by lia. f_equal.
  rewrite volume_mask_ones. apply field_set_low; lia.
Qed.

Lemma abs_of_radio_tune i l f f' c :
  length l = 16%nat -> 0 <= c < 2 ^ 10 ->
  abs_of i (radio_tune c l) f' = tune_to c f' (abs_of i l f).
Proof.
  intros Hl Hc. destruct (tuned_word_fields (l !!! 3%nat) c Hc) as [Hch Htu].
  unfold radio_tune, abs_of, tune_to. cbn [r_init r_devid r_power r_chan r_tune r_vol r_rssi r_freq].
  rewrite list_lookup_total_insert_eq by lia.
  rewrite !list_lookup_total_insert_ne by lia. now rewrite Hch, Htu.
Qed.

Lemma channel_of_clamp_range mhz c : channel_of (clamp mhz) = Some c -> 0 <= c <= 205.
Proof.
  destruct (F32.is_nan mhz) eqn:Hn; [destruct mhz; try discriminate; discriminate|].
  destruct (clamp_channel mhz Hn) as (c' & Hc' & Hr). rewrite Hc'. now intros [= <-].
Qed.

(** ** Reading the chip *)

Lemma chip_ok_facts s :
  chip_ok s ->
  _i2cAddr (drv s) = SI4703_I2C_ADDR /\ length (_regs (drv s)) = 16%nat /\
  length (chip_regs (Wire.bus_dev (bus s))) = 16%nat.
Proof.
  intros [(Hwf & Ha & _) Hc]. apply regs_wf_spec in Hwf, Hc.
  split; [exact Ha|]. split; [apply Hwf | apply Hc].
Qed.

(** A read of the chip changes nothing the radio shows and leaves the
    shadow store equal to the chip's registers. *)
Lemma abs_read_post s :
  chip_ok s ->
  abs (read_post s) = abs s /\ chip_ok (read_post s) /\
  _regs (drv (read_post s)) = chip_regs (Wire.bus_dev (bus (read_post s))) /\
  Wire.bus_dev (bus (read_post s)) = Wire.bus_dev (bus s).
Proof.
  intros Hok. destruct (chip_ok_facts s Hok) as (Ha & Hl & _). destruct Hok as [Hi Hc].
  destruct (chip_read_coherent s Ha Hl Hc) as (_ & Hr & Hd).
  split; [unfold abs; rewrite Hd, read_post_drv; reflexivity|].
  split; [split; [now apply inv_read_post | now rewrite Hd] | split; [exact Hr | exact Hd]].
Qed.

(** ** The commands, one by one *)

(** Rewrite the session fields of a post-state back to the state the
    command started from. *)
Ltac session_simpl :=
  unfold volume_post, stage_volume, update_reg, stage_disable, tune_post, stage_untune,
    stage_tune, stage_chan, delay_post;
  repeat first [rewrite read_post_drv | rewrite write_post_drv | rewrite powerUp_post_drv
               | progress cbn [drv set_regs set_currentFreq set_initialized _initialized
                               _currentFreq]].

Lemma abs_intro s i l f :
  _initialized (drv s) = i -> chip_regs (Wire.bus_dev (bus s)) = l -> _currentFreq (drv s) = f ->
  abs s = abs_of i l f.
Proof. intros <- <- <-. reflexivity. Qed.

Lemma wf_radio_volume l v :
  regs_wf l = true -> 0 <= v < 2 ^ 8 -> regs_wf (radio_volume v l) = true.
Proof.
  intros Hwf Hv. apply regs_wf_insert_nat; [exact Hwf | lia|].
  apply lor_u16; [apply land_u16, (regs_wf_lookup l 5 Hwf); lia | lia].
Qed.

Lemma wf_radio_tune l c :
  regs_wf l = true -> 0 <= c < 2 ^ 10 -> regs_wf (radio_tune c l) = true.
Proof.
  intros Hwf Hc. apply regs_wf_insert_nat; [exact Hwf | lia|].
  apply lor_u16; [apply land_u16, (regs_wf_lookup l 3 Hwf); lia | lia].
Qed.

(** The commands that leave the session flag and the cached frequency
    alone. *)
Section Session.
Context {D : Type} `{!Wire.I2CDevice D}.

Lemma session_volume v (s : Sys D) :
  _initialized (drv (volume_post v s)) = _initialized (drv s) /\
  _currentFreq (drv (volume_post v s)) = _currentFreq (drv s).
Proof. unfold volume_post. destruct (_initialized (drv s)) eqn:E; cbn [negb]; [session_simpl|]; auto. Qed.

Lemma session_reset (s : Sys D) :
  _initialized (drv (reset_post s)) = _initialized (drv s) /\
  _currentFreq (drv (reset_post s)) = _currentFreq (drv s).
Proof. unfold reset_post. destruct (_initialized (drv s)) eqn:E; cbn [negb]; [session_simpl|]; auto. Qed.

Lemma session_tune mhz c (s : Sys D) :
  _initialized (drv (tune_post mhz c s)) = _initialized (drv s) /\
  _currentFreq (drv (tune_post mhz c s)) = clamp mhz.
Proof. session_simpl. auto. Qed.

End Session.

(** [setVolume(v)]. *)
Lemma sim_volume s v :
  chip_ok s -> 0 <= v < 2 ^ 8 ->
  regs_wf (chip_regs (Wire.bus_dev (bus (volume_post v s)))) = true /\
  abs (volume_post v s) = radio_step (CSetVolume v) (abs s).
Proof.
  intros Hok Hv. destruct (chip_ok_facts s Hok) as (Ha & Hl & Hlc). destruct Hok as [_ Hc].
  cbn [radio_step]. change (r_init (abs s)) with (_initialized (drv s)).
  destruct (_initialized (drv s)) eqn:Hinit; [|unfold volume_post; rewrite Hinit; now split].
  destruct (setVolume_chip s Hinit Ha Hl Hc v Hv) as (s' & E & Hch & _).
  rewrite setVolume_run in E. injection E as E. subst s'.
  split; [rewrite Hch; now apply wf_radio_volume|].
  destruct (session_volume v s) as [Hi Hf]. rewrite Hinit in Hi.
  rewrite (abs_intro _ _ _ _ Hi Hch Hf), abs_of_radio_volume by lia. unfold abs. now rewrite Hinit.
Qed.

(** [reset()]. *)
Lemma sim_reset s :
  chip_ok s ->
  regs_wf (chip_regs (Wire.bus_dev (bus (reset_post s)))) = true /\
  abs (reset_post s) = radio_step CReset (abs s).
Proof.
  intros Hok. destruct (abs_read_post s Hok) as (_ & Hok1 & Hr1 & Hd1).
  cbn [radio_step]. change (r_init (abs s)) with (_initialized (drv s)).
  destruct (_initialized (drv s)) eqn:Hinit;
    [|unfold reset_post; rewrite Hinit; split; [apply Hok | reflexivity]].
  set (s1 := read_post s) in *.
  destruct (chip_ok_facts s1 Hok1) as (Ha1 & Hl1 & Hlc1). destruct Hok1 as [_ Hc1].
  set (h := fun w => u16 (w |' POWERCFG_DISABLE)).
  destruct (chip_write_update s1 2 h Ha1 Hr1 Hc1 ltac:(lia) ltac:(intros; apply u16_range))
    as (_ & Hc' & Hu).
  set (s3 := delay_post 10 (snd (write_post (mkSys (update_reg 2 h (drv s1)) (bus s1))))).
  assert (Ha3 : _i2cAddr (drv s3) = SI4703_I2C_ADDR)
    by (subst s3; unfold delay_post; cbn [drv]; rewrite write_post_drv; exact Ha1).
  assert (Hl3 : length (_regs (drv s3)) = 16%nat)
    by (subst s3; unfold delay_post; cbn [drv]; rewrite write_post_drv; cbn [drv];
        now rewrite length_update_reg).
  assert (Hd3 : chip_regs (Wire.bus_dev (bus s3)) =
                <[2%nat := h (chip_word (Wire.bus_dev (bus s1)) 2)]> (chip_regs (Wire.bus_dev (bus s1))))
    by (subst s3; rewrite delay_post_dev, Hc', Hu; reflexivity).
  assert (Hw3 : regs_wf (chip_regs (Wire.bus_dev (bus s3))) = true)
    by (rewrite Hd3; apply (chip_wf_insert _ 2); [exact Hc1 | lia | apply u16_range]).
  destruct (chip_powerUp_post s3 Ha3 Hl3 Hw3) as [Hdev _].
  assert (Ep : reset_post s = powerUp_post s3) by (unfold reset_post; rewrite Hinit; reflexivity).
  rewrite Ep. split; [rewrite Hdev; now apply stage_powerUp_wf|].
  destruct (session_reset s) as [Hi Hf]. rewrite Ep in Hi, Hf.
  rewrite (abs_intro _ _ _ _ Hi Hdev Hf), Hd3, abs_of_stage_powerUp by (rewrite length_insert; lia).
  rewrite power_up_insert_powercfg, Hd1. unfold abs. now rewrite Hinit.
Qed.

(** [setFrequency(mhz)] on an open session, for a request that has a
    channel. *)
Lemma sim_tune s mhz c :
  chip_ok s -> _initialized (drv s) = true -> channel_of (clamp mhz) = Some c ->
  regs_wf (chip_regs (Wire.bus_dev (bus (tune_post mhz c s)))) = true /\
  abs (tune_post mhz c s) = radio_step (CSetFrequency mhz) (abs s).
Proof.
  intros Hok Hinit Hcc. destruct (chip_ok_facts s Hok) as (Ha & Hl & Hlc). destruct Hok as [_ Hc].
  pose proof (channel_of_clamp_range mhz c Hcc) as Hr.
  destruct (setFrequency_refines_at s Hinit Ha Hl Hc mhz c Hcc ltac:(lia)) as (s' & E & Hch & _ & Hf).
  rewrite (setFrequency_run mhz c s Hinit Hcc) in E. injection E as E. subst s'.
  split; [rewrite Hch; apply wf_radio_tune; [exact Hc | lia]|].
  cbn [radio_step]. change (r_init (abs s)) with (_initialized (drv s)).
  rewrite Hinit, (channel_of_clamp_spec _ _ Hcc).
  destruct (session_tune mhz c s) as [Hi _]. rewrite (abs_intro _ _ _ _ Hi Hch Hf).
  unfold abs. apply abs_of_radio_tune; [exact Hlc | lia].
Qed.

(** [begin(sda, scl, i2cClock)]: the early return on DEVICEID 0 and the
    power-up otherwise. *)
Lemma sim_begin sda scl clk s :
  chip_ok s ->
  regs_wf (chip_regs (Wire.bus_dev (bus (snd (begin_post sda scl clk s))))) = true /\
  abs (snd (begin_post sda scl clk s)) = radio_step (CBegin sda scl clk) (abs s) /\
  RBool (fst (begin_post sda scl clk s)) = radio_result (CBegin sda scl clk) (abs s).
Proof.
  intros Hok. destruct (chip_ok_facts s Hok) as (Ha & Hl & Hlc).
  cbn [radio_step radio_result]. change (r_devid (abs s)) with (chip_regs (Wire.bus_dev (bus s)) !!! 0%nat).
  destruct (Z.eqb_spec (chip_regs (Wire.bus_dev (bus s)) !!! 0%nat) 0) as [H0|H0].
  - set (p := begin_pre sda scl clk s).
    assert (Hokp : chip_ok p) by exact Hok.
    destruct (abs_read_post p Hokp) as (Habs & Hok1 & Hr1 & Hd1).
    assert (Hid : reg (drv (read_post p)) REG_DEVICEID = 0)
      by (unfold reg; rewrite Hr1, Hd1; exact H0).
    unfold begin_post. fold p. rewrite Hid, Z.eqb_refl. cbn [fst snd].
    split; [apply Hok1|]. split; [exact Habs | reflexivity].
  - destruct (begin_chip sda scl clk s Ha Hl (proj2 Hok) H0)
      as (s' & E & Hi & _ & _ & Hf & Hdev & _).
    rewrite begin_run in E. injection E as E. rewrite E. cbn [fst snd].
    split; [rewrite Hdev; apply stage_powerUp_wf, Hok|].
    split; [|reflexivity].
    rewrite (abs_intro _ _ _ _ Hi Hdev Hf), abs_of_stage_powerUp by exact Hlc. reflexivity.
Qed.

Lemma rssi_field_range w : 0 <= w &' STATUSRSSI_RSSI_MASK < 2 ^ 8.
Proof. change STATUSRSSI_RSSI_MASK with (Z.ones 8). rewrite Z.land_ones by lia. apply Z.mod_pos_bound. lia. Qed.

(** [getRSSI()]: the RSSI field on an open session, 0 otherwise. *)
Lemma sim_rssi s :
  chip_ok s ->
  regs_wf (chip_regs (Wire.bus_dev (bus (snd (rssi_post s))))) = true /\
  abs (snd (rssi_post s)) = abs s /\
  RByte (fst (rssi_post s)) = radio_result CGetRSSI (abs s).
Proof.
  intros Hok. cbn [radio_result]. change (r_init (abs s)) with (_initialized (drv s)).
  unfold rssi_post. destruct (_initialized (drv s)); cbn [negb fst snd];
    [|split; [apply Hok | split; reflexivity]].
  destruct (abs_read_post s Hok) as (Habs & Hok1 & Hr1 & Hd1).
  split; [apply Hok1|]. split; [exact Habs|]. f_equal.
  unfold reg. rewrite Hr1, Hd1. apply u8_id, rssi_field_range.
Qed.

(** ** The simulation *)

(** Every command keeps the chip's registers [uint16_t] words and acts on
    the radio as [radio_step] and [radio_result] say. *)
Lemma sim_exec c s r s' :
  chip_ok s -> arg_ok c = true -> exec c s = Some (r, s') ->
  regs_wf (chip_regs (Wire.bus_dev (bus s'))) = true /\
  abs s' = radio_step c (abs s) /\ r = radio_result c (abs s).
Proof.
  intros Hok Harg E. destruct c as [sda scl clk| |mhz| |v| |]; cbn [exec] in E;
    rewrite run_bind in E.
  - rewrite begin_run in E. pose proof (sim_begin sda scl clk s Hok) as H.
    destruct (begin_post _ _ _ s); cbn beta iota in E. now injection E as <- <-.
  - rewrite reset_run in E. cbn beta iota in E. injection E as <- <-.
    destruct (sim_reset s Hok) as [Hw Ha]. now split; [|split].
  - cbn [radio_step radio_result]. change (r_init (abs s)) with (_initialized (drv s)).
    destruct (_initialized (drv s)) eqn:Hinit.
    + destruct (channel_of (clamp mhz)) as [ch|] eqn:Hc;
        [|rewrite (setFrequency_ub mhz s Hinit Hc) in E; discriminate].
      rewrite (setFrequency_run mhz ch s Hinit Hc) in E. cbn beta iota in E.
      injection E as <- <-. destruct (sim_tune s mhz ch Hok Hinit Hc) as [Hw Ha].
      cbn [radio_step] in Ha. change (r_init (abs s)) with (_initialized (drv s)) in Ha.
      rewrite Hinit in Ha. now split; [|split].
    + rewrite (setFrequency_noinit mhz s Hinit) in E. cbn beta iota in E.
      injection E as <- <-. split; [apply Hok | split; reflexivity].
  - cbn in E. injection E as <- <-. split; [apply Hok | split; reflexivity].
  - apply is_u8_spec in Harg. rewrite setVolume_run in E. cbn beta iota in E.
    injection E as <- <-. destruct (sim_volume s v Hok Harg) as [Hw Ha]. now split; [|split].
  - rewrite getRSSI_run in E. pose proof (sim_rssi s Hok) as H.
    destruct (rssi_post s); cbn beta iota in E. now injection E as <- <-.
  - cbn in E. injection E as <- <-. split; [apply Hok | split; reflexivity].
Qed.

(** C28: every command the driver runs on an SI4703, with well-typed
    arguments, from a state that keeps the driver's invariant (every
    reachable state does, C4) on a chip whose registers are [uint16_t]
    words, changes the radio exactly as the abstract specification
    [radio_step] says and returns [radio_result]: [begin] opens a
    powered-up session when the chip answers a non-zero DEVICEID and
    changes nothing otherwise, [reset] powers the chip up again,
    [setFrequency] tunes to the spec's channel of the clamped request
    with TUNE clear and caches it, [setVolume] sets the volume field to
    [min(v, 15)], the getters return the cached frequency and the RSSI
    field, and nothing but [begin] acts on a closed session.  The
    condition holds again afterwards, so the simulation applies to the
    next command as well. *)
Theorem exec_refines_radio c s r s' :
  chip_ok s -> arg_ok c = true -> exec c s = Some (r, s') ->
  chip_ok s' /\ abs s' = radio_step c (abs s) /\ r = radio_result c (abs s).
Proof.
  intros Hok Harg E. destruct (sim_exec c s r s' Hok Harg E) as (Hw & Ha & Hr).
  split; [split; [exact (inv_exec c s s' r (proj1 Hok) E) | exact Hw]|]. now split.
Qed.

(** ** Witnesses *)

Definition demo_radio_sys : Sys Si4703Chip := on_chip demo_chip (demo_obj true (chip_regs demo_chip)).

Lemma exec_refines_radio_witness :
  chip_ok demo_radio_sys /\ arg_ok (CSetFrequency (grid_mhz 106)) = true /\
  exists r s', exec (CSetFrequency (grid_mhz 106)) demo_radio_sys = Some (r, s') /\
    chip_ok s' /\ abs s' = radio_step (CSetFrequency (grid_mhz 106)) (abs demo_radio_sys) /\
    r = radio_result (CSetFrequency (grid_mhz 106)) (abs demo_radio_sys) /\
    r_chan (abs s') = 105 /\ r_tune (abs s') = 0.
Proof.
  assert (Hok : chip_ok demo_radio_sys)
    by (split; [split; [reflexivity | split; [reflexivity | now left]] | reflexivity]).
  split; [exact Hok|]. split; [reflexivity|].
  destruct (exec (CSetFrequency (grid_mhz 106)) demo_radio_sys) as [[r s']|] eqn:E;
    [|vm_compute in E; discriminate].
  destruct (exec_refines_radio (CSetFrequency (grid_mhz 106)) _ _ _ Hok eq_refl E) as (Hok' & Ha & Hr).
  exists r, s'. split; [reflexivity|]. split; [exact Hok'|]. split; [exact Ha|].
  split; [exact Hr|]. rewrite Ha. split; vm_compute; reflexivity.
Defined.

End Radio.
