(* ===== verification/Timing.v ===== *)
(** * Timing: how long each command blocks

    spec.md section 5: every command runs on the caller's thread and
    blocks in the fixed waits of its sequence, "up to ~110ms (power-up)
    or ~60ms (tune)".  The waits are the [EvDelay] events of the bus
    trace.  This file sums them over the events a command adds
    ([waits]) and shows, for every command on any device, that the
    command only appends to the trace and waits exactly: [begin] 10 ms
    (DEVICEID 0) or 120 ms ([delay(10)] then power-up's [delay(110)]),
    [reset] 120 ms on an initialized driver, [setFrequency] 60 ms on an
    initialized driver, and no other command ever waits. *)

From Stdlib Require Import ZArith Lia Floats.SpecFloat.
From stdpp Require Import base list.
From S2P Require Import Prelude Float32 Regs Wire Shadow Sync Sequencer Tune Driver.

Open Scope Z_scope.

Module Timing.
Import Regs Shadow Sync Sequencer Tune Driver.

(** The time spent in [delay] by a list of bus events, in ms. *)
Fixpoint waits (tr : list Wire.bus_event) : Z :=
  match tr with
  | [] => 0
  | Wire.EvDelay ms :: tr' => ms + waits tr'
  | _ :: tr' => waits tr'
  end.

(** The longest a command blocks, in ms. *)
Definition max_wait (c : command) : Z :=
  match c with
  | CBegin _ _ _ | CReset => 120
  | CSetFrequency _ => 60
  | CGetFrequency | CSetVolume _ | CGetRSSI | CProcess => 0
  end.

Section WaitOf.
Context {D : Type} `{!Wire.I2CDevice D}.

(** How long [c] waits from [s], branch by branch as the methods are
    written: [begin]'s early return on DEVICEID 0 and the
    [_initialized] guards of [reset] and [setFrequency]. *)
Definition wait_of (c : command) (s : Sys D) : Z :=
  match c with
  | CBegin sda scl clk =>
      if reg (drv (read_post (begin_pre sda scl clk s))) REG_DEVICEID =? 0 then 10 else 120
  | CReset => if _initialized (drv s) then 120 else 0
  | CSetFrequency _ => if _initialized (drv s) then 60 else 0
  | CGetFrequency | CSetVolume _ | CGetRSSI | CProcess => 0
  end.

End WaitOf.

Lemma waits_app a b : waits (a ++ b) = waits a + waits b.
Proof. induction a as [|[] a IH]; cbn; lia. Qed.

Section Waited.
Context {D : Type} `{!Wire.I2CDevice D}.

(** [waited s s' t]: the trace of [s'] is the trace of [s] followed by
    events that wait [t] ms in all. *)
Definition waited (s s' : Sys D) (t : Z) : Prop :=
  exists ev, Wire.bus_trace (bus s') = Wire.bus_trace (bus s) ++ ev /\ waits ev = t.

Lemma delay_post_trace ms (s : Sys D) :
  Wire.bus_trace (bus (delay_post ms s)) = Wire.bus_trace (bus s) ++ [Wire.EvDelay ms].
Proof. reflexivity. Qed.

Lemma log_trace e (b : Wire.Bus D) :
  Wire.bus_trace (Wire.log e b) = Wire.bus_trace b ++ [e].
Proof. reflexivity. Qed.

Lemma waited_refl (s : Sys D) : waited s s 0.
Proof. exists []. now rewrite app_nil_r. Qed.

End Waited.

(** Unfold the trace of a post-state into the events it appends, then
    count their waits. *)
Ltac solve_waited :=
  unfold waited;
  repeat (rewrite ?powerUp_post_trace, ?read_post_trace, ?write_post_trace, ?delay_post_trace,
            ?log_trace; cbn [bus drv]);
  eexists; split; [rewrite <- ?app_assoc; reflexivity | reflexivity].

Section Posts.
Context {D : Type} `{!Wire.I2CDevice D}.

Lemma waited_powerUp (s : Sys D) : waited s (powerUp_post s) 110.
Proof. solve_waited. Qed.

Lemma waited_reset (s : Sys D) :
  waited s (reset_post s) (if _initialized (drv s) then 120 else 0).
Proof.
  unfold reset_post. destruct (_initialized (drv s)); [cbn [negb] | apply waited_refl].
  solve_waited.
Qed.

Lemma waited_tune mhz c (s : Sys D) : waited s (tune_post mhz c s) 60.
Proof. unfold tune_post. solve_waited. Qed.

Lemma waited_volume v (s : Sys D) : waited s (volume_post v s) 0.
Proof.
  unfold volume_post. destruct (_initialized (drv s)); [cbn [negb] | apply waited_refl].
  solve_waited.
Qed.

Lemma waited_rssi (s : Sys D) : waited s (snd (rssi_post s)) 0.
Proof.
  unfold rssi_post. destruct (_initialized (drv s)); [cbn [negb snd] | apply waited_refl].
  solve_waited.
Qed.

Lemma waited_begin sda scl clk (s : Sys D) :
  waited s (snd (begin_post sda scl clk s))
    (if reg (drv (read_post (begin_pre sda scl clk s))) REG_DEVICEID =? 0 then 10 else 120).
Proof.
  unfold begin_post. destruct (_ =? 0); cbn [snd];
    unfold begin_pre, Wire.delay, Wire.setClock, Wire.begin; solve_waited.
Qed.

End Posts.

Section Commands.
Context {D : Type} `{!Wire.I2CDevice D}.

Lemma wait_of_max c (s : Sys D) : 0 <= wait_of c s <= max_wait c.
Proof. destruct c; cbn; repeat case_match; lia. Qed.

(** C14: every command, on any device, only appends to the bus trace,
    and the waits it appends are exactly [wait_of c s]: [begin] blocks
    10 ms when DEVICEID reads 0 and 120 ms otherwise, [reset] 120 ms and
    [setFrequency] 60 ms on an initialized driver, nothing otherwise; so
    no command blocks longer than [max_wait c] (120 ms). *)
Theorem exec_waits c (s s' : Sys D) r :
  exec c s = Some (r, s') -> waited s s' (wait_of c s) /\ wait_of c s <= max_wait c.
Proof.
  intros E. split; [|apply wait_of_max].
  destruct c; cbn [exec] in E; rewrite run_bind in E.
  - rewrite begin_run in E. destruct (begin_post _ _ _ s) as [b s1] eqn:Eb.
    cbn beta iota in E. injection E as _ <-.
    change s1 with (snd (b, s1)). rewrite <- Eb. apply waited_begin.
  - rewrite reset_run in E. cbn beta iota in E. injection E as _ <-. apply waited_reset.
  - cbn [wait_of]. destruct (_initialized (drv s)) eqn:Hi.
    + destruct (channel_of (clamp mhz)) as [ch|] eqn:Hc.
      * rewrite (setFrequency_run mhz ch s Hi Hc) in E. cbn beta iota in E.
        injection E as _ <-. apply waited_tune.
      * rewrite (setFrequency_ub mhz s Hi Hc) in E. discriminate.
    + rewrite (setFrequency_noinit mhz s Hi) in E. cbn beta iota in E.
      injection E as _ <-. apply waited_refl.
  - cbn in E. injection E as _ <-. apply waited_refl.
  - rewrite setVolume_run in E. cbn beta iota in E. injection E as _ <-. apply waited_volume.
  - rewrite getRSSI_run in E. destruct (rssi_post s) as [z s1] eqn:Er.
    cbn beta iota in E. injection E as _ <-.
    change s1 with (snd (z, s1)). rewrite <- Er. apply waited_rssi.
  - cbn in E. injection E as _ <-. apply waited_refl.
Qed.

End Commands.

Lemma exec_waits_witness :
  exists r s', exec (CBegin 21 22 400000) (demo_sys false demo_block) = Some (r, s') /\
    waited (demo_sys false demo_block) s' (wait_of (CBegin 21 22 400000) (demo_sys false demo_block)) /\
    wait_of (CBegin 21 22 400000) (demo_sys false demo_block) <= 120.
Proof.
  destruct (exec (CBegin 21 22 400000) (demo_sys false demo_block)) as [[r s']|] eqn:E.
  - exists r, s'. split; [reflexivity|]. exact (exec_waits _ _ _ _ E).
  - vm_compute in E. discriminate.
Defined.

End Timing.
